(** * Schema automation: graph construction engine

    A shallow embedding of the FAQ extraction heuristics, the text
    normaliser, the configuration resolver and the JSON-LD graph builders
    of [schema_automation], followed by the properties established about
    them.

    Python strings are sequences of Unicode code points, Python values
    are the JSON-like trees the configuration tables are made of, and the
    parsed page is a tree of elements and text nodes.  Library routines
    the package calls but does not define (Unicode normalisation, the
    calendar, number formatting, URL joining, the page fetcher) are the
    fields of an environment record. *)

From Stdlib Require Import ZArith NArith Lia String Ascii.
From stdpp Require Import base option list gmap.

#[local] Set Warnings "-register-all".
Local Open Scope N_scope.

(* ================================================================== *)
(** ** Python strings *)
(* ================================================================== *)

(** A Python [str]: a sequence of Unicode code points. *)
Definition codepoint := N.
Definition str := list N.

(** Decoding of the UTF-8 bytes of a source literal into code points. *)
Fixpoint utf8_decode (bs : list N) : str :=
  match bs with
  | [] => []
  | b :: r =>
    if b <? 128 then b :: utf8_decode r
    else if b <? 224 then
      match r with
      | c1 :: r1 => ((b - 192) * 64 + (c1 - 128)) :: utf8_decode r1
      | _ => []
      end
    else if b <? 240 then
      match r with
      | c1 :: c2 :: r2 =>
          ((b - 224) * 4096 + (c1 - 128) * 64 + (c2 - 128)) :: utf8_decode r2
      | _ => []
      end
    else
      match r with
      | c1 :: c2 :: c3 :: r3 =>
          ((b - 240) * 262144 + (c1 - 128) * 4096 + (c2 - 128) * 64 + (c3 - 128))
            :: utf8_decode r3
      | _ => []
      end
  end.

Fixpoint bytes_of_string (s : string) : list N :=
  match s with
  | EmptyString => []
  | String a r => N_of_ascii a :: bytes_of_string r
  end.

(** [py "..."] is the Python string written as that literal. *)
Definition py (s : string) : str := utf8_decode (bytes_of_string s).

Fixpoint str_eqb (a b : str) : bool :=
  match a, b with
  | [], [] => true
  | x :: a', y :: b' => (x =? y) && str_eqb a' b'
  | _, _ => false
  end.

(** [str.isspace] on one code point (CPython's [_PyUnicode_IsWhitespace]);
    the same set decides [\s] in [re] patterns over [str] and what
    [str.strip()] removes. *)
Definition is_space (c : N) : bool :=
  ((9 <=? c) && (c <=? 13)) || ((28 <=? c) && (c <=? 32))
  || (c =? 133) || (c =? 160) || (c =? 5760)
  || ((8192 <=? c) && (c <=? 8202))
  || (c =? 8232) || (c =? 8233) || (c =? 8239) || (c =? 8287) || (c =? 12288).

Fixpoint drop_while {A} (f : A -> bool) (l : list A) : list A :=
  match l with
  | [] => []
  | x :: r => if f x then drop_while f r else l
  end.

Definition lstrip_by (f : N -> bool) (s : str) : str := drop_while f s.
Definition rstrip_by (f : N -> bool) (s : str) : str :=
  rev (drop_while f (rev s)).
Definition strip_by (f : N -> bool) (s : str) : str :=
  rstrip_by f (lstrip_by f s).

(** [s.strip()] *)
Definition strip (s : str) : str := strip_by is_space s.

(** [s.strip("-")], [s.rstrip("0")], ...: strip the characters of [chars]. *)
Definition in_chars (chars : str) (c : N) : bool := bool_decide (c ∈ chars).
Definition strip_chars (chars s : str) : str := strip_by (in_chars chars) s.
Definition rstrip_chars (chars s : str) : str := rstrip_by (in_chars chars) s.

(** [sep.join(parts)] *)
Fixpoint join (sep : str) (parts : list str) : str :=
  match parts with
  | [] => []
  | [p] => p
  | p :: r => p ++ sep ++ join sep r
  end.

(** [s.replace(old, new)] for a one-character [old]. *)
Definition replace_char (old : N) (new : str) (s : str) : str :=
  flat_map (fun c => if c =? old then new else [c]) s.

(** [re.sub(r"\s+", " ", s)]: every maximal run of whitespace becomes one
    ASCII space.  [in_run] tells that the previous character was
    whitespace, already replaced. *)
Fixpoint sub_ws (in_run : bool) (s : str) : str :=
  match s with
  | [] => []
  | c :: r =>
    if is_space c then (if in_run then sub_ws true r else 32 :: sub_ws true r)
    else c :: sub_ws false r
  end.

Definition is_ascii_upper (c : N) : bool := (65 <=? c) && (c <=? 90).
Definition is_ascii_lower (c : N) : bool := (97 <=? c) && (c <=? 122).
Definition is_ascii_digit (c : N) : bool := (48 <=? c) && (c <=? 57).
Definition is_ascii_alnum (c : N) : bool :=
  is_ascii_digit c || is_ascii_upper c || is_ascii_lower c.

(** [re.sub(r"[^0-9A-Za-z]+", "-", s)] *)
Fixpoint sub_non_alnum (in_run : bool) (s : str) : str :=
  match s with
  | [] => []
  | c :: r =>
    if is_ascii_alnum c then c :: sub_non_alnum false r
    else if in_run then sub_non_alnum true r else 45 :: sub_non_alnum true r
  end.

(** [Optional[str]] truthiness: [None] and [""] are false. *)
Definition str_truthy (s : str) : bool :=
  match s with [] => false | _ => true end.

(* ================================================================== *)
(** ** Python values *)
(* ================================================================== *)

(** The JSON-like values of the configuration tables and of the graph:
    [None], booleans, integers, floats (written as the decimal literal
    [m * 10^e] that denotes them), strings, lists and insertion-ordered
    dictionaries with string keys. *)
Inductive pyval : Type :=
| PNone
| PBool (b : bool)
| PInt (z : Z)
| PFloat (m e : Z)
| PStr (s : str)
| PList (xs : list pyval)
| PDict (kvs : list (str * pyval)).

Definition dict := list (str * pyval).

(** Literals. *)
Definition S_ (s : string) : pyval := PStr (py s).
Definition kv (k : string) (v : pyval) : str * pyval := (py k, v).

(** Exceptions a call can raise, and results of calls that can raise.
    [FetchError] stands for whatever the page fetcher raises;
    [OutOfModel] marks a run that leaves the values described here (a
    dictionary key that is not a string). *)
Inductive exn :=
| AttributeError
| TypeError
| KeyError
| ValueError (msg : str)
| FetchError
| OutOfModel.

Inductive res (A : Type) : Type :=
| Ok (a : A)
| Raise (e : exn).
Arguments Ok {A} a.
Arguments Raise {A} e.

#[global] Instance res_ret : MRet res := fun A a => Ok a.
#[global] Instance res_bind : MBind res := fun A B f m =>
  match m with
  | Ok a => f a
  | Raise e => Raise e
  end.

(** Truth value of a Python object ([if x], [x or y], [not x]). *)
Definition truthy (v : pyval) : bool :=
  match v with
  | PNone => false
  | PBool b => b
  | PInt z => negb (z =? 0)%Z
  | PFloat m _ => negb (m =? 0)%Z
  | PStr s => str_truthy s
  | PList xs => match xs with [] => false | _ => true end
  | PDict kvs => match kvs with [] => false | _ => true end
  end.

(** [x or y] *)
Definition py_or (x y : pyval) : pyval := if truthy x then x else y.

(** [d[k]] as a lookup, [d.get(k)], [d.get(k, default)], [k in d]. *)
Fixpoint dict_get (k : str) (d : dict) : option pyval :=
  match d with
  | [] => None
  | (k', v) :: r => if str_eqb k k' then Some v else dict_get k r
  end.

Definition get (d : dict) (k : string) : pyval :=
  default PNone (dict_get (py k) d).

Definition get_or (d : dict) (k : string) (dflt : pyval) : pyval :=
  default dflt (dict_get (py k) d).

Definition has_key (k : str) (d : dict) : bool :=
  match dict_get k d with Some _ => true | None => false end.

(** [d[k] = v]: an existing key keeps its place, a new key goes last. *)
Fixpoint dict_set (k : str) (v : pyval) (d : dict) : dict :=
  match d with
  | [] => [(k, v)]
  | (k', v') :: r =>
    if str_eqb k k' then (k', v) :: r else (k', v') :: dict_set k v r
  end.

Definition set_ (k : string) (v : pyval) (d : dict) : dict := dict_set (py k) v d.

(** [d.update(e)], and [{**d, **e}] on a fresh dictionary. *)
Definition dict_update (d e : dict) : dict :=
  fold_left (fun acc p => dict_set (fst p) (snd p) acc) e d.

(** [d.setdefault(k, v)] *)
Definition dict_setdefault (k : str) (v : pyval) (d : dict) : dict :=
  if has_key k d then d else dict_set k v d.

(** [x.get], [x.items()], [x.update], [**x] need a dictionary. *)
Definition as_dict (v : pyval) : res dict :=
  match v with
  | PDict d => Ok d
  | _ => Raise AttributeError
  end.

(** Unpacking [**x] raises [TypeError] on a non-mapping. *)
Definition as_mapping (v : pyval) : res dict :=
  match v with
  | PDict d => Ok d
  | _ => Raise TypeError
  end.

Definition is_dict (v : pyval) : bool :=
  match v with PDict _ => true | _ => false end.
Definition is_str (v : pyval) : bool :=
  match v with PStr _ => true | _ => false end.
Definition is_none (v : pyval) : bool :=
  match v with PNone => true | _ => false end.

(** Numbers compare by value across [bool], [int] and [float]. *)
Definition num_of (v : pyval) : option (Z * Z) :=
  match v with
  | PBool b => Some (Z.b2z b, 0%Z)
  | PInt z => Some (z, 0%Z)
  | PFloat m e => Some (m, e)
  | _ => None
  end.

Definition dec_eqb (x y : Z * Z) : bool :=
  let e := Z.min (snd x) (snd y) in
  (fst x * 10 ^ (snd x - e) =? fst y * 10 ^ (snd y - e))%Z.

(** [a == b] *)
Fixpoint py_eq (a b : pyval) {struct a} : bool :=
  match a, b with
  | PNone, PNone => true
  | PStr s, PStr t => str_eqb s t
  | PList xs, PList ys =>
      (fix go (xs ys : list pyval) : bool :=
         match xs, ys with
         | [], [] => true
         | x :: xs', y :: ys' => py_eq x y && go xs' ys'
         | _, _ => false
         end) xs ys
  | PDict d, PDict d' =>
      (length d =? length d')%nat &&
      (fix go (d : dict) : bool :=
         match d with
         | [] => true
         | (k, v) :: r =>
             match dict_get k d' with
             | Some v' => py_eq v v'
             | None => false
             end && go r
         end) d
  | _, _ =>
      match num_of a, num_of b with
      | Some x, Some y => dec_eqb x y
      | _, _ => false
      end
  end.

(** Only lists and dictionaries are unhashable among these values. *)
Definition hashable (v : pyval) : bool :=
  match v with
  | PList _ | PDict _ => false
  | _ => true
  end.

(** [x in (None, "")] *)
Definition is_none_or_empty (v : pyval) : bool :=
  py_eq v PNone || py_eq v (PStr []).

(** A Python [set] of hashable values, by the elements in it; membership
    is by [==]. *)
Definition pyset := list pyval.
Definition set_mem (v : pyval) (s : pyset) : bool := existsb (py_eq v) s.
Definition set_add (v : pyval) (s : pyset) : pyset :=
  if set_mem v s then s else s ++ [v].

(* ================================================================== *)
(** ** The parsed page *)
(* ================================================================== *)

(** The tree BeautifulSoup builds: elements with their tag name, class
    list and other attributes, and the text strings [get_text] yields
    (comments and the like, which it skips, are left out). *)
Inductive node : Type :=
| Text (s : str)
| Elem (name : str) (classes : list str) (attrs : list (str * str))
       (kids : list node).

Record einfo := { e_name : str; e_classes : list str; e_attrs : list (str * str) }.

(** A [Tag] object: an element together with its place in the tree, its
    ancestors (nearest first) and the siblings that follow it. *)
Record tag := {
  t_info : einfo;
  t_kids : list node;
  t_ancs : list einfo;
  t_next : list node
}.

Definition node_of_tag (t : tag) : node :=
  Elem (e_name (t_info t)) (e_classes (t_info t)) (e_attrs (t_info t)) (t_kids t).

(** All elements below [n], in document order ([n] itself excluded). *)
Fixpoint walk (ancs : list einfo) (n : node) {struct n} : list tag :=
  match n with
  | Text _ => []
  | Elem nm cl ats kids =>
      let ancs' := {| e_name := nm; e_classes := cl; e_attrs := ats |} :: ancs in
      (fix go (ks : list node) : list tag :=
         match ks with
         | [] => []
         | k :: ks' =>
             match k with
             | Text _ => go ks'
             | Elem nm' cl' ats' kids' =>
                 {| t_info := {| e_name := nm'; e_classes := cl'; e_attrs := ats' |};
                    t_kids := kids'; t_ancs := ancs'; t_next := ks' |}
                   :: walk ancs' k ++ go ks'
             end
         end) kids
  end.

Definition descendants (t : tag) : list tag := walk (t_ancs t) (node_of_tag t).

(** The element children of [t]. *)
Fixpoint child_tags (ancs : list einfo) (ks : list node) : list tag :=
  match ks with
  | [] => []
  | Text _ :: ks' => child_tags ancs ks'
  | Elem nm cl ats kids :: ks' =>
      {| t_info := {| e_name := nm; e_classes := cl; e_attrs := ats |};
         t_kids := kids; t_ancs := ancs; t_next := ks' |} :: child_tags ancs ks'
  end.

Definition children (t : tag) : list tag :=
  child_tags (t_info t :: t_ancs t) (t_kids t).

(** A compound selector: [name.class1.class2[attr='value']]. *)
Record compound := {
  c_name : option str;
  c_classes : list str;
  c_attrs : list (str * str)
}.

Definition c_tag (n : string) : compound :=
  {| c_name := Some (py n); c_classes := []; c_attrs := [] |}.
Definition c_class (c : string) : compound :=
  {| c_name := None; c_classes := [py c]; c_attrs := [] |}.
Definition c_tag_class (n c : string) : compound :=
  {| c_name := Some (py n); c_classes := [py c]; c_attrs := [] |}.
Definition c_attr (a v : string) : compound :=
  {| c_name := None; c_classes := []; c_attrs := [(py a, py v)] |}.

Definition compound_match (c : compound) (e : einfo) : bool :=
  match c_name c with
  | Some n => str_eqb n (e_name e)
  | None => true
  end
  && forallb (fun k => bool_decide (k ∈ e_classes e)) (c_classes c)
  && forallb (fun av => bool_decide (av ∈ e_attrs e)) (c_attrs c).

(** The ancestors satisfy the remaining compounds of a descendant chain,
    innermost compound first. *)
Fixpoint anc_match (cs : list compound) (ancs : list einfo) {struct ancs} : bool :=
  match cs with
  | [] => true
  | c :: cs' =>
    match ancs with
    | [] => false
    | a :: ancs' =>
        if compound_match c a then anc_match cs' ancs' else anc_match cs ancs'
    end
  end.

(** A complex selector [A B ... Z] (descendant combinators), as the list
    of its compounds in the order written. *)
Definition selector := list compound.

Definition sel_match (s : selector) (t : tag) : bool :=
  match rev s with
  | [] => false
  | c :: cs => compound_match c (t_info t) && anc_match cs (t_ancs t)
  end.

(** [t.select("s1, s2, ...")] and [t.select_one(...)]. *)
Definition select (sels : list selector) (t : tag) : list tag :=
  filter (fun d => existsb (fun s => sel_match s d) sels = true) (descendants t).

Definition select_one (sels : list selector) (t : tag) : option tag :=
  head (select sels t).

(** [t.select(":scope > name")] *)
Definition select_scope_child (n : string) (t : tag) : list tag :=
  filter (fun d => str_eqb (py n) (e_name (t_info d)) = true) (children t).

(** [t.find_next_sibling()]: the next sibling that is an element. *)
Definition find_next_sibling (t : tag) : option tag :=
  head (child_tags (t_ancs t) (t_next t)).

(** The text strings below a node, in document order. *)
Fixpoint strings (n : node) : list str :=
  match n with
  | Text s => [s]
  | Elem _ _ _ kids =>
      (fix go (ks : list node) : list str :=
         match ks with
         | [] => []
         | k :: ks' => strings k ++ go ks'
         end) kids
  end.

(** [t.get_text(sep, strip=True)] *)
Definition get_text (sep : str) (t : tag) : str :=
  join sep (filter (fun s => str_truthy s = true) (map strip (strings (node_of_tag t)))).

(** [t.string] *)
Fixpoint node_string (n : node) : option str :=
  match n with
  | Text s => Some s
  | Elem _ _ _ [k] => node_string k
  | Elem _ _ _ _ => None
  end.

Definition tag_string (t : tag) : option str :=
  match t_kids t with
  | [k] => node_string k
  | _ => None
  end.

(** [t.get(attr)] for a single-valued attribute. *)
Fixpoint attr_get (a : str) (ats : list (str * str)) : option str :=
  match ats with
  | [] => None
  | (a', v) :: r => if str_eqb a a' then Some v else attr_get a r
  end.

(** [el.decompose()] for every element below [n] that satisfies [kill]. *)
Fixpoint prune (kill : einfo -> bool) (n : node) : node :=
  match n with
  | Text s => Text s
  | Elem nm cl ats kids =>
      Elem nm cl ats
        ((fix go (ks : list node) : list node :=
            match ks with
            | [] => []
            | k :: ks' =>
                match k with
                | Text _ => k :: go ks'
                | Elem nm' cl' ats' _ =>
                    if kill {| e_name := nm'; e_classes := cl'; e_attrs := ats' |}
                    then go ks'
                    else prune kill k :: go ks'
                end
            end) kids)
  end.

(** [el.replace_with(s)] for every element below [n] that satisfies [hit]. *)
Fixpoint replace_with (hit : einfo -> bool) (s : str) (n : node) : node :=
  match n with
  | Text t => Text t
  | Elem nm cl ats kids =>
      Elem nm cl ats
        ((fix go (ks : list node) : list node :=
            match ks with
            | [] => []
            | k :: ks' =>
                match k with
                | Text _ => k :: go ks'
                | Elem nm' cl' ats' _ =>
                    if hit {| e_name := nm'; e_classes := cl'; e_attrs := ats' |}
                    then Text s :: go ks'
                    else replace_with hit s k :: go ks'
                end
            end) kids)
  end.

Definition map_tag (f : node -> node) (t : tag) : tag :=
  match f (node_of_tag t) with
  | Elem nm cl ats kids =>
      {| t_info := {| e_name := nm; e_classes := cl; e_attrs := ats |};
         t_kids := kids; t_ancs := t_ancs t; t_next := t_next t |}
  | Text _ => t
  end.

(* ================================================================== *)
(** ** Library routines *)
(* ================================================================== *)

(** What the package calls and does not define. *)
Record Env := {
  (** [unicodedata.normalize("NFKC", s)] *)
  nfkc : str -> str;
  (** [s.lower()] at a non-ASCII position [i] of [s] *)
  lower_nonascii : str -> nat -> str;
  (** [\w] on a non-ASCII code point *)
  word_nonascii : N -> bool;
  (** [str(v)] of a value that is not a string *)
  py_repr : pyval -> str;
  (** [f"{v:.2f}"] of a number *)
  format_2f : pyval -> str;
  (** [template.format(rates_text=text)] for a template with other
      replacement fields than a plain [{rates_text}] *)
  format_rates : str -> str -> res str;
  (** [(date.today() + timedelta(days=n)).isoformat()] *)
  today_plus : Z -> str;
  (** [date(today.year + 1, 12, 31).isoformat()] *)
  next_year_end : str;
  (** [urljoin(base, url)] *)
  urljoin : str -> str -> str;
  (** [BeautifulSoup(html, "lxml")] *)
  parse_lxml : str -> tag;
  (** [fetch_html(url)]: markup, base URL and final URL, or a failure *)
  fetch_html : str -> res (str * str * str)
}.

(* ================================================================== *)
(** ** extraction/text.py *)
(* ================================================================== *)

Section Extraction.
Context (E : Env).

(** [clean_text]: NFKC, no-break space to space, zero-width space
    dropped, whitespace runs collapsed, ends trimmed. *)
Definition clean_text (value : option str) : str :=
  let normalized := nfkc E (default [] value) in
  let normalized := replace_char 8203 [] (replace_char 160 [32] normalized) in
  let normalized := sub_ws false normalized in
  strip normalized.

Definition kill_names : list str :=
  map py ["script"; "style"; "noscript"; "template"; "svg"; "canvas"; "iframe";
          "form"; "button"; "select"; "input"; "textarea"; "header"; "footer";
          "nav"]%string.

(** [extract_flat_text] *)
Definition extract_flat_text (body : option tag) : str :=
  match body with
  | None => []
  | Some body =>
      let body := map_tag (prune (fun e => bool_decide (e_name e ∈ kill_names))) body in
      let body :=
        map_tag (replace_with (fun e => bool_decide (e_name e ∈ [py "br"; py "hr"]))
                              (py " ")) body in
      clean_text (Some (get_text (py " ") body))
  end.

(* ================================================================== *)
(** ** extraction/faqs.py *)
(* ================================================================== *)

(** [".+\?$"] matched at the head of [s]: one or more characters other
    than a newline, a question mark, then the end of the string or its
    final newline. *)
Fixpoint question_tail (some : bool) (s : str) : bool :=
  match s with
  | [] => false
  | c :: r =>
      (some && (c =? 63) && match r with [] | [10] => true | _ => false end)
      || (negb (c =? 10) && question_tail true r)
  end.

(** [QUESTION_RE.search(s) is not None] for [QUESTION_RE = "¿.+\?$"]. *)
Fixpoint question_re_search (s : str) : bool :=
  match s with
  | [] => false
  | c :: r => ((c =? 191) && question_tail false r) || question_re_search r
  end.

Definition nonempty (l : list str) : list str :=
  filter (fun s => str_truthy s = true) l.

(** [_extract_answer_text] *)
Definition _extract_answer_text (body : tag) : str :=
  let paragraphs :=
    nonempty (map (fun p => clean_text (Some (get_text (py " ") p)))
                  (select [[c_tag "p"]] body)) in
  let lists :=
    flat_map
      (fun lst =>
         let items :=
           map (fun li_txt => py "• " ++ li_txt)
               (nonempty (map (fun li => clean_text (Some (get_text (py " ") li)))
                              (select_scope_child "li" lst))) in
         match items with
         | [] => []
         | _ => [join [10] items]
         end)
      (select [[c_tag "ul"]; [c_tag "ol"]] body) in
  let chunks := paragraphs ++ lists in
  let chunks :=
    match chunks with
    | [] => nonempty [clean_text (Some (get_text (py " ") body))]
    | _ => chunks
    end in
  strip (join [10; 10] chunks).

(** A FAQ entry, [{"question": q, "answer": a}]: a [Dict[str, str]]. *)
Definition faq_entry := list (str * str).
Definition faq_dict (q a : str) : faq_entry := [(py "question", q); (py "answer", a)].
Definition entry_get (k : string) (f : faq_entry) : str :=
  default [] (attr_get (py k) f).
Definition faq_key (f : faq_entry) : str * str :=
  (entry_get "question" f, entry_get "answer" f).

(** The closing loop of both strategies: keep an entry unless its
    [(question, answer)] key was seen. *)
Definition unique_step (st : gset (str * str) * list faq_entry) (faq : faq_entry)
  : gset (str * str) * list faq_entry :=
  let key := faq_key faq in
  if bool_decide (key ∈ fst st) then st
  else ({[key]} ∪ fst st, snd st ++ [faq]).

Definition unique_faqs (faqs : list faq_entry) : list faq_entry :=
  snd (fold_left unique_step faqs (∅, [])).

(** One [li] of an accordion root: the entry it contributes, if any. *)
Definition accordion_item (li : tag) : option faq_entry :=
  let question_node :=
    match select_one [[c_tag_class "h3" "accordion-label"]] li with
    | Some n => Some n
    | None => select_one [[c_class "accordion__projected-title"; c_tag "h3"]] li
    end in
  match question_node with
  | None => None
  | Some question_node =>
      let question := clean_text (Some (get_text (py " ") question_node)) in
      let question :=
        if str_truthy question && negb (question_re_search question)
        then (if str_truthy question then question else [])
        else question in
      let body :=
        match select_one [[c_class "accordion__body"];
                          [c_class "accordion__body-container"]] li with
        | Some b => Some b
        | None =>
            match select_one [[c_class "accordion__heading"]] li with
            | Some heading => find_next_sibling heading
            | None => None
            end
        end in
      match body with
      | None => None
      | Some body =>
          let answer := _extract_answer_text body in
          if str_truthy answer then Some (faq_dict question answer) else None
      end
  end.

(** The entries collected before de-duplication. *)
Definition accordion_entries (soup : tag) : list faq_entry :=
  let roots := select [[c_tag "accordion-list"; c_tag_class "ul" "accordion-list"]] soup in
  flat_map (fun root => omap accordion_item (select_scope_child "li" root)) roots.

(** [extract_faqs_from_nx_accordion] *)
Definition extract_faqs_from_nx_accordion (soup : tag) : list faq_entry :=
  unique_faqs (accordion_entries soup).

Definition fallback_item (n : tag) : option faq_entry :=
  let question := clean_text (Some (get_text (py " ") n)) in
  if negb (str_truthy question) || negb (bool_decide (63 ∈ question)) then None
  else
    let answer :=
      match find_next_sibling n with
      | Some sibling => clean_text (Some (get_text (py " ") sibling))
      | None => []
      end in
    if str_truthy question && str_truthy answer
    then Some (faq_dict question answer) else None.

Definition fallback_entries (soup : tag) : list faq_entry :=
  omap fallback_item (select [[c_tag "h3"]; [c_tag "button"]] soup).

(** [extract_faqs_fallback] *)
Definition extract_faqs_fallback (soup : tag) : list faq_entry :=
  unique_faqs (fallback_entries soup).

(** [extract_faqs] *)
Definition extract_faqs (soup : tag) : list faq_entry :=
  match extract_faqs_from_nx_accordion soup with
  | [] => extract_faqs_fallback soup
  | faqs => faqs
  end.

(* ================================================================== *)
(** ** extraction/meta.py *)
(* ================================================================== *)

Record basic_meta := { m_title : str; m_description : str; m_image : str }.

Definition meta_content (attr value : string) (soup : tag) : str :=
  match select_one [[{| c_name := Some (py "meta"); c_classes := [];
                        c_attrs := [(py attr, py value)] |}]] soup with
  | None => []
  | Some t =>
      match attr_get (py "content") (e_attrs (t_info t)) with
      | Some content => if str_truthy content then strip content else []
      | None => []
      end
  end.

(** [extract_basic_meta] *)
Definition extract_basic_meta (base_url : option str) (soup : tag) : basic_meta :=
  let title :=
    match select_one [[c_tag "title"]] soup with
    | Some t =>
        match tag_string t with
        | Some s => if str_truthy s then strip s else []
        | None => []
        end
    | None => []
    end in
  let og_title := meta_content "property" "og:title" soup in
  let title := if str_truthy og_title then og_title else title in
  let description :=
    let d := meta_content "name" "description" soup in
    if str_truthy d then d else meta_content "property" "og:description" soup in
  let image := meta_content "property" "og:image" soup in
  let image :=
    match base_url with
    | Some b => if str_truthy b && str_truthy image then urljoin E b image else image
    | None => image
    end in
  {| m_title := title; m_description := description; m_image := image |}.

End Extraction.

(* ================================================================== *)
(** ** config.py *)
(* ================================================================== *)

Definition DEFAULT_PRICE_VALIDITY_DAYS : Z := 365.

(** [default_price_valid_until()] *)
Definition default_price_valid_until (E : Env) : pyval :=
  PStr (today_plus E DEFAULT_PRICE_VALIDITY_DAYS).

Definition DEFAULT_AGG_RATING : dict :=
  [ kv "@type" (S_ "AggregateRating");
    kv "ratingValue" (PFloat 46 (-1));
    kv "ratingCount" (PInt 991000);
    kv "bestRating" (PInt 5);
    kv "worstRating" (PInt 1) ].

Definition DEFAULT_LANGUAGE : pyval := S_ "es-AR".

Definition logo_nx_jpeg : pyval :=
  S_ "https://images.ctfassets.net/yxlyq25bynna/1IxKUBv3dtISflaWQoSIZW/11e239808ff23ee64b26ba44bfcd93a0/Logo_NX.jpeg".

Definition cuit_identifier : pyval :=
  PDict [ kv "@type" (S_ "PropertyValue");
          kv "propertyID" (S_ "CUIT");
          kv "value" (S_ "30-68537634-9") ].

Definition org_logo (id : string) : pyval :=
  PDict [ kv "@type" (S_ "ImageObject");
          kv "@id" (S_ id);
          kv "url" logo_nx_jpeg;
          kv "contentUrl" logo_nx_jpeg ].

Definition org_tarjeta_naranja : dict :=
  [ kv "@type" (S_ "Organization");
    kv "@id" (S_ "https://www.naranjax.com/#OrgTarjetaNaranja");
    kv "name" (S_ "Tarjeta Naranja S.A.U.");
    kv "url" (S_ "https://www.naranjax.com/");
    kv "logo" (org_logo "https://www.naranjax.com/#LogoTarjetaNaranja");
    kv "sameAs" (PList []);
    kv "identifier" cuit_identifier ].

Definition org_naranja_digital : dict :=
  [ kv "@type" (S_ "Organization");
    kv "@id" (S_ "https://www.naranjax.com/#OrgNaranjaDigital");
    kv "name" (S_ "Naranja Digital Compañía Financiera S.A.U.");
    kv "url" (S_ "https://www.naranjax.com/");
    kv "logo" (org_logo "https://www.naranjax.com/#LogoNaranjaDigital");
    kv "sameAs" (PList []);
    kv "identifier" cuit_identifier ].

Definition org_naranja_x : dict :=
  [ kv "@type" (S_ "Organization");
    kv "@id" (S_ "https://www.naranjax.com/#OrgNaranjaX");
    kv "name" (S_ "Naranja X");
    kv "url" (S_ "https://www.naranjax.com/");
    kv "logo" (org_logo "https://www.naranjax.com/#LogoNaranjaX");
    kv "sameAs" (PList [ S_ "https://www.linkedin.com/company/naranja-x/";
                         S_ "https://twitter.com/naranjax" ]);
    kv "identifier" cuit_identifier ].

Definition ORGANIZATIONS : dict :=
  [ kv "tarjeta_naranja" (PDict org_tarjeta_naranja);
    kv "naranja_digital" (PDict org_naranja_digital);
    kv "naranja_x" (PDict org_naranja_x) ].

Definition NARANJA_X_ADDRESSES : pyval :=
  PList [
    PDict [ kv "@type" (S_ "PostalAddress");
            kv "name" (S_ "Casa Naranja");
            kv "streetAddress" (S_ "La Tablada 451");
            kv "addressLocality" (S_ "Córdoba");
            kv "addressRegion" (S_ "Córdoba");
            kv "postalCode" (S_ "X5000");
            kv "addressCountry" (S_ "AR") ];
    PDict [ kv "@type" (S_ "PostalAddress");
            kv "name" (S_ "Naranja X Buenos Aires");
            kv "streetAddress" (S_ "Leiva 4070");
            kv "addressLocality" (S_ "Ciudad Autónoma de Buenos Aires");
            kv "addressRegion" (S_ "Buenos Aires");
            kv "postalCode" (S_ "C1427BQA");
            kv "addressCountry" (S_ "AR") ] ].

Definition WEBPAGE_DEFAULTS : dict :=
  [ kv "@type" (S_ "WebPage");
    kv "inLanguage" DEFAULT_LANGUAGE;
    kv "isPartOf" (PDict [ kv "@type" (S_ "WebSite");
                           kv "@id" (S_ "https://www.naranjax.com/#website") ]);
    kv "publisher" (PDict [ kv "@id" (get org_tarjeta_naranja "@id") ]) ].

Definition PAYMENT_SERVICE_DEFAULTS : dict :=
  [ kv "area_served" (PDict [ kv "@type" (S_ "Country"); kv "name" (S_ "Argentina") ]);
    kv "provider" (PDict [ kv "org_key" (S_ "naranja_x") ]);
    kv "offer" (PDict [ kv "price_currency" (S_ "ARS");
                        kv "eligible_region" (S_ "AR") ]) ].

Definition INSURANCE_AGENCY_DEFAULTS : dict :=
  [ kv "agency"
      (PDict [ kv "id_suffix" (S_ "#insurance-agency");
               kv "area_served" (PDict [ kv "@type" (S_ "AdministrativeArea");
                                         kv "name" (S_ "Argentina") ]);
               kv "addresses" NARANJA_X_ADDRESSES;
               kv "identifier" (PDict [ kv "propertyID" (S_ "CUIT");
                                        kv "value" (S_ "30-68537634-9") ]);
               kv "logo" (PDict [ kv "id" logo_nx_jpeg;
                                  kv "url" logo_nx_jpeg;
                                  kv "contentUrl" logo_nx_jpeg ]);
               kv "same_as" (PList []) ]);
    kv "product" (PDict [ kv "id_suffix" (S_ "#producto");
                          kv "category" (S_ "Insurance") ]);
    kv "offer" (PDict [ kv "id_suffix" (S_ "#offer-basica");
                        kv "name" (S_ "Cobertura Básica");
                        kv "price_currency" (S_ "ARS");
                        kv "availability" (S_ "https://schema.org/InStock");
                        kv "area_served" (S_ "AR");
                        kv "eligible_region" (S_ "AR") ]) ].

Definition FINANCIAL_PRODUCT_ZERO_RATES : pyval :=
  PDict [ kv "TNA" (PInt 0); kv "TEA" (PInt 0); kv "CFT" (PInt 0) ].

Definition LOAN_OR_CREDIT_DEFAULTS : dict :=
  [ kv "amount" (PDict [ kv "currency" (S_ "ARS");
                         kv "minValue" (PInt 10000);
                         kv "maxValue" (PInt 9000000) ]);
    kv "currency" (S_ "ARS");
    kv "loan_term" (PDict [ kv "@type" (S_ "QuantitativeValue");
                            kv "maxValue" (PInt 48);
                            kv "unitText" (S_ "MONTH") ]);
    kv "interest_rate" (PDict [ kv "minValue" (PFloat 550 (-1));
                                kv "maxValue" (PFloat 1530 (-1));
                                kv "unitText" (S_ "PERCENT") ]);
    kv "annual_percentage_rate" (PDict [ kv "minValue" (PFloat 9111 (-2));
                                         kv "maxValue" (PFloat 45939 (-2));
                                         kv "unitText" (S_ "PERCENT") ]);
    kv "loan_repayment_form"
      (PDict [ kv "@type" (S_ "RepaymentSpecification");
               kv "name" (S_ "Sistema de amortización francés");
               kv "description"
                  (S_ "Cuotas fijas mensuales con interés fijo durante todo el plazo (método francés).") ]) ].

Definition FINANCIAL_PRODUCT_DEFAULTS : dict :=
  [ kv "area_served" (S_ "AR");
    kv "provider" (PDict [ kv "org_key" (S_ "tarjeta_naranja") ]);
    kv "offer" (PDict [ kv "price_currency" (S_ "ARS");
                        kv "billing_increment" (S_ "1");
                        kv "min_price" (S_ "0");
                        kv "area_served" (S_ "AR");
                        kv "valid_from_offset" (PInt 0);
                        kv "valid_through_offset" (PInt 30);
                        kv "description_template"
                           (S_ "Hasta 3 cuotas sin interés. {rates_text}.") ]);
    kv "product" (PDict [ kv "id_suffix" (S_ "#financial-product") ]);
    kv "faq_id_suffix" (S_ "#FAQPage") ].

Definition logo_nx_png : pyval :=
  S_ "https://images.ctfassets.net/yxlyq25bynna/5aunl52F9uDLxXLUC8L7O4/b025683cc1824c386a19c478a5dd46ae/isologo-naranjax.png".

Definition INVESTMENT_OR_DEPOSIT_DEFAULTS : dict :=
  [ kv "area_served" (S_ "AR");
    kv "globals" (PDict [ kv "duration" (S_ ""); kv "interest_rate" (S_ "") ]);
    kv "provider"
      (PDict [ kv "org_key" (S_ "naranja_x");
               kv "overrides"
                  (PDict [ kv "logo"
                     (PDict [ kv "@type" (S_ "ImageObject");
                              kv "@id" (S_ "https://www.naranjax.com/#LogoNaranjaXInvestment");
                              kv "url" logo_nx_png;
                              kv "contentUrl" logo_nx_png ]) ]) ]);
    kv "investment"
      (PDict [ kv "id_suffix" (S_ "#producto");
               kv "types" (PList [ S_ "InvestmentOrDeposit" ]);
               kv "alternate_name" (S_ "Ahorro por objetivos con TNA");
               kv "service_type" (S_ "Ahorro por objetivos con interés (TNA)");
               kv "audience"
                  (PDict [ kv "@type" (S_ "Audience");
                           kv "audienceType" (S_ "Usuarios de banca minorista en Argentina") ]);
               kv "interest_rate" (PDict [ kv "type" (S_ "QuantitativeValue");
                                           kv "unit_text" (S_ "TNA") ]) ]);
    kv "offer" (PDict [ kv "id_suffix" (S_ "#offer");
                        kv "price_currency" (S_ "ARS");
                        kv "area_served" (S_ "AR");
                        kv "eligible_region" (S_ "AR");
                        kv "availability" (S_ "https://schema.org/InStock");
                        kv "valid_from_offset" (PInt 0);
                        kv "valid_through_offset" (PInt 28) ]);
    kv "product" (PDict [ kv "id_suffix" (S_ "#product") ]);
    kv "faq_id_suffix" (S_ "#FAQPage") ].

Definition catalog_item (name url id_suffix : string) : pyval :=
  PDict [ kv "name" (S_ name); kv "url" (S_ url); kv "id_suffix" (S_ id_suffix) ].

Definition OFFER_CATALOGS : dict :=
  [ kv "prestamos"
      (PDict [ kv "name" (S_ "Catálogo de Préstamos");
               kv "items" (PList [
                 catalog_item "Préstamos para monotributistas"
                   "https://www.naranjax.com/prestamos/monotributistas" "#LoanOrCredit";
                 catalog_item "Préstamos express"
                   "https://www.naranjax.com/prestamos/express" "#LoanOrCredit";
                 catalog_item "Préstamos para viajes"
                   "https://www.naranjax.com/prestamos/viajes" "#LoanOrCredit" ]) ]);
    kv "tarjeta_credito"
      (PDict [ kv "name" (S_ "Catálogo de Tarjetas de Crédito");
               kv "items" (PList [
                 catalog_item "Tarjeta Naranja X"
                   "https://www.naranjax.com/tarjetas-de-credito/tarjeta-naranja" "#PaymentCard";
                 catalog_item "Tarjeta Naranja X Visa"
                   "https://www.naranjax.com/tarjetas-de-credito/tarjeta-naranja-visa" "#PaymentCard";
                 catalog_item "Tarjeta Naranja X Mastercard"
                   "https://www.naranjax.com/tarjetas-de-credito/tarjeta-naranja-mastercard" "#PaymentCard" ]) ]);
    kv "seguros"
      (PDict [ kv "name" (S_ "Catálogo de Seguros");
               kv "items" (PList [
                 catalog_item "Seguro de Vida"
                   "https://www.naranjax.com/seguros/vida" "#producto";
                 catalog_item "Seguro para Celulares"
                   "https://www.naranjax.com/seguros/celulares" "#producto";
                 catalog_item "Seguro para Hogar"
                   "https://www.naranjax.com/seguros/hogar" "#producto" ]) ]);
    kv "cuenta"
      (PDict [ kv "name" (S_ "Catálogo de Cuentas");
               kv "items" (PList [
                 catalog_item "Cuenta Remunerada"
                   "https://www.naranjax.com/cuenta-remunerada" "#bankaccount";
                 catalog_item "Cuenta en Dólares"
                   "https://www.naranjax.com/cuenta-dolar" "#bankaccount";
                 catalog_item "Caja de Ahorro"
                   "https://www.naranjax.com/cuentagratuitauniversal" "#bankaccount" ]) ]) ].

(* ================================================================== *)
(** ** models.py *)
(* ================================================================== *)

Record SchemaContext := {
  page_url : str;
  name : str;
  description : option str;
  image_url : option str;
  faqs : list faq_entry;
  body_text : option str;
  aggregate_rating : option dict
}.

Record ExtractionResult := {
  x_title : str;
  x_description : str;
  x_image : str;
  x_faqs : list faq_entry;
  x_body_text : str
}.

Record SchemaRecord := {
  r_url : str;
  r_name : str;
  r_schema_type : str;
  r_extracted : ExtractionResult;
  r_schema : dict
}.

(* ================================================================== *)
(** ** schema/builders.py: the resolver *)
(* ================================================================== *)

(** [deep_merge] on values.  [deepcopy] is the identity on values; the
    store-level reading, where copies are fresh objects, is
    [deep_merge_h] further down.

    [merged_value current value] is what [result[key]] becomes in the
    loop when the result holds [current] under [key] and the overrides
    hold [value]: the recursive merge when both are dictionaries, a copy
    of [value] otherwise. *)
Fixpoint merged_value (current : option pyval) (value : pyval) {struct value} : pyval :=
  match current, value with
  | Some (PDict base), PDict overrides =>
      PDict ((fix loop (result : dict) (items : dict) {struct items} : dict :=
                match items with
                | [] => result
                | (key, v) :: rest =>
                    loop (dict_set key (merged_value (dict_get key result) v) result) rest
                end) base overrides)
  | _, _ => value
  end.

Definition deep_merge (base overrides : dict) : dict :=
  fold_left (fun result p =>
               dict_set (fst p) (merged_value (dict_get (fst p) result) (snd p)) result)
            overrides base.

(** [deep_merge(base, overrides)] with [overrides: Optional[Dict]]: a
    false [overrides] returns the copy of [base]; [overrides.items()]
    needs a dictionary. *)
Definition deep_merge_py (base : dict) (overrides : pyval) : res dict :=
  if truthy overrides then
    o ← as_dict overrides; Ok (deep_merge base o)
  else Ok base.

Definition opt_str (o : option str) : pyval :=
  match o with
  | Some s => PStr s
  | None => PNone
  end.

Definition opt_truthy (o : option str) : bool :=
  match o with
  | Some s => str_truthy s
  | None => false
  end.

(** [x.get(k)] and [x.get(k, default)] on a value that should be a
    dictionary. *)
Definition getv (x : pyval) (k : string) : res pyval :=
  d ← as_dict x; Ok (get d k).
Definition getv_or (x : pyval) (k : string) (dflt : pyval) : res pyval :=
  d ← as_dict x; Ok (get_or d k dflt).

Fixpoint mapM {A B} (f : A -> res B) (l : list A) : res (list B) :=
  match l with
  | [] => Ok []
  | x :: r => y ← f x; ys ← mapM f r; Ok (y :: ys)
  end.

Fixpoint foldM {A B} (f : B -> A -> res B) (l : list A) (b : B) : res B :=
  match l with
  | [] => Ok b
  | x :: r => b' ← f b x; foldM f r b'
  end.

(** [for x in v]: lists yield their elements, strings their characters,
    dictionaries their keys; numbers and [None] are not iterable. *)
Definition py_iter (v : pyval) : res (list pyval) :=
  match v with
  | PList xs => Ok xs
  | PStr s => Ok (map (fun c => PStr [c]) s)
  | PDict d => Ok (map (fun p => PStr (fst p)) d)
  | _ => Raise TypeError
  end.

(** The argument of [d.update(x)] as key/value pairs: a dictionary, or a
    sequence of two-element sequences.  The dictionaries of this model
    have string keys; a pair whose key is not a string leaves the model. *)
Definition update_pair (x : pyval) : res (str * pyval) :=
  match x with
  | PList [PStr k; v] => Ok (k, v)
  | PList [k; v] => if hashable k then Raise OutOfModel else Raise TypeError
  | PStr [a; b] => Ok ([a], PStr [b])
  | PDict [(k1, _); (k2, _)] => Ok (k1, PStr k2)
  | PList _ | PStr _ | PDict _ => Raise (ValueError [])
  | _ => Raise TypeError
  end.

Definition update_pairs (x : pyval) : res dict :=
  match x with
  | PDict e => Ok e
  | PList xs => mapM update_pair xs
  | PStr s => mapM update_pair (map (fun c => PStr [c]) s)
  | _ => Raise TypeError
  end.

Section Builders.
Context (E : Env).

(** [str(v)] and [f"{v}"] *)
Definition fmt (v : pyval) : str :=
  match v with
  | PStr s => s
  | _ => py_repr E v
  end.

(** [organization_reference] *)
Definition organization_reference (org_key_or_data : pyval) : res dict :=
  match org_key_or_data with
  | PDict d => Ok [kv "@id" (get d "@id")]
  | PStr k =>
      match dict_get k ORGANIZATIONS with
      | Some org => d ← as_mapping org; Ok [kv "@id" (get d "@id")]
      | None => Raise KeyError
      end
  | PList _ => Raise TypeError
  | _ => Raise KeyError
  end.

(** The body of both loops of [resolve_organization]: a dictionary
    value is merged one level deep into a dictionary already there, any
    other value replaces. *)
Definition org_apply (base : dict) (key : str) (value : pyval) : dict :=
  match value, dict_get key base with
  | PDict v, Some (PDict b) => dict_set key (PDict (dict_update b v)) base
  | _, _ => dict_set key value base
  end.

(** [ORGANIZATIONS.get(org_key, default)] *)
Definition organizations_get (org_key : pyval) (dflt : pyval) : res pyval :=
  match org_key with
  | PStr k => Ok (default dflt (dict_get k ORGANIZATIONS))
  | _ => if hashable org_key then Ok dflt else Raise TypeError
  end.

(** [resolve_organization] *)
Definition resolve_organization (config : pyval) (default_key : string) : res dict :=
  cfg ← as_dict (py_or config (PDict []));
  let org_key := py_or (get cfg "org_key") (S_ default_key) in
  dflt ← match dict_get (py default_key) ORGANIZATIONS with
         | Some o => Ok o
         | None => Raise KeyError
         end;
  base ← organizations_get org_key dflt;
  base ← as_mapping base;
  let org_id := py_or (get cfg "id") (get cfg "@id") in
  let base :=
    if truthy org_id then
      match filter (fun org => py_eq (match snd org with
                                      | PDict o => get o "@id"
                                      | _ => PNone
                                      end) org_id = true) ORGANIZATIONS with
      | (_, PDict matched) :: _ => if truthy (PDict matched) then matched else base
      | _ => base
      end
    else base in
  let base :=
    fold_left (fun base p =>
                 if existsb (str_eqb (fst p)) [py "org_key"; py "overrides"] then base
                 else org_apply base (fst p) (snd p)) cfg base in
  let overrides := get cfg "overrides" in
  if truthy overrides then
    o ← as_dict overrides;
    Ok (fold_left (fun base p => org_apply base (fst p) (snd p)) o base)
  else Ok base.

(** [append_organization]: the graph and the set of added identifiers
    after the call. *)
Definition append_organization (graph : list dict) (org_data : dict)
    (added_ids : pyset) : res (list dict * pyset) :=
  let org_id := get org_data "@id" in
  if truthy org_id then
    if hashable org_id then
      if set_mem org_id added_ids then Ok (graph, added_ids)
      else Ok (graph ++ [org_data], set_add org_id added_ids)
    else Raise TypeError
  else Ok (graph ++ [org_data], added_ids).

(** [_faq_entities] *)
Definition _faq_entities (faqs : list faq_entry) : list pyval :=
  omap (fun faq =>
          let question := strip (entry_get "question" faq) in
          let answer := strip (entry_get "answer" faq) in
          if negb (str_truthy question) || negb (str_truthy answer) then None
          else Some (PDict [ kv "@type" (S_ "Question");
                             kv "name" (PStr question);
                             kv "acceptedAnswer"
                                (PDict [ kv "@type" (S_ "Answer");
                                         kv "text" (PStr answer) ]) ]))
       faqs.

(** [build_faq_page] *)
Definition build_faq_page (page_url : str) (faqs : list faq_entry) (node_id : pyval)
    (extra : option dict) : option dict :=
  let entities := _faq_entities faqs in
  match entities with
  | [] => None
  | _ =>
      let node := [ kv "@type" (S_ "FAQPage");
                    kv "@id" node_id;
                    kv "inLanguage" DEFAULT_LANGUAGE;
                    kv "mainEntity" (PList entities) ] in
      match extra with
      | Some e => if truthy (PDict e) then Some (dict_update node e) else Some node
      | None => Some node
      end
  end.

(** [build_product_node] *)
Definition build_product_node (page_url : str) (node_id : pyval) (name : pyval)
    (image_url : option str) (aggregate_rating : option dict)
    (description : option str) (extra : option dict) : dict :=
  let node := [ kv "@type" (S_ "Product"); kv "@id" node_id; kv "name" name ] in
  let node := if opt_truthy image_url then set_ "image" (opt_str image_url) node else node in
  let node :=
    match aggregate_rating with
    | Some r => if truthy (PDict r) then set_ "aggregateRating" (PDict r) node else node
    | None => node
    end in
  let node := if opt_truthy description then set_ "description" (opt_str description) node
              else node in
  match extra with
  | Some e => if truthy (PDict e) then dict_update node e else node
  | None => node
  end.

(** [build_offer_node] *)
Definition build_offer_node (page_url : str) (node_id : pyval) (data : dict) : dict :=
  let node := [ kv "@type" (S_ "Offer"); kv "@id" node_id;
                kv "url" (get_or data "url" (PStr page_url)) ] in
  fold_left (fun node p =>
               if str_eqb (fst p) (py "url") then node
               else dict_set (fst p) (snd p) node) data node.

(** [build_webpage_node] *)
Definition build_webpage_node (ctx : SchemaContext) (extra : option dict) : dict :=
  let node := WEBPAGE_DEFAULTS in
  let node := set_ "@id" (PStr (page_url ctx ++ py "#WebPage")) node in
  let node := set_ "url" (PStr (page_url ctx)) node in
  let node := set_ "name" (PStr (name ctx)) node in
  let node := if opt_truthy (description ctx)
              then set_ "description" (opt_str (description ctx)) node else node in
  match extra with
  | Some e => if truthy (PDict e) then dict_update node e else node
  | None => node
  end.

(** [graph.append(x)] when [x] is not [None]. *)
Definition append_opt (graph : list dict) (x : option dict) : list dict :=
  match x with
  | Some n => if truthy (PDict n) then graph ++ [n] else graph
  | None => graph
  end.

(** [re.sub(r"[^0-9A-Za-z]+", "-", s).strip("-")] *)
Definition slug (s : str) : str := strip_chars [45] (sub_non_alnum false s).

(** [\w] *)
Definition is_word (c : N) : bool :=
  if c <? 128 then is_ascii_alnum c || (c =? 95) else word_nonascii E c.

(** [len(re.findall(r"\w+", s))] *)
Fixpoint count_words (in_word : bool) (s : str) : nat :=
  match s with
  | [] => 0
  | c :: r =>
      if is_word c then (if in_word then 0 else 1) + count_words true r
      else count_words false r
  end.

End Builders.

(* ================================================================== *)
(** ** schema/builders.py: the graph builders *)
(* ================================================================== *)

(** The keyword arguments every builder is called with. *)
Record overrides := {
  price_spec : pyval;
  bank_defaults : pyval;
  payment_service_defaults : pyval;
  insurance_defaults : pyval;
  loan_defaults : pyval;
  financial_product_defaults : pyval;
  investment_defaults : pyval;
  blog_defaults : pyval
}.

Definition no_overrides : overrides :=
  {| price_spec := PNone; bank_defaults := PNone; payment_service_defaults := PNone;
     insurance_defaults := PNone; loan_defaults := PNone;
     financial_product_defaults := PNone; investment_defaults := PNone;
     blog_defaults := PNone |}.

Section Graphs.
Context (E : Env).

Definition in_stock : pyval := S_ "https://schema.org/InStock".

Definition url_id (ctx : SchemaContext) (suffix : string) : pyval :=
  PStr (page_url ctx ++ py suffix).

(** The Product node as every builder but the financial-product one
    requests it. *)
Definition product_of (ctx : SchemaContext) (node_id : pyval) (nm : pyval)
    (offer_id : pyval) (extra_mid : dict) : dict :=
  build_product_node (page_url ctx) node_id nm (image_url ctx) (aggregate_rating ctx)
    (description ctx)
    (Some ([kv "url" (PStr (page_url ctx))] ++ extra_mid
           ++ [kv "offers" (PDict [kv "@id" offer_id])])).

(** [build_blog_posting_graph] *)
Definition build_blog_posting_graph (ctx : SchemaContext) (kw : overrides)
  : res (list dict) :=
  cfg ← as_dict (py_or (blog_defaults kw) (PDict []));
  let author_cfg := py_or (get cfg "author") (PDict []) in
  let publisher_cfg := py_or (get cfg "publisher") (PDict []) in
  author_org ← resolve_organization author_cfg "naranja_x";
  publisher_org ← resolve_organization publisher_cfg "naranja_x";
  let editor_names :=
    py_or (get cfg "editors") (PList [S_ "Natalí Ciappini"; S_ "Francisco Piccini"]) in
  names ← py_iter editor_names;
  let editors :=
    map (fun nm => PDict [kv "@type" (S_ "Person"); kv "name" nm])
        (filter (fun nm => truthy nm = true) names) in
  let article_body := default [] (body_text ctx) in
  let word_count :=
    if str_truthy article_body then PInt (Z.of_nat (count_words E false article_body))
    else PNone in
  author_ref ← organization_reference (PDict author_org);
  let author_ref := set_ "@type" (S_ "Organization") author_ref in
  publisher_ref ← organization_reference (PDict publisher_org);
  let publisher_ref := set_ "@type" (S_ "Organization") publisher_ref in
  let blog_posting :=
    [ kv "@type" (S_ "BlogPosting");
      kv "@id" (url_id ctx "#BlogPosting");
      kv "url" (PStr (page_url ctx));
      kv "headline" (get_or cfg "headline" (PStr (name ctx)));
      kv "description" (get_or cfg "description" (opt_str (description ctx)));
      kv "mainEntityOfPage" (PDict [kv "@type" (S_ "WebPage");
                                    kv "@id" (url_id ctx "#WebPage")]);
      kv "author" (PDict author_ref);
      kv "publisher" (PDict publisher_ref);
      kv "inLanguage" (get_or cfg "in_language" DEFAULT_LANGUAGE) ] in
  let blog_posting :=
    if truthy (PList editors) then set_ "editor" (PList editors) blog_posting
    else blog_posting in
  let blog_posting :=
    if opt_truthy (image_url ctx)
    then set_ "image" (PList [opt_str (image_url ctx)]) blog_posting
    else blog_posting in
  let blog_posting :=
    if str_truthy article_body then set_ "articleBody" (PStr article_body) blog_posting
    else blog_posting in
  let blog_posting :=
    if truthy word_count then set_ "wordCount" word_count blog_posting
    else blog_posting in
  let date_published := py_or (get cfg "date_published") (get cfg "datePublished") in
  let blog_posting :=
    if truthy date_published then set_ "datePublished" date_published blog_posting
    else blog_posting in
  let date_modified := py_or (get cfg "date_modified") (get cfg "dateModified") in
  let blog_posting :=
    if truthy date_modified then set_ "dateModified" date_modified blog_posting
    else blog_posting in
  let article_section := py_or (get cfg "article_section") (get cfg "articleSection") in
  let blog_posting :=
    if truthy article_section then set_ "articleSection" article_section blog_posting
    else blog_posting in
  let keywords := get cfg "keywords" in
  let blog_posting :=
    if truthy keywords then set_ "keywords" keywords blog_posting else blog_posting in
  let extra_fields := py_or (get cfg "extra") (PDict []) in
  blog_posting ←
    (if truthy extra_fields then
       e ← update_pairs extra_fields; Ok (dict_update blog_posting e)
     else Ok blog_posting);
  let graph := [blog_posting] in
  let webpage_overrides :=
    [ kv "publisher" (PDict publisher_ref);
      kv "inLanguage" (get_or cfg "in_language" DEFAULT_LANGUAGE) ] in
  let graph := graph ++ [build_webpage_node ctx (Some webpage_overrides)] in
  '(graph, added_orgs) ← append_organization graph author_org [];
  '(graph, added_orgs) ← append_organization graph publisher_org added_orgs;
  Ok graph.

(** [build_payment_card_graph] *)
Definition build_payment_card_graph (ctx : SchemaContext) (kw : overrides)
  : res (list dict) :=
  let offer_id := url_id ctx "#Offer" in
  provider ← organization_reference (S_ "tarjeta_naranja");
  let payment_card :=
    [ kv "@type" (S_ "PaymentCard");
      kv "@id" (url_id ctx "#PaymentCard");
      kv "url" (PStr (page_url ctx));
      kv "name" (PStr (name ctx));
      kv "description" (opt_str (description ctx));
      kv "areaServed" (S_ "AR");
      kv "provider" (PList [PDict provider]);
      kv "mainEntityOfPage" (PStr (page_url ctx));
      kv "offers" (PDict [kv "@id" offer_id]) ] in
  let payment_card :=
    if opt_truthy (image_url ctx)
    then set_ "image" (PDict [ kv "@type" (S_ "ImageObject");
                               kv "@id" (url_id ctx "#PaymentCardImage");
                               kv "url" (opt_str (image_url ctx)) ]) payment_card
    else payment_card in
  let graph := [payment_card] in
  let price_valid_until := default_price_valid_until E in
  let offer :=
    build_offer_node (page_url ctx) offer_id
      [ kv "name" (PStr (name ctx));
        kv "price" (S_ "0");
        kv "priceCurrency" (S_ "ARS");
        kv "availability" in_stock;
        kv "areaServed" (S_ "AR");
        kv "priceValidUntil" price_valid_until ] in
  let graph := graph ++ [offer] in
  let product := product_of ctx (url_id ctx "#Product") (PStr (name ctx)) offer_id [] in
  let graph := graph ++ [product] in
  let faq_page := build_faq_page (page_url ctx) (faqs ctx) (url_id ctx "#FAQPage") None in
  let graph := append_opt graph faq_page in
  let graph := graph ++ [build_webpage_node ctx None] in
  org ← resolve_organization (PDict []) "tarjeta_naranja";
  '(graph, added_orgs) ← append_organization graph org [];
  Ok graph.

(** [_quantitative_node], local to the loan builder. *)
Definition _quantitative_node (cfg : pyval) : option dict :=
  match cfg with
  | PDict cfg =>
      let node := [kv "@type" (get_or cfg "@type" (S_ "QuantitativeValue"))] in
      let '(node, has_value) :=
        fold_left
          (fun (st : dict * bool) (key : string) =>
             let value := get cfg key in
             if negb (is_none value)
             then (set_ key value (fst st),
                   if negb (str_eqb (py key) (py "unitText")) then true else snd st)
             else st)
          ["minValue"; "maxValue"; "unitText"; "value"]%string (node, false) in
      if has_value || (1 <? length node)%nat then Some node else None
  | _ => None
  end.

(** [build_loan_or_credit_graph] *)
Definition build_loan_or_credit_graph (ctx : SchemaContext) (kw : overrides)
  : res (list dict) :=
  defaults ← deep_merge_py LOAN_OR_CREDIT_DEFAULTS (py_or (loan_defaults kw) (PDict []));
  let amount_cfg := get_or defaults "amount" (PDict []) in
  currency_value ←
    (if truthy (get defaults "currency") then Ok (get defaults "currency")
     else getv amount_cfg "currency");
  let loan_term_cfg := get_or defaults "loan_term" (PDict []) in
  let interest_rate_cfg := get_or defaults "interest_rate" (PDict []) in
  let apr_cfg := get_or defaults "annual_percentage_rate" (PDict []) in
  let repayment_cfg := get_or defaults "loan_repayment_form" (PDict []) in
  let loan_type_value := py_or (get defaults "loan_type") (PStr (name ctx)) in
  let offer_id := url_id ctx "#Offer" in
  p1 ← organization_reference (S_ "naranja_digital");
  p2 ← organization_reference (S_ "tarjeta_naranja");
  let loan_node :=
    [ kv "@type" (S_ "LoanOrCredit");
      kv "@id" (url_id ctx "#LoanOrCredit");
      kv "url" (PStr (page_url ctx));
      kv "name" (PStr (name ctx));
      kv "provider" (PList [PDict p1; PDict p2]);
      kv "mainEntityOfPage" (PStr (page_url ctx));
      kv "offers" (PDict [kv "@id" offer_id]);
      kv "loanType" loan_type_value ] in
  let loan_node :=
    if truthy currency_value then set_ "currency" currency_value loan_node
    else loan_node in
  let loan_node :=
    match amount_cfg with
    | PDict cfg =>
        if truthy amount_cfg then
          let amount_node := [kv "@type" (S_ "MonetaryAmount")] in
          let amount_currency := get_or cfg "currency" currency_value in
          let amount_node :=
            if truthy amount_currency then set_ "currency" amount_currency amount_node
            else amount_node in
          let amount_node :=
            fold_left (fun node (key : string) =>
                         let value := get cfg key in
                         if negb (is_none value) then set_ key value node else node)
                      ["minValue"; "maxValue"]%string amount_node in
          if (1 <? length amount_node)%nat
          then set_ "amount" (PDict amount_node) loan_node else loan_node
        else loan_node
    | _ => loan_node
    end in
  let loan_node := match _quantitative_node loan_term_cfg with
                   | Some term_node =>
                       if truthy (PDict term_node)
                       then set_ "loanTerm" (PDict term_node) loan_node else loan_node
                   | None => loan_node
                   end in
  let loan_node := match _quantitative_node interest_rate_cfg with
                   | Some interest_node =>
                       if truthy (PDict interest_node)
                       then set_ "interestRate" (PDict interest_node) loan_node
                       else loan_node
                   | None => loan_node
                   end in
  let loan_node := match _quantitative_node apr_cfg with
                   | Some apr_node =>
                       if truthy (PDict apr_node)
                       then set_ "annualPercentageRate" (PDict apr_node) loan_node
                       else loan_node
                   | None => loan_node
                   end in
  let loan_node :=
    match repayment_cfg with
    | PDict cfg =>
        if truthy repayment_cfg then
          let repayment_node :=
            [kv "@type" (get_or cfg "@type" (S_ "RepaymentSpecification"))] in
          let repayment_node :=
            fold_left (fun node (key : string) =>
                         let value := get cfg key in
                         if truthy value then set_ key value node else node)
                      ["name"; "description"]%string repayment_node in
          if (1 <? length repayment_node)%nat
          then set_ "loanRepaymentForm" (PDict repayment_node) loan_node else loan_node
        else loan_node
    | _ => loan_node
    end in
  let loan_node :=
    if opt_truthy (image_url ctx)
    then set_ "image" (PDict [ kv "@type" (S_ "ImageObject");
                               kv "@id" (url_id ctx "#LoanImage");
                               kv "url" (opt_str (image_url ctx)) ]) loan_node
    else loan_node in
  let graph := [loan_node] in
  let offer_price :=
    match price_spec kw with
    | PDict spec =>
        if truthy (price_spec kw) then
          let price_candidate := get spec "price" in
          if negb (is_none_or_empty price_candidate) then PStr (fmt E price_candidate)
          else S_ "0"
        else S_ "0"
    | _ => S_ "0"
    end in
  let price_valid_until := default_price_valid_until E in
  let offer :=
    build_offer_node (page_url ctx) offer_id
      [ kv "name" (PStr (name ctx));
        kv "priceCurrency" (S_ "ARS");
        kv "areaServed" (S_ "AR");
        kv "availability" in_stock;
        kv "priceValidUntil" price_valid_until;
        kv "price" offer_price ] in
  let graph := graph ++ [offer] in
  let product := product_of ctx (url_id ctx "#Product") (PStr (name ctx)) offer_id [] in
  let graph := graph ++ [product] in
  let faq_page := build_faq_page (page_url ctx) (faqs ctx) (url_id ctx "#FAQPage") None in
  let graph := append_opt graph faq_page in
  let graph := graph ++ [build_webpage_node ctx None] in
  org1 ← resolve_organization (PDict []) "naranja_digital";
  '(graph, added_orgs) ← append_organization graph org1 [];
  org2 ← resolve_organization (PDict []) "tarjeta_naranja";
  '(graph, added_orgs) ← append_organization graph org2 added_orgs;
  Ok graph.

(** [build_bank_account_graph] *)
Definition build_bank_account_graph (ctx : SchemaContext) (kw : overrides)
  : res (list dict) :=
  cfg ← as_dict (py_or (bank_defaults kw) (PDict []));
  let price_currency := get_or cfg "price_currency" (S_ "ARS") in
  let valid_from := get_or cfg "valid_from" (PStr (today_plus E 0)) in
  let valid_through := get_or cfg "valid_through" (PStr (next_year_end E)) in
  let area_served_place :=
    PDict [ kv "@type" (S_ "Place");
            kv "name" (S_ "Argentina");
            kv "address" (PDict [ kv "@type" (S_ "PostalAddress");
                                  kv "addressCountry" (S_ "AR") ]) ] in
  let offer_id := url_id ctx "#Offer" in
  let bank_account_offer_price := get_or cfg "price" (S_ "0") in
  let bank_account_offer_price :=
    if is_none_or_empty bank_account_offer_price then S_ "0"
    else bank_account_offer_price in
  provider ← organization_reference (S_ "tarjeta_naranja");
  let bank_account :=
    [ kv "@type" (S_ "BankAccount");
      kv "@id" (url_id ctx "#bankaccount");
      kv "name" (PStr (name ctx));
      kv "description" (opt_str (description ctx));
      kv "areaServed" area_served_place;
      kv "provider" (PDict provider);
      kv "offers" (PDict [kv "@id" offer_id]) ] in
  let graph := [bank_account] in
  let price_valid_until :=
    py_or (get cfg "price_valid_until")
          (py_or valid_through (default_price_valid_until E)) in
  seller ← organization_reference (S_ "tarjeta_naranja");
  let offer :=
    build_offer_node (page_url ctx) offer_id
      [ kv "priceCurrency" price_currency;
        kv "availability" in_stock;
        kv "validFrom" valid_from;
        kv "validThrough" valid_through;
        kv "areaServed" area_served_place;
        kv "eligibleRegion" (S_ "AR");
        kv "seller" (PDict seller);
        kv "priceValidUntil" price_valid_until;
        kv "price" bank_account_offer_price ] in
  let graph := graph ++ [offer] in
  let product := product_of ctx (url_id ctx "#Product") (PStr (name ctx)) offer_id [] in
  let graph := graph ++ [product] in
  let faq_page :=
    build_faq_page (page_url ctx) (faqs ctx) (url_id ctx "#faq")
      (Some [ kv "url" (PStr (page_url ctx));
              kv "name" (PStr (py "Preguntas frecuentes sobre " ++ name ctx));
              kv "inLanguage" DEFAULT_LANGUAGE ]) in
  let graph := append_opt graph faq_page in
  let graph := graph ++ [build_webpage_node ctx None] in
  org ← resolve_organization (PDict []) "tarjeta_naranja";
  '(graph, added_orgs) ← append_organization graph org [];
  Ok graph.

(** [build_payment_service_graph] *)
Definition build_payment_service_graph (ctx : SchemaContext) (kw : overrides)
  : res (list dict) :=
  cfg ← deep_merge_py PAYMENT_SERVICE_DEFAULTS
        (py_or (payment_service_defaults kw) (PDict []));
  let area_served :=
    get_or cfg "area_served" (PDict [kv "@type" (S_ "Country"); kv "name" (S_ "Argentina")]) in
  provider ← resolve_organization (get cfg "provider") "naranja_x";
  provider_ref ← organization_reference (PDict provider);
  let service_node :=
    [ kv "@type" (S_ "PaymentService");
      kv "@id" (url_id ctx "#PaymentService");
      kv "name" (PStr (name ctx));
      kv "description" (opt_str (description ctx));
      kv "areaServed" area_served;
      kv "provider" (PDict provider_ref);
      kv "offers" (PDict [kv "@id" (url_id ctx "#Offer")]) ] in
  let service_node :=
    if opt_truthy (image_url ctx) then set_ "image" (opt_str (image_url ctx)) service_node
    else service_node in
  let graph := [service_node] in
  let offer_cfg := get_or cfg "offer" (PDict []) in
  valid_from ← getv_or offer_cfg "valid_from" (PStr (today_plus E 0));
  valid_through ← getv_or offer_cfg "valid_through" (PStr (next_year_end E));
  availability_starts ← getv_or offer_cfg "availability_starts" valid_from;
  pvu ← getv offer_cfg "price_valid_until";
  let price_valid_until := py_or pvu (default_price_valid_until E) in
  price_currency ← getv_or offer_cfg "price_currency" (S_ "ARS");
  eligible_region ← getv_or offer_cfg "eligible_region" (S_ "AR");
  price ← getv_or offer_cfg "price" (S_ "0");
  let offer :=
    build_offer_node (page_url ctx) (url_id ctx "#Offer")
      [ kv "priceCurrency" price_currency;
        kv "areaServed" area_served;
        kv "validFrom" valid_from;
        kv "validThrough" valid_through;
        kv "availabilityStarts" availability_starts;
        kv "eligibleRegion" eligible_region;
        kv "priceValidUntil" price_valid_until;
        kv "price" (py_or price (S_ "0")) ] in
  let graph := graph ++ [offer] in
  brand_ref ← organization_reference (PDict provider);
  let brand_ref := set_ "@type" (S_ "Organization") brand_ref in
  let product :=
    product_of ctx (url_id ctx "#Product") (PStr (name ctx)) (url_id ctx "#Offer")
      [kv "brand" (PDict brand_ref)] in
  let graph := graph ++ [product] in
  let faq_page := build_faq_page (page_url ctx) (faqs ctx) (url_id ctx "#FAQPage") None in
  let graph := append_opt graph faq_page in
  let graph := graph ++ [build_webpage_node ctx None] in
  '(graph, added_orgs) ← append_organization graph provider [];
  Ok graph.

Fixpoint is_prefix (p s : str) : bool :=
  match p, s with
  | [], _ => true
  | a :: p', b :: s' => (a =? b) && is_prefix p' s'
  | _, [] => false
  end.

(** [template.format(rates_text=text)] for a template whose braces are
    the field [{rates_text}] or the escapes [{{] and [}}]; [None] for
    any other template.  [skip] characters are already consumed. *)
Fixpoint format_simple (skip : nat) (text template : str) : option str :=
  match template with
  | [] => Some []
  | c :: r =>
      match skip with
      | S k => format_simple k text r
      | O =>
          if is_prefix (py "{rates_text}") template
          then app text <$> format_simple 11 text r
          else if is_prefix (py "{{") template
          then cons 123 <$> format_simple 1 text r
          else if is_prefix (py "}}") template
          then cons 125 <$> format_simple 1 text r
          else if (c =? 123) || (c =? 125) then None
          else cons c <$> format_simple 0 text r
      end
  end.

(** [timedelta(days=offset)] for the offsets of the default tables. *)
Definition days_of (offset : pyval) : res Z :=
  match offset with
  | PInt z => Ok z
  | PBool b => Ok (Z.b2z b)
  | _ => Raise TypeError
  end.

(** [valid_from]/[valid_through]: the override when true, today plus
    the default offset otherwise. *)
Definition validity_date (override : pyval) (offset : pyval) : res pyval :=
  if truthy override then Ok override
  else z ← days_of offset; Ok (PStr (today_plus E z)).

Definition is_number (v : pyval) : bool :=
  match v with
  | PBool _ | PInt _ | PFloat _ _ => true
  | _ => false
  end.

Definition ends_with (c : N) (s : str) : bool :=
  match rev s with
  | c' :: _ => c' =? c
  | [] => false
  end.

(** One [code value] part of the rates text. *)
Definition rate_part (code : str) (value : pyval) : str :=
  let formatted :=
    if is_number value
    then rstrip_chars [46] (rstrip_chars [48] (format_2f E value))
    else fmt E value in
  let formatted :=
    if str_truthy formatted && negb (ends_with 37 formatted)
    then formatted ++ py " %" else formatted in
  strip (code ++ py " " ++ formatted).

(** The identifier derived from the page name when none is configured. *)
Definition identifier_or_slug (identifier : pyval) (ctx : SchemaContext) : pyval :=
  if truthy identifier then identifier
  else py_or (PStr (slug (name ctx))) PNone.

(** [build_financial_product_graph] *)
Definition build_financial_product_graph (ctx : SchemaContext) (kw : overrides)
  : res (list dict) :=
  let defaults := FINANCIAL_PRODUCT_DEFAULTS in
  overrides ← as_dict (py_or (financial_product_defaults kw) (PDict []));
  let area_served := get_or overrides "area_served" (get_or defaults "area_served" (S_ "AR")) in
  let provider_defaults := get_or defaults "provider" (PDict []) in
  let provider_overrides := get_or overrides "provider" (PDict []) in
  pd ← as_dict provider_defaults;
  provider_cfg ← deep_merge_py pd provider_overrides;
  provider ← resolve_organization (PDict provider_cfg) "tarjeta_naranja";
  let rates := get_or overrides "rates" FINANCIAL_PRODUCT_ZERO_RATES in
  rate_items ← as_dict (py_or rates (PDict []));
  let rate_parts := map (fun p => rate_part (fst p) (snd p)) rate_items in
  let rates_text := join (py ", ") (nonempty rate_parts) in
  offer_defaults ← as_dict (get_or defaults "offer" (PDict []));
  offer_overrides ← as_dict (get_or overrides "offer" (PDict []));
  valid_from ← validity_date (get offer_overrides "valid_from")
                             (get_or offer_defaults "valid_from_offset" (PInt 0));
  valid_through ← validity_date (get offer_overrides "valid_through")
                                (get_or offer_defaults "valid_through_offset" (PInt 30));
  let price_currency :=
    get_or offer_overrides "price_currency" (get_or offer_defaults "price_currency" (S_ "ARS")) in
  let billing_increment :=
    get_or offer_overrides "billing_increment"
           (get_or offer_defaults "billing_increment" (S_ "1")) in
  let min_price :=
    get_or offer_overrides "min_price" (get_or offer_defaults "min_price" (S_ "0")) in
  let offer_area_served :=
    get_or offer_overrides "area_served" (get_or offer_defaults "area_served" area_served) in
  let description_template :=
    get_or offer_overrides "description_template"
           (get_or offer_defaults "description_template"
                   (S_ "Características financieras: {rates_text}.")) in
  let offer_description := get offer_overrides "description" in
  offer_description ←
    (if truthy offer_description then Ok offer_description
     else match description_template with
          | PStr t =>
              match format_simple 0 rates_text t with
              | Some d => Ok (PStr d)
              | None => d ← format_rates E t rates_text; Ok (PStr d)
              end
          | _ => Raise AttributeError
          end);
  let identifier :=
    identifier_or_slug (get_or overrides "identifier" (get defaults "identifier")) ctx in
  product_defaults ← as_dict (get_or defaults "product" (PDict []));
  product_overrides ← as_dict (get_or overrides "product" (PDict []));
  let product_id_suffix :=
    get_or product_overrides "id_suffix" (get_or product_defaults "id_suffix" (S_ "#Product")) in
  let product_id :=
    py_or (get product_overrides "id") (PStr (page_url ctx ++ fmt E product_id_suffix)) in
  let product_name_value :=
    get_or product_overrides "name" (get_or product_defaults "name" (PStr (name ctx))) in
  let faq_id_suffix :=
    get_or overrides "faq_id_suffix" (get_or defaults "faq_id_suffix" (S_ "#FAQPage")) in
  let faq_id := PStr (page_url ctx ++ fmt E faq_id_suffix) in
  let offer_id := url_id ctx "#Offer" in
  provider_ref ← organization_reference (PDict provider);
  let financial_product :=
    [ kv "@type" (S_ "FinancialProduct");
      kv "@id" (url_id ctx "#FinancialProduct");
      kv "name" (PStr (name ctx));
      kv "description" (opt_str (description ctx));
      kv "areaServed" area_served;
      kv "provider" (PDict provider_ref);
      kv "offers" (PDict [kv "@id" offer_id]) ] in
  let financial_product :=
    if opt_truthy (image_url ctx)
    then set_ "image" (opt_str (image_url ctx)) financial_product else financial_product in
  let financial_product :=
    if truthy identifier then set_ "identifier" identifier financial_product
    else financial_product in
  let graph := [financial_product] in
  '(graph, added_orgs) ← append_organization graph provider [];
  let price_valid_until := default_price_valid_until E in
  let offer :=
    build_offer_node (page_url ctx) offer_id
      [ kv "priceCurrency" price_currency;
        kv "areaServed" offer_area_served;
        kv "validFrom" valid_from;
        kv "validThrough" valid_through;
        kv "itemOffered" (PDict [kv "@id" product_id]);
        kv "priceValidUntil" price_valid_until;
        kv "price" min_price;
        kv "priceSpecification"
           (PDict [ kv "@type" (S_ "UnitPriceSpecification");
                    kv "billingIncrement" billing_increment;
                    kv "price" min_price;
                    kv "priceCurrency" price_currency;
                    kv "description" offer_description ]) ] in
  let graph := graph ++ [offer] in
  let product := product_of ctx product_id product_name_value offer_id [] in
  let graph := graph ++ [product] in
  let faq_page := build_faq_page (page_url ctx) (faqs ctx) faq_id None in
  let graph := append_opt graph faq_page in
  let graph := graph ++ [build_webpage_node ctx None] in
  Ok graph.

(** [build_investment_or_deposit_graph] *)
Definition build_investment_or_deposit_graph (ctx : SchemaContext) (kw : overrides)
  : res (list dict) :=
  let defaults := INVESTMENT_OR_DEPOSIT_DEFAULTS in
  overrides ← as_dict (py_or (investment_defaults kw) (PDict []));
  let area_served := get_or overrides "area_served" (get_or defaults "area_served" (S_ "AR")) in
  base_globals ← as_mapping (get_or defaults "globals" (PDict []));
  override_globals ← as_mapping (get_or overrides "globals" (PDict []));
  let combined_globals := dict_update base_globals override_globals in
  pd ← as_dict (get_or defaults "provider" (PDict []));
  provider_cfg ← deep_merge_py pd (get_or overrides "provider" (PDict []));
  provider ← resolve_organization (PDict provider_cfg) "naranja_x";
  investment_defaults_cfg ← as_dict (get_or defaults "investment" (PDict []));
  investment_overrides ← as_dict (get_or overrides "investment" (PDict []));
  let investment_types :=
    get_or investment_overrides "types"
           (get_or investment_defaults_cfg "types" (PList [S_ "InvestmentOrDeposit"])) in
  let investment_types :=
    if is_str investment_types then PList [investment_types] else investment_types in
  let investment_id_suffix :=
    get_or investment_overrides "id_suffix"
           (get_or investment_defaults_cfg "id_suffix" (S_ "#investment")) in
  let investment_id :=
    py_or (get investment_overrides "id")
          (PStr (page_url ctx ++ fmt E investment_id_suffix)) in
  let investment_alternate_name :=
    get_or investment_overrides "alternate_name" (get investment_defaults_cfg "alternate_name") in
  let investment_service_type :=
    get_or investment_overrides "service_type" (get investment_defaults_cfg "service_type") in
  let investment_audience :=
    get_or investment_overrides "audience" (get investment_defaults_cfg "audience") in
  let investment_identifier :=
    identifier_or_slug (get_or overrides "identifier" (get investment_overrides "identifier"))
                       ctx in
  interest_rate_defaults ← as_dict (get_or investment_defaults_cfg "interest_rate" (PDict []));
  interest_rate_overrides ← as_dict (get_or investment_overrides "interest_rate" (PDict []));
  let interest_rate_type :=
    get_or interest_rate_overrides "type"
           (get_or interest_rate_defaults "type" (S_ "QuantitativeValue")) in
  let interest_rate_unit :=
    get_or interest_rate_overrides "unit_text"
           (get_or interest_rate_defaults "unit_text" (S_ "TNA")) in
  let default_rate_value :=
    get_or interest_rate_defaults "value" (get_or combined_globals "interest_rate" (S_ "")) in
  let interest_rate_value := get_or interest_rate_overrides "value" default_rate_value in
  offer_defaults_cfg ← as_dict (get_or defaults "offer" (PDict []));
  offer_overrides ← as_dict (get_or overrides "offer" (PDict []));
  let offer_id_suffix :=
    get_or offer_overrides "id_suffix" (get_or offer_defaults_cfg "id_suffix" (S_ "#offer")) in
  let offer_id :=
    py_or (get offer_overrides "id") (PStr (page_url ctx ++ fmt E offer_id_suffix)) in
  let offer_price_currency :=
    get_or offer_overrides "price_currency"
           (get_or offer_defaults_cfg "price_currency" (S_ "ARS")) in
  let offer_area_served :=
    get_or offer_overrides "area_served" (get_or offer_defaults_cfg "area_served" area_served) in
  let offer_eligible_region :=
    get_or offer_overrides "eligible_region"
           (get_or offer_defaults_cfg "eligible_region" area_served) in
  let offer_availability :=
    get_or offer_overrides "availability"
           (get_or offer_defaults_cfg "availability" in_stock) in
  valid_from ← validity_date (get offer_overrides "valid_from")
                             (get_or offer_defaults_cfg "valid_from_offset" (PInt 0));
  valid_through ← validity_date (get offer_overrides "valid_through")
                                (get_or offer_defaults_cfg "valid_through_offset" (PInt 0));
  let offer_name :=
    get_or offer_overrides "name"
           (if str_truthy (name ctx) then PStr (name ctx)
            else get_or investment_overrides "name" (PStr (name ctx))) in
  let offer_duration :=
    py_or (get_or offer_overrides "eligible_duration"
                  (get_or combined_globals "duration" (S_ ""))) (S_ "") in
  product_defaults_cfg ← as_dict (get_or defaults "product" (PDict []));
  product_overrides ← as_dict (get_or overrides "product" (PDict []));
  let product_id_suffix :=
    get_or product_overrides "id_suffix"
           (get_or product_defaults_cfg "id_suffix" (S_ "#product")) in
  let product_id :=
    py_or (get product_overrides "id") (PStr (page_url ctx ++ fmt E product_id_suffix)) in
  let faq_id_suffix :=
    get_or overrides "faq_id_suffix" (get_or defaults "faq_id_suffix" (S_ "#FAQPage")) in
  let faq_id := PStr (page_url ctx ++ fmt E faq_id_suffix) in
  let interest_rate :=
    [ kv "@type" interest_rate_type; kv "unitText" interest_rate_unit ] in
  let investment_node :=
    [ kv "@type" investment_types;
      kv "@id" investment_id;
      kv "name" (PStr (name ctx));
      kv "description" (opt_str (description ctx));
      kv "areaServed" area_served;
      kv "mainEntityOfPage" (PStr (page_url ctx));
      kv "provider" (PDict provider);
      kv "offers" (PDict [kv "@id" offer_id]);
      kv "interestRate" (PDict interest_rate) ] in
  let investment_node :=
    if truthy investment_alternate_name
    then set_ "alternateName" investment_alternate_name investment_node
    else investment_node in
  let investment_node :=
    if truthy investment_service_type
    then set_ "serviceType" investment_service_type investment_node
    else investment_node in
  let investment_node :=
    if truthy investment_audience
    then set_ "audience" investment_audience investment_node
    else investment_node in
  let investment_node :=
    if opt_truthy (image_url ctx)
    then set_ "image" (opt_str (image_url ctx)) investment_node else investment_node in
  let investment_node :=
    if truthy investment_identifier
    then set_ "identifier" investment_identifier investment_node else investment_node in
  let investment_node :=
    if negb (is_none_or_empty interest_rate_value)
    then set_ "interestRate" (PDict (set_ "value" interest_rate_value interest_rate))
              investment_node
    else investment_node in
  let graph := [investment_node] in
  '(graph, added_orgs) ← append_organization graph provider [];
  let price_valid_until := default_price_valid_until E in
  let offer :=
    build_offer_node (page_url ctx) offer_id
      [ kv "name" offer_name;
        kv "priceCurrency" offer_price_currency;
        kv "areaServed" offer_area_served;
        kv "eligibleRegion" offer_eligible_region;
        kv "availability" offer_availability;
        kv "validFrom" valid_from;
        kv "validThrough" valid_through;
        kv "priceValidUntil" price_valid_until;
        kv "eligibleDuration" offer_duration ] in
  let graph := graph ++ [offer] in
  let product := product_of ctx product_id (PStr (name ctx)) offer_id [] in
  let graph := graph ++ [product] in
  let faq_page := build_faq_page (page_url ctx) (faqs ctx) faq_id None in
  let graph := append_opt graph faq_page in
  let graph := graph ++ [build_webpage_node ctx None] in
  Ok graph.

(** [build_insurance_agency_graph] *)
Definition build_insurance_agency_graph (ctx : SchemaContext) (kw : overrides)
  : res (list dict) :=
  let defaults := INSURANCE_AGENCY_DEFAULTS in
  overrides ← as_dict (py_or (insurance_defaults kw) (PDict []));
  agency_base ← as_dict (get_or defaults "agency" (PDict []));
  agency_overrides ← as_dict (get_or overrides "agency" (PDict []));
  id_base ← as_mapping (get_or agency_base "identifier" (PDict []));
  id_over ← as_mapping (get_or agency_overrides "identifier" (PDict []));
  let agency_identifier := dict_update id_base id_over in
  let agency_identifier :=
    if negb (truthy (get agency_identifier "propertyID"))
       || negb (truthy (get agency_identifier "value"))
    then PNone else PDict agency_identifier in
  logo_base ← as_mapping (get_or agency_base "logo" (PDict []));
  logo_over ← as_mapping (get_or agency_overrides "logo" (PDict []));
  let agency_logo := dict_update logo_base logo_over in
  let agency_logo :=
    if negb (truthy (get agency_logo "url")) && opt_truthy (image_url ctx)
    then set_ "url" (opt_str (image_url ctx)) agency_logo else agency_logo in
  let agency_same_as :=
    get_or agency_overrides "same_as" (get_or agency_base "same_as" (PList [])) in
  let agency_same_as :=
    if is_str agency_same_as then PList [agency_same_as] else agency_same_as in
  let area_served :=
    get_or overrides "area_served" (get_or agency_base "area_served" (S_ "AR")) in
  let addresses := get_or overrides "addresses" (get agency_base "addresses") in
  let agency_id_suffix :=
    get_or agency_overrides "id_suffix"
           (get_or agency_base "id_suffix" (S_ "#insurance-agency")) in
  let agency_id :=
    py_or (get agency_overrides "id") (PStr (page_url ctx ++ fmt E agency_id_suffix)) in
  let agency_node :=
    [ kv "@type" (S_ "InsuranceAgency");
      kv "@id" agency_id;
      kv "name" (PStr (name ctx));
      kv "description" (opt_str (description ctx));
      kv "areaServed" area_served;
      kv "url" (PStr (page_url ctx)) ] in
  let agency_node :=
    if truthy agency_identifier then set_ "identifier" agency_identifier agency_node
    else agency_node in
  let agency_node :=
    if truthy (PDict agency_logo) then set_ "logo" (PDict agency_logo) agency_node
    else agency_node in
  let agency_node :=
    if truthy addresses then set_ "address" addresses agency_node else agency_node in
  let agency_node :=
    if truthy agency_same_as then set_ "sameAs" agency_same_as agency_node
    else agency_node in
  let graph := [agency_node] in
  offer_defaults ← as_dict (get_or defaults "offer" (PDict []));
  offer_overrides ← as_dict (get_or overrides "offer" (PDict []));
  let offer_id_suffix :=
    get_or offer_overrides "id_suffix" (get_or offer_defaults "id_suffix" (S_ "#offer")) in
  let offer_id :=
    py_or (get offer_overrides "id") (PStr (page_url ctx ++ fmt E offer_id_suffix)) in
  let offer_name :=
    get_or offer_overrides "name" (get_or offer_defaults "name" (PStr (name ctx))) in
  let offer_price_currency :=
    get_or offer_overrides "price_currency" (get_or offer_defaults "price_currency" (S_ "ARS")) in
  let offer_availability :=
    get_or offer_overrides "availability" (get_or offer_defaults "availability" in_stock) in
  let offer_area_served :=
    get_or offer_overrides "area_served" (get_or offer_defaults "area_served" (S_ "AR")) in
  let offer_eligible_region :=
    get_or offer_overrides "eligible_region"
           (get_or offer_defaults "eligible_region" (S_ "AR")) in
  let offer_price :=
    py_or (get_or offer_overrides "price" (get_or offer_defaults "price" (S_ "0"))) (S_ "0") in
  let price_valid_until :=
    py_or (get offer_overrides "price_valid_until") (default_price_valid_until E) in
  let offer :=
    build_offer_node (page_url ctx) offer_id
      [ kv "name" offer_name;
        kv "priceCurrency" offer_price_currency;
        kv "availability" offer_availability;
        kv "areaServed" offer_area_served;
        kv "eligibleRegion" offer_eligible_region;
        kv "priceValidUntil" price_valid_until;
        kv "price" offer_price ] in
  let graph := graph ++ [offer] in
  product_defaults ← as_dict (get_or defaults "product" (PDict []));
  product_overrides ← as_dict (get_or overrides "product" (PDict []));
  let product_id_suffix :=
    get_or product_overrides "id_suffix" (get_or product_defaults "id_suffix" (S_ "#producto")) in
  let product_id :=
    py_or (get product_overrides "id") (PStr (page_url ctx ++ fmt E product_id_suffix)) in
  let product := product_of ctx product_id (PStr (name ctx)) offer_id [] in
  let product_category :=
    get_or product_overrides "category" (get product_defaults "category") in
  let product :=
    if truthy product_category then set_ "category" product_category product else product in
  let graph := graph ++ [product] in
  let faq_page := build_faq_page (page_url ctx) (faqs ctx) (url_id ctx "#FAQPage") None in
  let graph := append_opt graph faq_page in
  let graph := graph ++ [build_webpage_node ctx None] in
  org ← resolve_organization (PDict [kv "@id" agency_id]) "naranja_x";
  '(graph, added_orgs) ← append_organization graph org [];
  Ok graph.

(** The builder registry. *)
Definition builder := SchemaContext -> overrides -> res (list dict).

Definition SCHEMA_BUILDERS : list (str * builder) :=
  [ (py "payment_card", build_payment_card_graph);
    (py "loan_or_credit", build_loan_or_credit_graph);
    (py "bank_account", build_bank_account_graph);
    (py "payment_service", build_payment_service_graph);
    (py "investment_or_deposit", build_investment_or_deposit_graph);
    (py "insurance_agency", build_insurance_agency_graph);
    (py "financial_product", build_financial_product_graph);
    (py "blog_posting", build_blog_posting_graph) ].

Fixpoint builders_get (k : str) (l : list (str * builder)) : option builder :=
  match l with
  | [] => None
  | (k', b) :: r => if str_eqb k k' then Some b else builders_get k r
  end.

End Graphs.

(* ================================================================== *)
(** ** schema/builders.py: the offer catalogue *)
(* ================================================================== *)

Section Workflow.
Context (E : Env).

(** One entry of [itemListElement], or nothing when the item has no
    name or no URL. *)
Definition catalog_offer (node_id : str) (catalog : dict) (idx : nat) (item : pyval)
  : res (option pyval) :=
  item ← as_dict item;
  let nm := get item "name" in
  let url := get item "url" in
  if negb (truthy nm) || negb (truthy url) then Ok None
  else
    let offer_id := PStr (node_id ++ py "-Offer" ++ py_repr E (PInt (Z.of_nat idx))) in
    let item_id_override := py_or (get item "item_id") (get item "@id") in
    let id_suffix := get item "id_suffix" in
    let item_type := get_or item "item_type" (S_ "Product") in
    let item_offered :=
      if truthy item_id_override then [kv "@id" item_id_override]
      else if truthy id_suffix && truthy url
      then [kv "@id" (PStr (fmt E url ++ fmt E id_suffix))]
      else
        let io := [kv "@type" item_type; kv "name" nm] in
        if truthy url then set_ "url" url io else io in
    let offer_props :=
      match get item "offer" with
      | PDict o => o
      | _ => []
      end in
    let offer_price := get_or offer_props "price" (get_or catalog "default_price" (S_ "0")) in
    let offer_price := if is_none_or_empty offer_price then S_ "0" else offer_price in
    let offer_currency :=
      py_or (get offer_props "priceCurrency")
            (py_or (get offer_props "price_currency")
                   (get_or catalog "price_currency" (S_ "ARS"))) in
    let offer_availability :=
      py_or (get offer_props "availability") (get_or catalog "availability" in_stock) in
    let offer_price_valid_until :=
      py_or (get offer_props "priceValidUntil")
            (py_or (get offer_props "price_valid_until") (get catalog "price_valid_until")) in
    let offer_price_valid_until :=
      if truthy offer_price_valid_until then offer_price_valid_until
      else default_price_valid_until E in
    Ok (Some (PDict [ kv "@type" (S_ "Offer");
                      kv "@id" offer_id;
                      kv "name" nm;
                      kv "price" offer_price;
                      kv "priceCurrency" offer_currency;
                      kv "availability" offer_availability;
                      kv "priceValidUntil" offer_price_valid_until;
                      kv "itemOffered" (PDict item_offered);
                      kv "url" url ])).

Fixpoint catalog_offers (node_id : str) (catalog : dict) (idx : nat) (items : list pyval)
  : res (list pyval) :=
  match items with
  | [] => Ok []
  | item :: rest =>
      o ← catalog_offer node_id catalog idx item;
      os ← catalog_offers node_id catalog (S idx) rest;
      Ok (match o with Some x => x :: os | None => os end)
  end.

(** [build_offer_catalog_node]: the catalogue node and its provider. *)
Definition build_offer_catalog_node (page_url : str) (catalog_key : pyval)
  : res (option dict * option dict) :=
  catalog ← match catalog_key with
            | PStr k => Ok (default PNone (dict_get k OFFER_CATALOGS))
            | _ => if hashable catalog_key then Ok PNone else Raise TypeError
            end;
  if negb (truthy catalog) then Ok (None, None)
  else
    catalog ← as_dict catalog;
    let node_id_suffix :=
      py_or (PStr (slug (fmt E (get catalog "name")))) catalog_key in
    let node_id := page_url ++ py "#OfferCatalog" ++ fmt E node_id_suffix in
    items ← py_iter (get_or catalog "items" (PList []));
    item_list ← catalog_offers node_id catalog 1 items;
    match item_list with
    | [] => Ok (None, None)
    | _ =>
        let catalog_node :=
          [ kv "@type" (S_ "OfferCatalog");
            kv "@id" (PStr node_id);
            kv "name" (get catalog "name");
            kv "itemListElement" (PList item_list) ] in
        let provider_key := get_or catalog "provider" (S_ "naranja_x") in
        provider_org ← organizations_get provider_key PNone;
        match provider_org with
        | PDict o => Ok (Some catalog_node, if truthy provider_org then Some o else None)
        | _ => Ok (Some catalog_node, None)
        end
    end.

(* ================================================================== *)
(** ** service/workflow.py *)
(* ================================================================== *)

(** [s.lower()] *)
Definition lower (s : str) : str :=
  concat (imap (fun i c =>
                  if c <? 128 then [if is_ascii_upper c then c + 32 else c]
                  else lower_nonascii E s i) s).

(** [re.sub(r"(?<!^)(?=[A-Z])", "_", s)]: an underscore before every
    ASCII capital that is not the first character. *)
Fixpoint underscore_capitals (at_start : bool) (s : str) : str :=
  match s with
  | [] => []
  | c :: r =>
      (if negb at_start && is_ascii_upper c then [95; c] else [c])
        ++ underscore_capitals false r
  end.

(** [_schema_type_key] *)
Definition _schema_type_key (schema_type : str) : str :=
  strip (replace_char 45 [95] (lower (underscore_capitals true schema_type))).

(** [_select_body_node] *)
Definition _select_body_node (soup : tag) : option tag :=
  let candidates :=
    [ select_one [[c_tag "article"]] soup;
      select_one [[c_tag "main"]] soup;
      select_one [[c_attr "role" "main"]] soup;
      select_one [[c_tag "body"]] soup ] in
  head (omap (fun c => match c with
                       | Some t => if str_truthy (get_text [] t) then Some t else None
                       | None => None
                       end) candidates).

(** The rating block placed in the context. *)
Definition resolve_aggregate_rating (aggregate_rating : pyval) : res (option dict) :=
  let agg_source :=
    if negb (is_none aggregate_rating) then aggregate_rating
    else PDict DEFAULT_AGG_RATING in
  if truthy agg_source then
    d ← as_dict agg_source;
    Ok (Some (dict_setdefault (py "@type") (S_ "AggregateRating") d))
  else Ok None.

(** The identifiers already in the graph, as the catalogue attachment
    collects them. *)
Definition existing_ids (graph_nodes : list dict) : res pyset :=
  foldM (fun ids node =>
           let i := get node "@id" in
           if truthy i then
             if hashable i then Ok (set_add i ids) else Raise TypeError
           else Ok ids) graph_nodes [].

Definition attach_catalog (page_url : str) (offer_catalog_key : pyval)
    (graph_nodes : list dict) : res (list dict) :=
  if truthy offer_catalog_key then
    '(catalog_node, provider_org) ← build_offer_catalog_node page_url offer_catalog_key;
    match catalog_node with
    | Some cn =>
        if truthy (PDict cn) then
          let graph_nodes := graph_nodes ++ [cn] in
          match provider_org with
          | Some po =>
              if truthy (PDict po) && truthy (get po "@id") then
                ids ← existing_ids graph_nodes;
                if negb (set_mem (get po "@id") ids) then Ok (graph_nodes ++ [po])
                else Ok graph_nodes
              else Ok graph_nodes
          | None => Ok graph_nodes
          end
        else Ok graph_nodes
    | None => Ok graph_nodes
    end
  else Ok graph_nodes.

Definition some_if_true (s : str) : option str :=
  if str_truthy s then Some s else None.

(** [build_schema_from_url] *)
Definition build_schema_from_url (url nombre schema_type : str) (kw : overrides)
    (offer_catalog_key : pyval) (aggregate_rating : pyval) : res SchemaRecord :=
  '(html, base_url, final_url) ← fetch_html E url;
  let soup := parse_lxml E html in
  let meta := extract_basic_meta E (Some base_url) soup in
  let faqs := extract_faqs E soup in
  let body_node := _select_body_node soup in
  let body_text :=
    match body_node with
    | Some _ => extract_flat_text E body_node
    | None => []
    end in
  let image_url := m_image meta in
  let description_text := m_description meta in
  agg_rating ← resolve_aggregate_rating aggregate_rating;
  let key := _schema_type_key schema_type in
  match builders_get key (SCHEMA_BUILDERS E) with
  | None => Raise (ValueError (py "schema_type desconocido: " ++ schema_type))
  | Some builder =>
      let context :=
        {| page_url := final_url; name := nombre;
           description := Some description_text;
           image_url := some_if_true image_url;
           faqs := faqs;
           body_text := some_if_true body_text;
           aggregate_rating := agg_rating |} in
      graph_nodes ← builder context kw;
      graph_nodes ← attach_catalog (page_url context) offer_catalog_key graph_nodes;
      let schema_graph :=
        [ kv "@context" (S_ "https://schema.org");
          kv "@graph" (PList (map PDict graph_nodes)) ] in
      let extracted :=
        {| x_title := m_title meta; x_description := description_text;
           x_image := image_url; x_faqs := faqs; x_body_text := body_text |} in
      Ok {| r_url := final_url; r_name := nombre; r_schema_type := schema_type;
            r_extracted := extracted; r_schema := schema_graph |}
  end.

End Workflow.

(* ================================================================== *)
(** ** A concrete environment and a concrete page *)
(* ================================================================== *)

(** The fragment of NFKC the examples need: no-break space becomes a
    space, [a] followed by a combining acute accent (U+0301) composes
    to U+00E1, every other code point is kept.  It is exact on strings
    over [a], the ASCII characters that are not letters, U+00A0, U+200B
    and U+0301. *)
Fixpoint nfkc_fragment (s : str) : str :=
  match s with
  | [] => []
  | c :: r =>
      if c =? 160 then 32 :: nfkc_fragment r
      else if c =? 97 then
        match r with
        | c' :: r' => if c' =? 769 then 225 :: nfkc_fragment r'
                      else c :: nfkc_fragment r
        | [] => [c]
        end
      else c :: nfkc_fragment r
  end.

(** Decimal digits of a natural number. *)
Fixpoint digits (fuel : nat) (n : N) (acc : str) : str :=
  match fuel with
  | O => acc
  | S f => if n <? 10 then (48 + n) :: acc
           else digits f (n / 10) ((48 + n mod 10) :: acc)
  end.

Definition repr_int (z : Z) : str :=
  (if (z <? 0)%Z then [45] else []) ++ digits 64 (Z.abs_N z) [].

Definition sample_page : tag :=
  {| t_info := {| e_name := py "[document]"; e_classes := []; e_attrs := [] |};
     t_kids :=
       [ Elem (py "html") [] []
           [ Elem (py "head") [] []
               [ Elem (py "title") [] [] [Text (py "Préstamo Express")] ];
             Elem (py "body") [] []
               [ Elem (py "accordion-list") [] []
                   [ Elem (py "ul") [py "accordion-list"] []
                       [ Elem (py "li") [] []
                           [ Elem (py "h3") [py "accordion-label"] [] [Text (py "¿Qué es?")];
                             Elem (py "div") [py "accordion__body"] []
                               [ Elem (py "p") [] [] [Text (py "Un préstamo.")] ] ];
                         Elem (py "li") [] []
                           [ Elem (py "h3") [py "accordion-label"] [] [Text (py "¿Cuánto tarda?")];
                             Elem (py "div") [py "accordion__body"] []
                               [ Elem (py "p") [] [] [Text (py "Un   día.")] ] ] ] ] ] ] ];
     t_ancs := []; t_next := [] |}.

Definition sample_env : Env :=
  {| nfkc := nfkc_fragment;
     lower_nonascii := fun s i => match s !! i with Some c => [c] | None => [] end;
     word_nonascii := fun _ => true;
     py_repr := fun v => match v with PInt z => repr_int z | _ => py "<object>" end;
     format_2f := fun v => match v with
                           | PInt z => repr_int z ++ py ".00"
                           | _ => py "0.00"
                           end;
     format_rates := fun t text => Raise KeyError;
     today_plus := fun z => py "today+" ++ repr_int z;
     next_year_end := py "next-year-12-31";
     urljoin := fun _ u => u;
     parse_lxml := fun _ => sample_page;
     fetch_html := fun u => Ok (py "<html>", u, u) |}.

Definition sample_ctx : SchemaContext :=
  {| page_url := py "https://www.naranjax.com/p";
     name := py "Plan Z";
     description := Some (py "Un plan");
     image_url := None;
     faqs := [faq_dict (py "¿Qué es?") (py "Un plan.")];
     body_text := None;
     aggregate_rating := Some DEFAULT_AGG_RATING |}.

(* ================================================================== *)
(** ** The object store: [deep_merge] on objects with identity *)
(* ================================================================== *)

(** To speak of mutation, dictionaries and lists are objects in a store,
    referred to by address; the other values are immutable.  Addresses
    are abstract: a new object takes the first unused one. *)
Local Close Scope N_scope.

Definition loc := nat.

Inductive hval :=
| HNone
| HBool (b : bool)
| HInt (z : Z)
| HFloat (m e : Z)
| HStr (s : str)
| HRef (l : loc).

Inductive hobj :=
| HDict (items : list (str * hval))
| HList (items : list hval).

Definition heap := list hobj.

(** How a call ends: with a value and the store it leaves, with an
    exception, or short of fuel. *)
Inductive outcome (A : Type) :=
| Done (a : A) (h : heap)
| Raised (e : exn)
| Fuel.
Arguments Done {A} a h.
Arguments Raised {A} e.
Arguments Fuel {A}.

Definition alloc (o : hobj) (h : heap) : hval * heap := (HRef (length h), h ++ [o]).

Fixpoint hget (k : str) (items : list (str * hval)) : option hval :=
  match items with
  | [] => None
  | (k', v) :: r => if str_eqb k k' then Some v else hget k r
  end.

Fixpoint hset (k : str) (v : hval) (items : list (str * hval)) : list (str * hval) :=
  match items with
  | [] => [(k, v)]
  | (k', v') :: r =>
    if str_eqb k k' then (k', v) :: r else (k', v') :: hset k v r
  end.

(** [isinstance(v, dict)] *)
Definition h_is_dict (h : heap) (v : hval) : bool :=
  match v with
  | HRef l => match h !! l with Some (HDict _) => true | _ => false end
  | _ => false
  end.

Definition h_truthy (h : heap) (v : hval) : bool :=
  match v with
  | HNone => false
  | HBool b => b
  | HInt z => negb (z =? 0)%Z
  | HFloat m _ => negb (m =? 0)%Z
  | HStr s => str_truthy s
  | HRef l =>
      match h !! l with
      | Some (HDict []) | Some (HList []) | None => false
      | _ => true
      end
  end.

(** Copy the values of a sequence from left to right. *)
Fixpoint copy_vals (copy : hval -> heap -> outcome hval) (vs : list hval) (h : heap)
  : outcome (list hval) :=
  match vs with
  | [] => Done [] h
  | v :: r =>
      match copy v h with
      | Done v' h1 =>
          match copy_vals copy r h1 with
          | Done r' h2 => Done (v' :: r') h2
          | Raised e => Raised e
          | Fuel => Fuel
          end
      | Raised e => Raised e
      | Fuel => Fuel
      end
  end.

(** [deepcopy(v)]: immutable values are returned as they are, a
    dictionary or a list becomes a new object holding copies. *)
Fixpoint deepcopy_h (n : nat) (v : hval) (h : heap) : outcome hval :=
  match v with
  | HRef l =>
      match n with
      | O => Fuel
      | S n' =>
          match h !! l with
          | Some (HDict items) =>
              match copy_vals (deepcopy_h n') (map snd items) h with
              | Done vs h1 =>
                  let '(r, h2) := alloc (HDict (zip (map fst items) vs)) h1 in
                  Done r h2
              | Raised e => Raised e
              | Fuel => Fuel
              end
          | Some (HList items) =>
              match copy_vals (deepcopy_h n') items h with
              | Done vs h1 => let '(r, h2) := alloc (HList vs) h1 in Done r h2
              | Raised e => Raised e
              | Fuel => Fuel
              end
          | None => Raised OutOfModel
          end
      end
  | _ => Done v h
  end.

(** The loop of [deep_merge] over [overrides.items()], [result] being
    the address of the copy under construction. *)
Fixpoint merge_items (merge : hval -> hval -> heap -> outcome hval)
    (copy : hval -> heap -> outcome hval)
    (result : loc) (items : list (str * hval)) (h : heap) : outcome hval :=
  match items with
  | [] => Done (HRef result) h
  | (key, value) :: rest =>
      match h !! result with
      | Some (HDict ritems) =>
          let new :=
            match hget key ritems with
            | Some cur =>
                if h_is_dict h cur && h_is_dict h value then merge cur value h
                else copy value h
            | None => copy value h
            end in
          match new with
          | Done v h1 =>
              match h1 !! result with
              | Some (HDict ritems1) =>
                  merge_items merge copy result rest
                    (<[result := HDict (hset key v ritems1)]> h1)
              | _ => Raised TypeError
              end
          | Raised e => Raised e
          | Fuel => Fuel
          end
      | _ => Raised TypeError
      end
  end.

(** [deep_merge(base, overrides)] *)
Fixpoint deep_merge_h (n : nat) (base overrides : hval) (h : heap) : outcome hval :=
  match n with
  | O => Fuel
  | S n' =>
      match deepcopy_h n' base h with
      | Done result h1 =>
          if negb (h_truthy h1 overrides) then Done result h1
          else
            match overrides with
            | HRef lo =>
                match h1 !! lo with
                | Some (HDict items) =>
                    match result with
                    | HRef r => merge_items (deep_merge_h n') (deepcopy_h n') r items h1
                    | _ => Raised TypeError
                    end
                | _ => Raised AttributeError
                end
            | _ => Raised AttributeError
            end
      | Raised e => Raised e
      | Fuel => Fuel
      end
  end.

(** The value an address stands for.  [repr_in P h v p]: in store [h],
    [v] denotes the tree [p], and every object visited on the way has
    its address in [P]. *)
Fixpoint repr_in (P : loc -> Prop) (h : heap) (v : hval) (p : pyval) {struct p} : Prop :=
  match p with
  | PNone => v = HNone
  | PBool b => v = HBool b
  | PInt z => v = HInt z
  | PFloat m e => v = HFloat m e
  | PStr s => v = HStr s
  | PList ps =>
      exists l vs, v = HRef l /\ P l /\ h !! l = Some (HList vs) /\
        (fix all2 (vs : list hval) (ps : list pyval) {struct ps} : Prop :=
           match ps, vs with
           | [], [] => True
           | p' :: ps', v' :: vs' => repr_in P h v' p' /\ all2 vs' ps'
           | _, _ => False
           end) vs ps
  | PDict kps =>
      exists l kvs, v = HRef l /\ P l /\ h !! l = Some (HDict kvs) /\
        (fix all2 (kvs : list (str * hval)) (kps : list (str * pyval)) {struct kps} : Prop :=
           match kps, kvs with
           | [], [] => True
           | (k', p') :: kps', (k, v') :: kvs' =>
               k = k' /\ repr_in P h v' p' /\ all2 kvs' kps'
           | _, _ => False
           end) kvs kps
  end.

Definition repr (h : heap) (v : hval) (p : pyval) : Prop := repr_in (fun _ => True) h v p.

(** Nesting depth of a value. *)
Fixpoint depth (p : pyval) : nat :=
  match p with
  | PList ps =>
      S ((fix go (ps : list pyval) : nat :=
            match ps with
            | [] => O
            | p' :: r => Nat.max (depth p') (go r)
            end) ps)
  | PDict kps =>
      S ((fix go (kps : list (str * pyval)) : nat :=
            match kps with
            | [] => O
            | (_, p') :: r => Nat.max (depth p') (go r)
            end) kps)
  | _ => O
  end.

(** A store holding [{"a": {"x": 1, "y": [2]}, "b": 3}] at address 2 and
    [{"a": {"x": 5}, "b": [7]}] at address 5. *)
Definition sample_heap : heap :=
  [ HList [HInt 2];
    HDict [(py "x", HInt 1); (py "y", HRef 0)];
    HDict [(py "a", HRef 1); (py "b", HInt 3)];
    HDict [(py "x", HInt 5)];
    HList [HInt 7];
    HDict [(py "a", HRef 3); (py "b", HRef 4)] ].

Definition sample_base : dict :=
  [ kv "a" (PDict [kv "x" (PInt 1); kv "y" (PList [PInt 2])]); kv "b" (PInt 3) ].

Definition sample_overrides : dict :=
  [ kv "a" (PDict [kv "x" (PInt 5)]); kv "b" (PList [PInt 7]) ].

(* ================================================================== *)
(** ** Notions used in the statements *)
(* ================================================================== *)

Local Open Scope N_scope.

(** The steps of [clean_text] that follow the Unicode normalisation. *)
Definition tidy_up (s : str) : str :=
  strip (sub_ws false (replace_char 8203 [] (replace_char 160 [32] s))).



(** NFKC leaves ASCII text as it is. *)
Definition nfkc_ascii (E : Env) : Prop :=
  forall s, Forall (fun c => c < 128) s -> nfkc E s = s.

(** The entries of [l] whose key no earlier entry of [l] has, in the
    order of [l]. *)
Definition first_occurrences (l : list faq_entry) : list faq_entry :=
  omap id (imap (fun i f =>
                   if bool_decide (faq_key f ∈ map faq_key (take i l)) then None
                   else Some f) l).

(** An accordion whose only item has an empty heading. *)
Definition blank_question_page : tag :=
  {| t_info := {| e_name := py "[document]"; e_classes := []; e_attrs := [] |};
     t_kids :=
       [ Elem (py "html") [] []
           [ Elem (py "body") [] []
               [ Elem (py "accordion-list") [] []
                   [ Elem (py "ul") [py "accordion-list"] []
                       [ Elem (py "li") [] []
                           [ Elem (py "h3") [py "accordion-label"] [] [];
                             Elem (py "div") [py "accordion__body"] []
                               [ Elem (py "p") [] [] [Text (py "Respuesta")] ] ] ] ] ] ] ];
     t_ancs := []; t_next := [] |}.

(** What the statements read off a graph node. *)
Record summary := {
  s_type : pyval;
  s_id : pyval;
  s_price : option pyval;
  s_rating : option pyval;
  s_main : option pyval
}.

Definition summarize (n : dict) : summary :=
  {| s_type := get n "@type"; s_id := get n "@id";
     s_price := dict_get (py "price") n;
     s_rating := dict_get (py "aggregateRating") n;
     s_main := dict_get (py "mainEntity") n |}.

Definition graph_summary (r : res (list dict)) : res (list summary) :=
  match r with
  | Ok g => Ok (map summarize g)
  | Raise e => Raise e
  end.

Definition plain_s (t : string) (id : pyval) : summary :=
  {| s_type := S_ t; s_id := id; s_price := None; s_rating := None; s_main := None |}.

Definition offer_s (id : pyval) (price : option pyval) : summary :=
  {| s_type := S_ "Offer"; s_id := id; s_price := price; s_rating := None;
     s_main := None |}.

Definition product_s (ctx : SchemaContext) (id : pyval) : summary :=
  {| s_type := S_ "Product"; s_id := id; s_price := None;
     s_rating := match aggregate_rating ctx with
                 | Some (x :: r) => Some (PDict (x :: r))
                 | _ => None
                 end;
     s_main := None |}.

Definition faq_s (ctx : SchemaContext) (id : pyval) : list summary :=
  match _faq_entities (faqs ctx) with
  | [] => []
  | ents => [ {| s_type := S_ "FAQPage"; s_id := id; s_price := None; s_rating := None;
                 s_main := Some (PList ents) |} ]
  end.


Definition question_node (f : faq_entry) : pyval :=
  PDict [ kv "@type" (S_ "Question");
          kv "name" (PStr (strip (entry_get "question" f)));
          kv "acceptedAnswer"
             (PDict [ kv "@type" (S_ "Answer");
                      kv "text" (PStr (strip (entry_get "answer" f))) ]) ].

(** The identifiers of the catalogue organisations. *)
Definition org_id_tn : pyval := S_ "https://www.naranjax.com/#OrgTarjetaNaranja".
Definition org_id_nd : pyval := S_ "https://www.naranjax.com/#OrgNaranjaDigital".
Definition org_id_nx : pyval := S_ "https://www.naranjax.com/#OrgNaranjaX".

(** [loan_defaults={"loan_term": {"maxValue": None}}]: the loan term
    keeps its unit and loses its only number. *)
Definition unit_only_term : overrides :=
  {| price_spec := PNone; bank_defaults := PNone; payment_service_defaults := PNone;
     insurance_defaults := PNone;
     loan_defaults := PDict [kv "loan_term" (PDict [kv "maxValue" PNone])];
     financial_product_defaults := PNone; investment_defaults := PNone;
     blog_defaults := PNone |}.









(** The items of a dictionary object, and the elements of a list
    object, standing for the items and elements of a value. *)
Definition repr_items (P : nat -> Prop) (h : heap) (kvs : list (str * hval))
    (kps : dict) : Prop :=
  Forall2 (fun kv kp => fst kv = fst kp /\ repr_in P h (snd kv) (snd kp)) kvs kps.

Definition repr_vals (P : nat -> Prop) (h : heap) (vs : list hval)
    (ps : list pyval) : Prop :=
  Forall2 (repr_in P h) vs ps.

Local Close Scope N_scope.


(* ================================================================== *)
(** ** Further notions used in the statements *)
(* ================================================================== *)

(** A value whose dictionaries, at every nesting level reached through
    dictionaries, list each key once, as a Python [dict] does. *)
Fixpoint unique_keys (p : pyval) : Prop :=
  match p with
  | PDict kps =>
      NoDup (map fst kps)
      /\ (fix all (kps : list (str * pyval)) : Prop :=
            match kps with
            | [] => True
            | (_, v) :: r => unique_keys v /\ all r
            end) kps
  | _ => True
  end.

(** A catalogue item that gets an Offer: a dictionary with a name and a
    URL. *)
Definition listed_item (item : pyval) : bool :=
  match item with
  | PDict it => truthy (get it "name") && truthy (get it "url")
  | _ => false
  end.

(** A node whose [@id] is a string or is missing, as the builders make
    them. *)
Definition plain_id (n : dict) : Prop :=
  get n "@id" = PNone \/ exists s, get n "@id" = PStr s.

(** What a Product node shows of the context's rating. *)
Definition shown_rating (rating : option dict) : option pyval :=
  match rating with
  | Some (x :: r) => Some (PDict (x :: r))
  | _ => None
  end.

(** [price_spec=spec], nothing else overridden. *)
Definition with_price_spec (spec : pyval) : overrides :=
  {| price_spec := spec; bank_defaults := PNone; payment_service_defaults := PNone;
     insurance_defaults := PNone; loan_defaults := PNone;
     financial_product_defaults := PNone; investment_defaults := PNone;
     blog_defaults := PNone |}.

(** The price a price specification asks for: its [price] as a string,
    when it is a non-empty dictionary whose [price] is neither [None] nor
    the empty string. *)
Definition spec_price (E : Env) (spec : pyval) : pyval :=
  match spec with
  | PDict (x :: d) =>
      if is_none_or_empty (get (x :: d) "price") then S_ "0"
      else PStr (fmt E (get (x :: d) "price"))
  | _ => S_ "0"
  end.

(* ================================================================== *)
(** ** models.py: [to_dict] *)
(* ================================================================== *)

Definition faq_value (f : faq_entry) : pyval :=
  PDict (map (fun kv => (fst kv, PStr (snd kv))) f).

(** [ExtractionResult.to_dict] *)
Definition extraction_to_dict (x : ExtractionResult) : dict :=
  [ kv "title" (PStr (x_title x));
    kv "description" (PStr (x_description x));
    kv "image" (PStr (x_image x));
    kv "faqs" (PList (map faq_value (x_faqs x)));
    kv "body_text" (PStr (x_body_text x)) ].

(** [SchemaRecord.to_dict] *)
Definition record_to_dict (r : SchemaRecord) : dict :=
  [ kv "url" (PStr (r_url r));
    kv "name" (PStr (r_name r));
    kv "schema_type" (PStr (r_schema_type r));
    kv "extracted" (PDict (extraction_to_dict (r_extracted r)));
    kv "schema" (PDict (r_schema r)) ].

(* ================================================================== *)
(** ** service/workflow.py: [generate_schema]; infrastructure; cli.py *)
(* ================================================================== *)

(** What [generate_schema] and the command line call outside the
    package: the JSON encoder and the files [save_outputs] writes. *)
Record IO := {
  (** [json.dumps(obj, ensure_ascii=False, indent=2)] *)
  json_dumps : pyval -> str;
  (** [save_outputs(record, csv_path=..., jsonl_path=...)]: it returns
      nothing, or fails *)
  save_outputs : SchemaRecord -> pyval -> pyval -> res unit
}.

Section CommandLine.
Context (E : Env) (io : IO).

(** [as_script_tag] *)
Definition as_script_tag (obj : dict) : str :=
  (py "<script type=" ++ [34%N] ++ py "application/ld+json" ++ [34%N] ++ py ">")
    ++ [10%N] ++ json_dumps io (PDict obj) ++ [10%N] ++ py "</script>".

(** The keyword parameters of [generate_schema]; [url], [nombre] and
    [schema_type] are given by every caller of this package. *)
Definition generate_schema_keywords : list str :=
  map py [ "price_spec"; "bank_defaults"; "payment_service_defaults";
           "insurance_defaults"; "loan_defaults"; "financial_product_defaults";
           "investment_defaults"; "blog_defaults"; "offer_catalog_key";
           "aggregate_rating"; "save"; "csv_path"; "jsonl_path"; "as_script" ]%string.

(** [generate_schema(url, nombre, schema_type=schema_type, **kwargs)]:
    a keyword that is no parameter, or that names an argument already
    given, makes the call itself raise [TypeError]. *)
Definition generate_schema (url nombre schema_type : str) (kwargs : dict) : res pyval :=
  if forallb (fun k => bool_decide (k ∈ generate_schema_keywords)) (map fst kwargs)
  then
    let kw :=
      {| price_spec := get kwargs "price_spec";
         bank_defaults := get kwargs "bank_defaults";
         payment_service_defaults := get kwargs "payment_service_defaults";
         insurance_defaults := get kwargs "insurance_defaults";
         loan_defaults := get kwargs "loan_defaults";
         financial_product_defaults := get kwargs "financial_product_defaults";
         investment_defaults := get kwargs "investment_defaults";
         blog_defaults := get kwargs "blog_defaults" |} in
    let save := get_or kwargs "save" (PBool false) in
    let csv_path := get_or kwargs "csv_path" (S_ "extracciones.csv") in
    let jsonl_path := get_or kwargs "jsonl_path" (S_ "schemas.jsonl") in
    let as_script := get_or kwargs "as_script" (PBool false) in
    record ← build_schema_from_url E url nombre schema_type kw
               (get kwargs "offer_catalog_key") (get kwargs "aggregate_rating");
    _ ← (if truthy save then save_outputs io record csv_path jsonl_path else Ok tt);
    if truthy as_script then Ok (PStr (as_script_tag (r_schema record)))
    else Ok (PDict (record_to_dict record))
  else Raise TypeError.

(** [key, value = item.split("=", 1)], or nothing when [item] has no
    ["="]. *)
Fixpoint split_eq (item : str) : option (str * str) :=
  match item with
  | [] => None
  | c :: r =>
      if (c =? 61)%N then Some ([], r)
      else match split_eq r with
           | Some (k, v) => Some (c :: k, v)
           | None => None
           end
  end.

(** The overrides of the command line, or the error of the parser. *)
Inductive parse_result :=
| Parsed (d : dict)
| ArgumentTypeError (msg : str).

(** [_parse_key_value_pairs] *)
Fixpoint parse_pairs (result : dict) (values : list str) : parse_result :=
  match values with
  | [] => Parsed result
  | item :: rest =>
      match split_eq item with
      | None =>
          ArgumentTypeError
            (py "El parámetro '" ++ item ++ py "' debe tener formato clave=valor")
      | Some (key, value) => parse_pairs (dict_set key (PStr value) result) rest
      end
  end.

Definition _parse_key_value_pairs (values : list str) : parse_result :=
  parse_pairs [] values.

(** The arguments [build_parser] declares, as [parse_args] returns
    them. *)
Record cli_args := {
  a_url : str;
  a_nombre : str;
  a_schema_type : str;
  a_offer_catalog_key : option str;
  a_overrides : list str;
  a_script : bool;
  a_schema_only : bool
}.

(** How [main] ends: it returns a status after writing to the standard
    output, [parser.error] ends the program with status 2, or an
    exception leaves [main]. *)
Inductive main_outcome :=
| Returned (status : Z) (stdout : str)
| ParserError (msg : str)
| Uncaught (e : exn).

(** [main], from the parsed arguments on. *)
Definition main (args : cli_args) : main_outcome :=
  match _parse_key_value_pairs (a_overrides args) with
  | ArgumentTypeError msg => ParserError msg
  | Parsed overrides =>
      let kwargs := [ kv "as_script" (PBool (a_script args));
                      kv "schema_only" (PBool (a_schema_only args)) ] in
      let kwargs := dict_update kwargs overrides in
      let kwargs :=
        if opt_truthy (a_offer_catalog_key args)
        then set_ "offer_catalog_key" (opt_str (a_offer_catalog_key args)) kwargs
        else kwargs in
      match generate_schema (a_url args) (a_nombre args) (a_schema_type args) kwargs with
      | Raise e => Uncaught e
      | Ok result =>
          Returned 0
            (if a_script args then fmt E result
             else json_dumps io result ++ [10%N])
      end
  end.

End CommandLine.

Local Open Scope N_scope.

(* ================================================================== *)
(** * Properties *)
(* ================================================================== *)

(* ================================================================== *)
(** * Properties *)
(* ================================================================== *)

(** ** Stripping and whitespace runs *)

#[local] Arguments is_space : simpl never.

Lemma drop_while_split {A} (f : A -> bool) (l : list A) :
  exists l1, l = l1 ++ drop_while f l /\ forallb f l1 = true.
Proof.
  induction l as [|x r IH]; simpl.
  - exists []. done.
  - destruct (f x) eqn:Hx.
    + destruct IH as (l1 & Hl & Hf). exists (x :: l1). simpl.
      rewrite Hx, Hf. split; [congruence | done].
    + exists []. done.
Qed.

Lemma drop_while_head {A} (f : A -> bool) (l : list A) (c : A) :
  head (drop_while f l) = Some c -> f c = false.
Proof.
  induction l as [|x r IH]; simpl; [done|].
  destruct (f x) eqn:Hx; [done|]. simpl. congruence.
Qed.

Lemma drop_while_id {A} (f : A -> bool) (l : list A) :
  (forall c, head l = Some c -> f c = false) -> drop_while f l = l.
Proof.
  destruct l as [|x r]; simpl; [done|].
  intros H. by rewrite (H x eq_refl).
Qed.

Lemma head_rev {A} (l : list A) : head (rev l) = last l.
Proof.
  destruct (rev l) as [|c r] eqn:Hr.
  - apply (f_equal (@rev A)) in Hr. rewrite rev_involutive in Hr.
    by subst.
  - apply (f_equal (@rev A)) in Hr. rewrite rev_involutive in Hr.
    subst. simpl. by rewrite last_snoc.
Qed.

Lemma rstrip_by_split (f : N -> bool) (s : str) :
  exists l2, s = rstrip_by f s ++ l2.
Proof.
  unfold rstrip_by.
  destruct (drop_while_split f (rev s)) as (l1 & Hl & _).
  exists (rev l1).
  rewrite <- rev_app_distr, <- Hl. by rewrite rev_involutive.
Qed.

Lemma rstrip_by_last (f : N -> bool) (s : str) (c : N) :
  last (rstrip_by f s) = Some c -> f c = false.
Proof.
  unfold rstrip_by. rewrite <- head_rev, rev_involutive.
  apply drop_while_head.
Qed.

Lemma rstrip_by_id (f : N -> bool) (s : str) :
  (forall c, last s = Some c -> f c = false) -> rstrip_by f s = s.
Proof.
  intros H. unfold rstrip_by. rewrite drop_while_id.
  - apply rev_involutive.
  - intros c. rewrite head_rev. apply H.
Qed.

Lemma strip_by_head (f : N -> bool) (s : str) (c : N) :
  head (strip_by f s) = Some c -> f c = false.
Proof.
  unfold strip_by, lstrip_by. intros H.
  destruct (rstrip_by_split f (drop_while f s)) as (l2 & Hl).
  apply (drop_while_head f s). rewrite Hl.
  destruct (rstrip_by f (drop_while f s)); simpl in *; congruence.
Qed.

Lemma strip_by_last (f : N -> bool) (s : str) (c : N) :
  last (strip_by f s) = Some c -> f c = false.
Proof. apply rstrip_by_last. Qed.

Lemma strip_by_id (f : N -> bool) (s : str) :
  (forall c, head s = Some c -> f c = false) ->
  (forall c, last s = Some c -> f c = false) ->
  strip_by f s = s.
Proof.
  intros Hh Hl. unfold strip_by, lstrip_by.
  rewrite drop_while_id by done. by apply rstrip_by_id.
Qed.

Lemma strip_by_elem (f : N -> bool) (s : str) (c : N) :
  c ∈ strip_by f s -> c ∈ s.
Proof.
  unfold strip_by, lstrip_by. intros H.
  destruct (rstrip_by_split f (drop_while f s)) as (l2 & Hl).
  destruct (drop_while_split f s) as (l1 & Hs & _).
  rewrite Hs, Hl. set_solver.
Qed.












Lemma replace_char_elem (old c : N) (new s : str) :
  c ∈ replace_char old new s -> c ∈ new \/ (c ∈ s /\ c <> old).
Proof.
  unfold replace_char. induction s as [|x r IH]; simpl.
  - intros H. by apply elem_of_nil in H.
  - intros H. apply elem_of_app in H as [H|H].
    + destruct (x =? old) eqn:Hx.
      * by left.
      * apply N.eqb_neq in Hx. apply list_elem_of_singleton in H as ->.
        right. split; [left|done].
    + destruct (IH H) as [?|[? ?]]; [by left|].
      right. split; [by right|done].
Qed.

Lemma replace_char_id (old : N) (new s : str) :
  old ∉ s -> replace_char old new s = s.
Proof.
  unfold replace_char. induction s as [|x r IH]; simpl; [done|].
  intros H. apply not_elem_of_cons in H as [H1 H2].
  destruct (x =? old) eqn:Hx.
  - apply N.eqb_eq in Hx. congruence.
  - simpl. by rewrite IH.
Qed.






(** ** The text normaliser *)

Lemma nfkc_ascii_sample : nfkc_ascii sample_env.
Proof.
  intros s Hs. simpl. induction Hs as [|c r Hc Hr IH]; [done|].
  simpl. destruct (c =? 160) eqn:H160; [apply N.eqb_eq in H160; lia|].
  destruct (c =? 97); [|by rewrite IH].
  destruct Hr as [|c' r' Hc' Hr']; [done|].
  destruct (c' =? 769) eqn:H769; [apply N.eqb_eq in H769; lia|].
  by rewrite IH.
Qed.

Lemma clean_text_ascii (E : Env) (s : str) :
  nfkc_ascii E -> forallb (fun c => c <? 128) s = true ->
  clean_text E (Some s) = tidy_up s.
Proof.
  intros Hn Hs. unfold clean_text. simpl. rewrite Hn; [done|].
  apply Forall_forall. intros c Hc. apply N.ltb_lt.
  rewrite forallb_forall in Hs. apply Hs. by apply list_elem_of_In.
Qed.




(** ** The de-duplication loop *)

Lemma unique_seen (l : list faq_entry) (k : str * str) :
  k ∈ fst (fold_left unique_step l (∅, [])) <-> k ∈ map faq_key l.
Proof.
  induction l as [|f l IH] using rev_ind.
  - simpl. set_solver.
  - rewrite fold_left_app, map_app. simpl.
    unfold unique_step at 1. case_bool_decide as Hk; simpl.
    + rewrite elem_of_app, IH. split; [by left|].
      intros [?|H]; [done|]. apply list_elem_of_singleton in H as ->.
      by apply IH.
    + rewrite elem_of_union, elem_of_singleton, elem_of_app, IH.
      rewrite list_elem_of_singleton. tauto.
Qed.

Lemma unique_faqs_snoc (l : list faq_entry) (f : faq_entry) :
  unique_faqs (l ++ [f]) =
  unique_faqs l ++ (if bool_decide (faq_key f ∈ map faq_key l) then [] else [f]).
Proof.
  unfold unique_faqs. rewrite fold_left_app. simpl.
  unfold unique_step at 1.
  pose proof (unique_seen l (faq_key f)) as Hs.
  do 2 case_bool_decide; simpl; try tauto.
  by rewrite app_nil_r.
Qed.

Lemma unique_faqs_elem (l : list faq_entry) (f : faq_entry) :
  f ∈ unique_faqs l -> f ∈ l.
Proof.
  induction l as [|x l IH] using rev_ind.
  - done.
  - rewrite unique_faqs_snoc, !elem_of_app. intros [H|H]; [left; by apply IH|].
    right. destruct (bool_decide _); [by apply elem_of_nil in H|done].
Qed.

Lemma unique_faqs_keys (l : list faq_entry) (k : str * str) :
  k ∈ map faq_key (unique_faqs l) <-> k ∈ map faq_key l.
Proof.
  induction l as [|x l IH] using rev_ind.
  - done.
  - rewrite unique_faqs_snoc, !map_app, !elem_of_app, IH.
    case_bool_decide as Hk; simpl.
    + rewrite list_elem_of_singleton. split.
      * intros [?|H]; [by left|]. by apply elem_of_nil in H.
      * intros [?|Hx]; [by left|]. left. by rewrite Hx.
    + tauto.
Qed.

Lemma unique_faqs_nodup (l : list faq_entry) : NoDup (map faq_key (unique_faqs l)).
Proof.
  induction l as [|x l IH] using rev_ind.
  - constructor.
  - rewrite unique_faqs_snoc, map_app. case_bool_decide as Hk; simpl.
    + by rewrite app_nil_r.
    + apply NoDup_app. split; [done|]. split.
      * intros k Hk1 Hk2. apply list_elem_of_singleton in Hk2 as ->.
        rewrite unique_faqs_keys in Hk1. contradiction.
      * apply NoDup_singleton.
Qed.

Lemma first_occurrences_snoc (l : list faq_entry) (f : faq_entry) :
  first_occurrences (l ++ [f]) =
  first_occurrences l ++ (if bool_decide (faq_key f ∈ map faq_key l) then [] else [f]).
Proof.
  unfold first_occurrences. rewrite imap_app, omap_app. f_equal.
  - f_equal. apply imap_ext. intros i x Hi. simpl.
    rewrite take_app_le; [done|]. apply lookup_lt_Some in Hi. lia.
  - simpl. rewrite Nat.add_0_r, take_app_length.
    by case_bool_decide.
Qed.

Lemma unique_faqs_first (l : list faq_entry) : unique_faqs l = first_occurrences l.
Proof.
  induction l as [|x l IH] using rev_ind.
  - done.
  - by rewrite unique_faqs_snoc, first_occurrences_snoc, IH.
Qed.

(** C8. Both strategies end with the same loop, which returns the
    collected entries without any repeated [(question, answer)] pair,
    each pair at the place of its first occurrence: the result is
    exactly the list of entries not preceded by an entry with the same
    pair, it is a sublist of the collected entries, and it misses no pair. *)
Theorem unique_faqs_first_occurrence (E : Env) (soup : tag) :
  extract_faqs_from_nx_accordion E soup = unique_faqs (accordion_entries E soup)
  /\ extract_faqs_fallback E soup = unique_faqs (fallback_entries E soup)
  /\ forall l : list faq_entry,
       NoDup (map faq_key (unique_faqs l))
       /\ unique_faqs l = first_occurrences l
       /\ sublist (unique_faqs l) l
       /\ (forall f, f ∈ l -> faq_key f ∈ map faq_key (unique_faqs l)).
Proof.
  split; [reflexivity|]. split; [reflexivity|].
  intros l. split; [apply unique_faqs_nodup|]. split; [apply unique_faqs_first|].
  split.
  - induction l as [|x l IH] using rev_ind; [done|].
    rewrite unique_faqs_snoc. apply sublist_app; [done|].
    case_bool_decide; [apply sublist_nil_l|done].
  - intros f Hf. apply unique_faqs_keys. by apply list_elem_of_fmap_2.
Qed.

(** ** Empty questions *)

Lemma str_truthy_ne (s : str) : str_truthy s = true -> s <> [].
Proof. by destruct s. Qed.

Lemma fallback_item_nonempty (E : Env) (n : tag) (f : faq_entry) :
  fallback_item E n = Some f -> fst (faq_key f) <> [] /\ snd (faq_key f) <> [].
Proof.
  unfold fallback_item.
  destruct (negb _ || negb _); [done|].
  destruct (str_truthy _ && str_truthy _) eqn:H; [|done].
  apply andb_prop in H as [Hq Ha]. intros [= <-].
  split; apply str_truthy_ne; [exact Hq|exact Ha].
Qed.

Lemma accordion_item_answer (E : Env) (li : tag) (f : faq_entry) :
  accordion_item E li = Some f -> snd (faq_key f) <> [].
Proof.
  unfold accordion_item.
  destruct (match select_one _ li with Some n => Some n | None => _ end); [|done].
  destruct (match select_one _ li with Some b => Some b | None => _ end) as [b|]; [|done].
  destruct (str_truthy (_extract_answer_text E b)) eqn:Ha; [|done].
  intros [= <-]. by apply str_truthy_ne.
Qed.

Lemma blank_question_entries (E : Env) :
  nfkc_ascii E ->
  accordion_entries E blank_question_page = [faq_dict [] (py "Respuesta")].
Proof.
  intros Hn. unfold accordion_entries, accordion_item, _extract_answer_text.
  cbv -[clean_text].
  rewrite !(clean_text_ascii E) by (done || reflexivity).
  vm_compute. reflexivity.
Qed.

(** C3, the failing input.  An accordion item whose heading has no text
    and whose body has a paragraph yields an entry with an empty
    question: [extract_faqs] returns it.  The answer of an accordion
    entry is never empty, and the fallback strategy returns neither
    empty questions nor empty answers. *)
Theorem accordion_keeps_blank_question (E : Env) (Hn : nfkc_ascii E) :
  extract_faqs E blank_question_page = [faq_dict [] (py "Respuesta")]
  /\ (forall soup f, f ∈ extract_faqs_from_nx_accordion E soup -> snd (faq_key f) <> [])
  /\ (forall soup f, f ∈ extract_faqs_fallback E soup ->
        fst (faq_key f) <> [] /\ snd (faq_key f) <> []).
Proof.
  split; [|split].
  - unfold extract_faqs, extract_faqs_from_nx_accordion.
    rewrite blank_question_entries by done. vm_compute. reflexivity.
  - intros soup f Hf. apply unique_faqs_elem in Hf.
    unfold accordion_entries in Hf. apply list_elem_of_In, in_flat_map in Hf.
    destruct Hf as (root & _ & Hf). apply list_elem_of_In, list_elem_of_omap in Hf.
    destruct Hf as (li & _ & Hf). by apply accordion_item_answer in Hf.
  - intros soup f Hf. apply unique_faqs_elem in Hf.
    unfold fallback_entries in Hf. apply list_elem_of_omap in Hf.
    destruct Hf as (n & _ & Hf). by apply fallback_item_nonempty in Hf.
Qed.

Lemma accordion_keeps_blank_question_witness :
  extract_faqs sample_env blank_question_page = [faq_dict [] (py "Respuesta")].
Proof.
  exact (proj1 (accordion_keeps_blank_question sample_env nfkc_ascii_sample)).
Defined.

(** ** The graphs built without overrides *)

(** Evaluate a builder, keeping the FAQ entities, the slug and the word
    count as they are, then name the FAQ entities. *)
Ltac eval_graph fqs ents :=
  lazy -[_faq_entities slug count_words rate_part];
  generalize (_faq_entities fqs); intros ents.

Ltac opt_cases x := destruct x as [[|? ?]|].

Lemma payment_card_summary (E : Env) (ctx : SchemaContext) :
  graph_summary (build_payment_card_graph E ctx no_overrides) =
  Ok ([ plain_s "PaymentCard" (url_id ctx "#PaymentCard");
        offer_s (url_id ctx "#Offer") (Some (S_ "0"));
        product_s ctx (url_id ctx "#Product") ]
      ++ faq_s ctx (url_id ctx "#FAQPage")
      ++ [ plain_s "WebPage" (url_id ctx "#WebPage");
           plain_s "Organization" org_id_tn ]).
Proof.
  destruct ctx as [url nm desc img fqs body agg]. eval_graph fqs ents.
  destruct ents; opt_cases desc; opt_cases img; opt_cases agg; reflexivity.
Qed.

Lemma loan_or_credit_summary (E : Env) (ctx : SchemaContext) :
  graph_summary (build_loan_or_credit_graph E ctx no_overrides) =
  Ok ([ plain_s "LoanOrCredit" (url_id ctx "#LoanOrCredit");
        offer_s (url_id ctx "#Offer") (Some (S_ "0"));
        product_s ctx (url_id ctx "#Product") ]
      ++ faq_s ctx (url_id ctx "#FAQPage")
      ++ [ plain_s "WebPage" (url_id ctx "#WebPage");
           plain_s "Organization" org_id_nd;
           plain_s "Organization" org_id_tn ]).
Proof.
  destruct ctx as [url nm desc img fqs body agg]. eval_graph fqs ents.
  destruct ents; opt_cases desc; opt_cases img; opt_cases agg; reflexivity.
Qed.

Lemma bank_account_summary (E : Env) (ctx : SchemaContext) :
  graph_summary (build_bank_account_graph E ctx no_overrides) =
  Ok ([ plain_s "BankAccount" (url_id ctx "#bankaccount");
        offer_s (url_id ctx "#Offer") (Some (S_ "0"));
        product_s ctx (url_id ctx "#Product") ]
      ++ faq_s ctx (url_id ctx "#faq")
      ++ [ plain_s "WebPage" (url_id ctx "#WebPage");
           plain_s "Organization" org_id_tn ]).
Proof.
  destruct ctx as [url nm desc img fqs body agg]. eval_graph fqs ents.
  destruct ents; opt_cases desc; opt_cases img; opt_cases agg; reflexivity.
Qed.

Lemma payment_service_summary (E : Env) (ctx : SchemaContext) :
  graph_summary (build_payment_service_graph E ctx no_overrides) =
  Ok ([ plain_s "PaymentService" (url_id ctx "#PaymentService");
        offer_s (url_id ctx "#Offer") (Some (S_ "0"));
        product_s ctx (url_id ctx "#Product") ]
      ++ faq_s ctx (url_id ctx "#FAQPage")
      ++ [ plain_s "WebPage" (url_id ctx "#WebPage");
           plain_s "Organization" org_id_nx ]).
Proof.
  destruct ctx as [url nm desc img fqs body agg]. eval_graph fqs ents.
  destruct ents; opt_cases desc; opt_cases img; opt_cases agg; reflexivity.
Qed.

Lemma financial_product_summary (E : Env) (ctx : SchemaContext) :
  graph_summary (build_financial_product_graph E ctx no_overrides) =
  Ok ([ plain_s "FinancialProduct" (url_id ctx "#FinancialProduct");
        plain_s "Organization" org_id_tn;
        offer_s (url_id ctx "#Offer") (Some (S_ "0"));
        product_s ctx (url_id ctx "#financial-product") ]
      ++ faq_s ctx (url_id ctx "#FAQPage")
      ++ [ plain_s "WebPage" (url_id ctx "#WebPage") ]).
Proof.
  destruct ctx as [url nm desc img fqs body agg]. eval_graph fqs ents.
  generalize (slug nm). intros sl.
  destruct ents, sl; opt_cases desc; opt_cases img; opt_cases agg; reflexivity.
Qed.

Lemma investment_or_deposit_summary (E : Env) (ctx : SchemaContext) :
  graph_summary (build_investment_or_deposit_graph E ctx no_overrides) =
  Ok ([ {| s_type := PList [S_ "InvestmentOrDeposit"];
           s_id := url_id ctx "#producto";
           s_price := None; s_rating := None; s_main := None |};
        plain_s "Organization" org_id_nx;
        offer_s (url_id ctx "#offer") None;
        product_s ctx (url_id ctx "#product") ]
      ++ faq_s ctx (url_id ctx "#FAQPage")
      ++ [ plain_s "WebPage" (url_id ctx "#WebPage") ]).
Proof.
  destruct ctx as [url nm desc img fqs body agg]. eval_graph fqs ents.
  generalize (slug nm). intros sl.
  destruct ents, sl, nm; opt_cases desc; opt_cases img; opt_cases agg; reflexivity.
Qed.

Ltac case_eq_py :=
  match goal with |- context [py_eq ?a ?b] => destruct (py_eq a b) end.

Lemma resolve_by_id (s : str) :
  let r := resolve_organization (PDict [kv "@id" (PStr s)]) "naranja_x" in
  r = Ok (dict_set (py "@id") (PStr s) org_tarjeta_naranja)
  \/ r = Ok (dict_set (py "@id") (PStr s) org_naranja_digital)
  \/ r = Ok (dict_set (py "@id") (PStr s) org_naranja_x).
Proof.
  unfold resolve_organization. lazy -[py_eq].
  destruct s as [|c s]; [right; right; reflexivity|].
  case_eq_py; [left; reflexivity|].
  case_eq_py; [right; left; reflexivity|].
  case_eq_py; right; right; reflexivity.
Qed.

Lemma insurance_agency_summary (E : Env) (ctx : SchemaContext) :
  graph_summary (build_insurance_agency_graph E ctx no_overrides) =
  Ok ([ plain_s "InsuranceAgency" (url_id ctx "#insurance-agency");
        offer_s (url_id ctx "#offer-basica") (Some (S_ "0"));
        product_s ctx (url_id ctx "#producto") ]
      ++ faq_s ctx (url_id ctx "#FAQPage")
      ++ [ plain_s "WebPage" (url_id ctx "#WebPage");
           plain_s "Organization" (url_id ctx "#insurance-agency") ]).
Proof.
  destruct ctx as [url nm desc img fqs body agg].
  pose proof (resolve_by_id (url ++ py "#insurance-agency")) as Hr.
  lazy -[_faq_entities resolve_organization].
  lazy -[resolve_organization] in Hr.
  (generalize (_faq_entities fqs); intros ents).
  (destruct Hr as [Hr|[Hr|Hr]]; rewrite Hr; clear Hr).
  all: (destruct ents, url; opt_cases desc; opt_cases img; opt_cases agg; reflexivity).
Qed.

Lemma blog_posting_summary (E : Env) (ctx : SchemaContext) :
  graph_summary (build_blog_posting_graph E ctx no_overrides) =
  Ok [ plain_s "BlogPosting" (url_id ctx "#BlogPosting");
       plain_s "WebPage" (url_id ctx "#WebPage");
       plain_s "Organization" org_id_nx ].
Proof.
  destruct ctx as [url nm desc img fqs [[|c l]|] agg];
    lazy -[_faq_entities slug count_words rate_part];
    try (generalize (count_words E false (c :: l)); intros n; destruct n);
    opt_cases desc; opt_cases img; reflexivity.
Qed.


(** ** Reading a graph through its summary *)

Lemma str_eqb_eq (a b : str) : str_eqb a b = true <-> a = b.
Proof.
  revert b. induction a as [|x a IH]; intros [|y b]; simpl; try done.
  rewrite andb_true_iff, N.eqb_eq, IH. split; [by intros [-> ->]|by intros [= -> ->]].
Qed.

Lemma graph_summary_ok (r : res (list dict)) (L : list summary) :
  graph_summary r = Ok L -> exists g, r = Ok g /\ map summarize g = L.
Proof. destruct r as [g|e]; simpl; [|done]. intros [= <-]. by exists g. Qed.

Lemma graph_forall (r : res (list dict)) (L : list summary) (P : summary -> Prop) :
  graph_summary r = Ok L -> Forall P L ->
  exists g, r = Ok g /\ forall n, n ∈ g -> P (summarize n).
Proof.
  intros Hr HP. destruct (graph_summary_ok _ _ Hr) as (g & -> & <-).
  exists g. split; [done|]. intros n Hn.
  rewrite Forall_forall in HP. apply HP. by apply list_elem_of_fmap_2.
Qed.

Lemma graph_forall_exists (r : res (list dict)) (L : list summary)
    (P Q : summary -> Prop) :
  graph_summary r = Ok L -> Forall P L -> Exists Q L ->
  exists g, r = Ok g /\ (forall n, n ∈ g -> P (summarize n))
                     /\ (exists n, n ∈ g /\ Q (summarize n)).
Proof.
  intros Hr HP HQ. destruct (graph_summary_ok _ _ Hr) as (g & -> & <-).
  exists g. split; [done|]. split.
  - intros n Hn. rewrite Forall_forall in HP. apply HP. by apply list_elem_of_fmap_2.
  - apply Exists_exists in HQ as (s & Hs & HQ).
    apply list_elem_of_fmap in Hs as (n & -> & Hn). by exists n.
Qed.




(** Settle a property of every summary of an explicit list. *)
Ltac each_summary tac :=
  simpl app; repeat (apply Forall_cons; split; [tac|]); apply Forall_nil_2.

Ltac other_type :=
  let H := fresh in intros H; exfalso; revert H; vm_compute; discriminate.

(** ** The price of the Offer *)

Ltac price_is :=
  first [ other_type | intros _; reflexivity ].

(** C1, the failing input.  Without overrides the investment builder
    emits an Offer that has no [price] key at all, for every context;
    the six other builders that emit an Offer give it the price ["0"]. *)
Theorem investment_offer_without_price (E : Env) (ctx : SchemaContext) :
  (exists g, build_investment_or_deposit_graph E ctx no_overrides = Ok g
     /\ (forall n, n ∈ g -> get n "@type" = S_ "Offer" ->
           dict_get (py "price") n = None)
     /\ (exists n, n ∈ g /\ get n "@type" = S_ "Offer"))
  /\ Forall (fun b : builder =>
               exists g, b ctx no_overrides = Ok g
                 /\ (forall n, n ∈ g -> get n "@type" = S_ "Offer" ->
                       dict_get (py "price") n = Some (S_ "0"))
                 /\ (exists n, n ∈ g /\ get n "@type" = S_ "Offer"))
            [ build_payment_card_graph E; build_loan_or_credit_graph E;
              build_bank_account_graph E; build_payment_service_graph E;
              build_insurance_agency_graph E; build_financial_product_graph E ].
Proof.
  split.
  - apply (graph_forall_exists _ _
             (fun s => s_type s = S_ "Offer" -> s_price s = None)
             (fun s => s_type s = S_ "Offer")
             (investment_or_deposit_summary E ctx)).
    + unfold faq_s; destruct (_faq_entities _); each_summary price_is.
    + simpl app. do 2 (apply Exists_cons; right). apply Exists_cons. by left.
  - repeat (apply Forall_cons; split); [..|apply Forall_nil_2].
    + apply (graph_forall_exists _ _
               (fun s => s_type s = S_ "Offer" -> s_price s = Some (S_ "0"))
               (fun s => s_type s = S_ "Offer") (payment_card_summary E ctx)).
      * unfold faq_s; destruct (_faq_entities _); each_summary price_is.
      * simpl app. apply Exists_cons; right. apply Exists_cons. by left.
    + apply (graph_forall_exists _ _
               (fun s => s_type s = S_ "Offer" -> s_price s = Some (S_ "0"))
               (fun s => s_type s = S_ "Offer") (loan_or_credit_summary E ctx)).
      * unfold faq_s; destruct (_faq_entities _); each_summary price_is.
      * simpl app. apply Exists_cons; right. apply Exists_cons. by left.
    + apply (graph_forall_exists _ _
               (fun s => s_type s = S_ "Offer" -> s_price s = Some (S_ "0"))
               (fun s => s_type s = S_ "Offer") (bank_account_summary E ctx)).
      * unfold faq_s; destruct (_faq_entities _); each_summary price_is.
      * simpl app. apply Exists_cons; right. apply Exists_cons. by left.
    + apply (graph_forall_exists _ _
               (fun s => s_type s = S_ "Offer" -> s_price s = Some (S_ "0"))
               (fun s => s_type s = S_ "Offer") (payment_service_summary E ctx)).
      * unfold faq_s; destruct (_faq_entities _); each_summary price_is.
      * simpl app. apply Exists_cons; right. apply Exists_cons. by left.
    + apply (graph_forall_exists _ _
               (fun s => s_type s = S_ "Offer" -> s_price s = Some (S_ "0"))
               (fun s => s_type s = S_ "Offer") (insurance_agency_summary E ctx)).
      * unfold faq_s; destruct (_faq_entities _); each_summary price_is.
      * simpl app. apply Exists_cons; right. apply Exists_cons. by left.
    + apply (graph_forall_exists _ _
               (fun s => s_type s = S_ "Offer" -> s_price s = Some (S_ "0"))
               (fun s => s_type s = S_ "Offer") (financial_product_summary E ctx)).
      * unfold faq_s; destruct (_faq_entities _); each_summary price_is.
      * simpl app. do 2 (apply Exists_cons; right). apply Exists_cons. by left.
Qed.


(** ** The FAQPage node *)





(** ** The rating of the Product *)

(** ** The sub-objects of the LoanOrCredit node *)

Lemma quantitative_node_unit_only (cfg : dict) :
  is_none (get cfg "minValue") = true ->
  is_none (get cfg "maxValue") = true ->
  is_none (get cfg "value") = true ->
  is_none (get cfg "unitText") = false ->
  _quantitative_node (PDict cfg)
  = Some [ kv "@type" (get_or cfg "@type" (S_ "QuantitativeValue"));
           kv "unitText" (get cfg "unitText") ].
Proof.
  intros H1 H2 H3 H4. unfold _quantitative_node.
  cbn [fold_left]. rewrite H1, H2, H3, H4. reflexivity.
Qed.

Lemma loan_head_unit_only (E : Env) (ctx : SchemaContext) :
  match build_loan_or_credit_graph E ctx unit_only_term with
  | Ok (loan :: _) =>
      get loan "@type" = S_ "LoanOrCredit"
      /\ dict_get (py "loanTerm") loan
         = Some (PDict [ kv "@type" (S_ "QuantitativeValue");
                         kv "unitText" (S_ "MONTH") ])
  | _ => False
  end.
Proof.
  destruct ctx as [url nm desc img fqs body agg]. eval_graph fqs ents.
  destruct ents; opt_cases desc; opt_cases img; opt_cases agg; split; reflexivity.
Qed.

(** C4, the failing input.  A sub-object configuration that holds a unit
    text and no number ([minValue], [maxValue] and [value] absent or
    None) is not suppressed: [_quantitative_node] returns the node with
    its type and its unit.  So with
    [loan_defaults={"loan_term": {"maxValue": None}}] the LoanOrCredit
    node of every context carries
    [loanTerm = {"@type": "QuantitativeValue", "unitText": "MONTH"}]. *)
Theorem unit_only_term_is_emitted (E : Env) (ctx : SchemaContext) :
  (forall cfg : dict,
     is_none (get cfg "minValue") = true ->
     is_none (get cfg "maxValue") = true ->
     is_none (get cfg "value") = true ->
     is_none (get cfg "unitText") = false ->
     _quantitative_node (PDict cfg)
     = Some [ kv "@type" (get_or cfg "@type" (S_ "QuantitativeValue"));
              kv "unitText" (get cfg "unitText") ])
  /\ exists loan rest,
       build_loan_or_credit_graph E ctx unit_only_term = Ok (loan :: rest)
       /\ get loan "@type" = S_ "LoanOrCredit"
       /\ dict_get (py "loanTerm") loan
          = Some (PDict [ kv "@type" (S_ "QuantitativeValue");
                          kv "unitText" (S_ "MONTH") ]).
Proof.
  split; [exact quantitative_node_unit_only|].
  pose proof (loan_head_unit_only E ctx) as H.
  destruct (build_loan_or_credit_graph E ctx unit_only_term) as [[|loan rest]|e];
    [done| |done].
  by exists loan, rest.
Qed.

Lemma unit_only_term_is_emitted_witness :
  _quantitative_node (PDict [kv "maxValue" PNone; kv "unitText" (S_ "MONTH")])
  = Some [ kv "@type" (S_ "QuantitativeValue"); kv "unitText" (S_ "MONTH") ].
Proof.
  exact (proj1 (unit_only_term_is_emitted sample_env sample_ctx)
           [kv "maxValue" PNone; kv "unitText" (S_ "MONTH")]
           eq_refl eq_refl eq_refl eq_refl).
Defined.

(** ** Builder dispatch *)





(** ** The default rating *)



Tactic Notation "product_at" integer(k) :=
  simpl app; do k apply Exists_cons_tl; by apply Exists_cons_hd.


(** *** Through the workflow *)

Lemma bind_ok {A B} (m : res A) (f : A -> res B) (b : B) :
  (x ← m; f x) = Ok b -> exists a, m = Ok a /\ f a = Ok b.
Proof. destruct m as [a|e]; [by exists a|done]. Qed.

Lemma builders_get_some (k : str) (b : builder) (l : list (str * builder)) :
  builders_get k l = Some b -> (k, b) ∈ l.
Proof.
  induction l as [|[k' b'] l IH]; [done|]. cbn.
  destruct (str_eqb k k') eqn:Hk.
  - apply str_eqb_eq in Hk as ->. intros [= ->]. apply list_elem_of_here.
  - intros H. apply list_elem_of_further. by apply IH.
Qed.

Lemma organizations_get_type (k : pyval) (o : dict) :
  organizations_get k PNone = Ok (PDict o) -> get o "@type" = S_ "Organization".
Proof.
  destruct k as [|b|z|m e|s|ps|kps]; try done.
  unfold organizations_get, ORGANIZATIONS, kv. cbn [dict_get fst snd].
  intros H.
  set (f := fun r : res pyval =>
              match r with Ok (PDict d) => get d "@type" | _ => PNone end).
  change (f (Ok (PDict o)) = S_ "Organization"). rewrite <- H.
  repeat (destruct (str_eqb s _); [reflexivity|]).
  discriminate.
Qed.

Lemma offer_catalog_types (E : Env) (url : str) (key : pyval) :
  match build_offer_catalog_node E url key with
  | Ok (Some cn, po) =>
      get cn "@type" = S_ "OfferCatalog"
      /\ forall o, po = Some o -> get o "@type" = S_ "Organization"
  | _ => True
  end.
Proof.
  unfold build_offer_catalog_node.
  destruct (match key with PStr _ => _ | _ => _ end) as [c1|e];
    cbn [mbind res_bind]; [|done].
  destruct (negb (truthy c1)); [done|].
  destruct (as_dict c1) as [c2|e]; cbn [mbind res_bind]; [|done]. cbv zeta.
  destruct (py_iter _) as [items|e]; cbn [mbind res_bind]; [|done].
  destruct (catalog_offers _ _ _ _ _) as [[|i il]|e]; cbn [mbind res_bind]; try done.
  destruct (organizations_get _ _) as [prov|e] eqn:Hp; cbn [mbind res_bind]; [|done].
  destruct prov as [|b|z|m e|s|ps|o']; (split; [reflexivity|]); try done.
  intros o Ho. destruct (truthy (PDict o')); [|done].
  assert (o = o') as -> by congruence. by eapply organizations_get_type.
Qed.

Lemma attach_catalog_types (E : Env) (url : str) (key : pyval) (g g' : list dict) :
  attach_catalog E url key g = Ok g' ->
  exists extra, g' = g ++ extra
    /\ Forall (fun n => get n "@type" <> S_ "Product") extra.
Proof.
  assert (Hnone : forall g0, Ok g = Ok g0 -> exists extra, g0 = g ++ extra
            /\ Forall (fun n => get n "@type" <> S_ "Product") extra).
  { intros g0 Hg. exists []. rewrite app_nil_r. split; [congruence|done]. }
  unfold attach_catalog. destruct (truthy key); [|by apply Hnone].
  pose proof (offer_catalog_types E url key) as Ht.
  destruct (build_offer_catalog_node E url key) as [[cn po]|e];
    cbn [mbind res_bind]; [|done].
  destruct cn as [cn|]; [|by apply Hnone]. destruct Ht as [Hcn Hpo].
  assert (Hone : forall g0, Ok (g ++ [cn]) = Ok g0 -> exists extra, g0 = g ++ extra
            /\ Forall (fun n => get n "@type" <> S_ "Product") extra).
  { intros g0 Hg. exists [cn]. split; [congruence|].
    apply Forall_cons. split; [|apply Forall_nil_2].
    rewrite Hcn. intros Heq. vm_compute in Heq. discriminate. }
  destruct (truthy (PDict cn)); [|by apply Hnone].
  destruct po as [po|]; [|by apply Hone].
  destruct (truthy (PDict po) && truthy (get po "@id")); [|by apply Hone].
  destruct (existing_ids _) as [ids|e]; cbn [mbind res_bind]; [|done].
  destruct (negb (set_mem (get po "@id") ids)); [|by apply Hone].
  intros Hg. exists [cn; po]. split; [injection Hg as Hg; by rewrite <- Hg, <- app_assoc|].
  repeat (apply Forall_cons; split); [..|apply Forall_nil_2].
  - rewrite Hcn. intros Heq. vm_compute in Heq. discriminate.
  - rewrite (Hpo po eq_refl). intros Heq. vm_compute in Heq. discriminate.
Qed.





(** ** Node identifiers *)
















(** ** [deep_merge] on values *)

Lemma str_eqb_refl (a : str) : str_eqb a a = true.
Proof. by apply str_eqb_eq. Qed.

Lemma str_eqb_neq (a b : str) : a <> b -> str_eqb a b = false.
Proof.
  intros Hn. destruct (str_eqb a b) eqn:He; [|done]. by apply str_eqb_eq in He.
Qed.

Lemma dict_get_set_same (k : str) (v : pyval) (d : dict) :
  dict_get k (dict_set k v d) = Some v.
Proof.
  induction d as [|[k' v'] d IH]; simpl.
  - by rewrite str_eqb_refl.
  - destruct (str_eqb k k') eqn:He; simpl; by rewrite He.
Qed.

Lemma dict_get_set_other (k k' : str) (v : pyval) (d : dict) :
  k <> k' -> dict_get k (dict_set k' v d) = dict_get k d.
Proof.
  intros Hn. induction d as [|[k1 v1] d IH]; simpl.
  - by rewrite str_eqb_neq.
  - destruct (str_eqb k' k1) eqn:He; simpl; [|by rewrite IH].
    apply str_eqb_eq in He as <-. by rewrite str_eqb_neq.
Qed.

Lemma merged_value_dict (base overrides : dict) :
  merged_value (Some (PDict base)) (PDict overrides) = PDict (deep_merge base overrides).
Proof.
  unfold deep_merge. cbn [merged_value]. f_equal.
  revert base. induction overrides as [|[k v] o IH]; intros base; [done|].
  cbn [fold_left fst snd]. by rewrite <- IH.
Qed.

Lemma merged_value_replace (current : option pyval) (value : pyval) :
  (forall b, current = Some (PDict b) -> is_dict value = false) ->
  merged_value current value = value.
Proof.
  intros H. destruct current as [[]|], value; try done.
  by specialize (H _ eq_refl).
Qed.

Lemma deep_merge_cons (base : dict) (k : str) (v : pyval) (overrides : dict) :
  deep_merge base ((k, v) :: overrides)
  = deep_merge (dict_set k (merged_value (dict_get k base) v) base) overrides.
Proof. reflexivity. Qed.

Lemma deep_merge_other (k : str) (overrides : dict) :
  forall base, k ∉ map fst overrides ->
    dict_get k (deep_merge base overrides) = dict_get k base.
Proof.
  induction overrides as [|[k1 v1] o IH]; intros base Hk; [done|].
  cbn [map fst] in Hk. apply not_elem_of_cons in Hk as [Hne Hk].
  rewrite deep_merge_cons, IH by done. by apply dict_get_set_other.
Qed.

Lemma deep_merge_key (k : str) (v : pyval) (overrides : dict) :
  forall base, NoDup (map fst overrides) -> (k, v) ∈ overrides ->
    dict_get k (deep_merge base overrides)
    = Some (merged_value (dict_get k base) v).
Proof.
  induction overrides as [|[k1 v1] o IH]; intros base Hnd Hin.
  - by apply elem_of_nil in Hin.
  - cbn [map fst] in Hnd. apply NoDup_cons in Hnd as [Hk1 Hnd].
    rewrite deep_merge_cons. apply elem_of_cons in Hin as [[= -> ->]|Hin].
    + rewrite deep_merge_other by done. apply dict_get_set_same.
    + rewrite IH by done. rewrite dict_get_set_other; [done|].
      intros ->. apply Hk1. apply list_elem_of_fmap. by exists (k1, v).
Qed.

(** ** [deep_merge] on the object store *)

Local Close Scope N_scope.

Lemma pyval_nested_ind (Q : pyval -> Prop) :
  Q PNone -> (forall b, Q (PBool b)) -> (forall z, Q (PInt z)) ->
  (forall m e, Q (PFloat m e)) -> (forall s, Q (PStr s)) ->
  (forall ps, Forall Q ps -> Q (PList ps)) ->
  (forall kps, Forall (fun kp => Q (snd kp)) kps -> Q (PDict kps)) ->
  forall p, Q p.
Proof.
  intros HN HB HI HF HS HL HD. fix IH 1. intros [|b|z|m e|s|ps|kps];
    [apply HN|apply HB|apply HI|apply HF|apply HS|..].
  - apply HL. induction ps as [|p ps IHps]; constructor; [apply IH|apply IHps].
  - apply HD. induction kps as [|[k p] kps IHk]; constructor; [apply IH|apply IHk].
Qed.

Lemma repr_in_dict (P : nat -> Prop) (h : heap) (v : hval) (kps : dict) :
  repr_in P h v (PDict kps) <->
  exists l kvs, v = HRef l /\ P l /\ h !! l = Some (HDict kvs) /\ repr_items P h kvs kps.
Proof.
  cbn [repr_in].
  split; intros (l & kvs & -> & HP & Hl & Hall); exists l, kvs;
    (split; [done|]); (split; [done|]); (split; [done|]); clear Hl;
    revert kvs Hall; induction kps as [|[k p] kps IH]; intros [|[k' v'] kvs] Hall;
    try done; try (by inversion Hall).
  - constructor.
  - destruct Hall as (-> & Hr & Hall). constructor; [done|]. by apply IH.
  - apply Forall2_cons in Hall as [[Hk Hr] Hall]. cbn in Hk. subst k'.
    split; [done|]. split; [done|]. by apply IH.
Qed.

Lemma repr_in_list (P : nat -> Prop) (h : heap) (v : hval) (ps : list pyval) :
  repr_in P h v (PList ps) <->
  exists l vs, v = HRef l /\ P l /\ h !! l = Some (HList vs) /\ repr_vals P h vs ps.
Proof.
  cbn [repr_in].
  split; intros (l & vs & -> & HP & Hl & Hall); exists l, vs;
    (split; [done|]); (split; [done|]); (split; [done|]); clear Hl;
    revert vs Hall; induction ps as [|p ps IH]; intros [|v' vs] Hall;
    try done; try (by inversion Hall).
  - constructor.
  - destruct Hall as (Hr & Hall). constructor; [done|]. by apply IH.
  - apply Forall2_cons in Hall as [Hr Hall]. split; [done|]. by apply IH.
Qed.

Lemma Forall2_Forall_impl {A B} (R R' : A -> B -> Prop) (l : list A) (k : list B) :
  Forall (fun y => forall x, R x y -> R' x y) k -> Forall2 R l k -> Forall2 R' l k.
Proof.
  intros HF H2. induction H2 as [|x y l k Hxy H2 IH]; [constructor|].
  apply Forall_cons in HF as [H1 HF]. constructor; [by apply H1|by apply IH].
Qed.

(** A representation moves to any store that keeps the objects it
    visits. *)
Lemma repr_in_transfer (P Q : nat -> Prop) (h h' : heap) :
  (forall l, P l -> Q l) ->
  (forall l o, P l -> h !! l = Some o -> h' !! l = Some o) ->
  forall p v, repr_in P h v p -> repr_in Q h' v p.
Proof.
  intros HPQ Hh. induction p as [|b|z|m e|s|ps IH|kps IH] using pyval_nested_ind;
    intros v; try done.
  - rewrite !repr_in_list. intros (l & vs & -> & HP & Hl & Hall).
    exists l, vs. split; [done|]. split; [by apply HPQ|]. split; [by eapply Hh|].
    revert Hall. by apply Forall2_Forall_impl.
  - rewrite !repr_in_dict. intros (l & kvs & -> & HP & Hl & Hall).
    exists l, kvs. split; [done|]. split; [by apply HPQ|]. split; [by eapply Hh|].
    revert Hall. apply Forall2_Forall_impl.
    eapply Forall_impl; [exact IH|]. intros kp Hkp kv [Hk Hr]. split; [done|by apply Hkp].
Qed.

(** Every object a representation visits is in the store. *)
Lemma repr_in_bound (P : nat -> Prop) (h : heap) :
  forall p v, repr_in P h v p -> repr_in (fun l => P l /\ l < length h) h v p.
Proof.
  induction p as [|b|z|m e|s|ps IH|kps IH] using pyval_nested_ind;
    intros v; try done.
  - rewrite !repr_in_list. intros (l & vs & -> & HP & Hl & Hall).
    exists l, vs. split; [done|].
    split; [split; [done|by eapply lookup_lt_Some]|]. split; [done|].
    revert Hall. by apply Forall2_Forall_impl.
  - rewrite !repr_in_dict. intros (l & kvs & -> & HP & Hl & Hall).
    exists l, kvs. split; [done|].
    split; [split; [done|by eapply lookup_lt_Some]|]. split; [done|].
    revert Hall. apply Forall2_Forall_impl.
    eapply Forall_impl; [exact IH|]. intros kp Hkp kv [Hk Hr]. split; [done|by apply Hkp].
Qed.

Lemma repr_in_prefix (P : nat -> Prop) (h h' : heap) (v : hval) (p : pyval) :
  h `prefix_of` h' -> repr_in P h v p -> repr_in P h' v p.
Proof.
  intros Hp. apply repr_in_transfer; [done|].
  intros l o _ Hl. by eapply prefix_lookup_Some.
Qed.

Lemma repr_items_vals (P : nat -> Prop) (h : heap) kvs (kps : dict) :
  repr_items P h kvs kps ->
  map fst kvs = map fst kps /\ repr_vals P h (map snd kvs) (map snd kps).
Proof.
  intros H. induction H as [|kv kp kvs' kps' [Hk Hr] _ [IH1 IH2]]; [by split; [|constructor]|].
  cbn [map]. split; [by f_equal|by constructor].
Qed.

Lemma repr_items_zip (P : nat -> Prop) (h : heap) (kps : dict) :
  forall ks vs, repr_vals P h vs (map snd kps) -> ks = map fst kps ->
    repr_items P h (zip ks vs) kps.
Proof.
  induction kps as [|[k p] kps IH]; intros ks vs Hv ->.
  - constructor.
  - cbn [map] in Hv. apply Forall2_cons_inv_r in Hv as (v & vs' & Hr & Hv & ->).
    cbn. constructor; [done|]. by apply IH.
Qed.

Lemma depth_list (ps : list pyval) (m : nat) :
  depth (PList ps) <= S m <-> Forall (fun p => depth p <= m) ps.
Proof.
  cbn [depth]. induction ps as [|p ps IH].
  - split; [constructor|lia].
  - rewrite Forall_cons, <- IH. lia.
Qed.

Lemma depth_dict (kps : dict) (m : nat) :
  depth (PDict kps) <= S m <-> Forall (fun kp => depth (snd kp) <= m) kps.
Proof.
  cbn [depth]. induction kps as [|[k p] kps IH].
  - split; [constructor|lia].
  - rewrite Forall_cons, <- IH. cbn [snd]. lia.
Qed.

Lemma repr_is_dict (P : nat -> Prop) (h : heap) (v : hval) (p : pyval) :
  repr_in P h v p -> h_is_dict h v = is_dict p.
Proof.
  destruct p as [|b|z|m e|s|ps|kps]; cbn [repr_in]; try (by intros ->).
  - intros (l & vs & -> & _ & Hl & _). cbn. by rewrite Hl.
  - intros (l & kvs & -> & _ & Hl & _). cbn. by rewrite Hl.
Qed.

Lemma repr_truthy_dict (P : nat -> Prop) (h : heap) (v : hval) (kps : dict) :
  repr_in P h v (PDict kps) ->
  h_truthy h v = match kps with [] => false | _ => true end.
Proof.
  rewrite repr_in_dict. intros (l & kvs & -> & _ & Hl & Hall). cbn. rewrite Hl.
  by destruct Hall.
Qed.

Lemma hget_repr (P : nat -> Prop) (h : heap) kvs (kps : dict) (k : str) :
  repr_items P h kvs kps ->
  match hget k kvs, dict_get k kps with
  | Some v, Some p => repr_in P h v p
  | None, None => True
  | _, _ => False
  end.
Proof.
  intros H. induction H as [|[k1 v1] [k2 p2] kvs' kps' [Hk Hr] _ IH]; [done|].
  cbn in Hk. subst k2. cbn. by destruct (str_eqb k k1).
Qed.

Lemma hset_repr (P : nat -> Prop) (h : heap) kvs (kps : dict) (k : str)
    (v : hval) (p : pyval) :
  repr_items P h kvs kps -> repr_in P h v p ->
  repr_items P h (hset k v kvs) (dict_set k p kps).
Proof.
  intros Hall Hv. induction Hall as [|[k1 v1] [k2 p2] kvs' kps' [Hk Hr] Hall IH].
  - by constructor.
  - cbn in Hk. subst k2. cbn. destruct (str_eqb k k1); constructor; done.
Qed.

Lemma prefix_insert (h0 h : heap) (r : nat) (o : hobj) :
  h0 `prefix_of` h -> length h0 <= r -> h0 `prefix_of` <[r := o]> h.
Proof.
  unfold heap in *. intros [k ->] Hr. rewrite insert_app_r_alt by done. by eexists.
Qed.

Lemma prefix_alloc (h : heap) (o : hobj) : h `prefix_of` h ++ [o].
Proof. by eexists. Qed.

Lemma repr_in_weaken (P Q : nat -> Prop) (h : heap) (v : hval) (p : pyval) :
  (forall l, P l -> Q l) -> repr_in P h v p -> repr_in Q h v p.
Proof. intros HPQ. by apply repr_in_transfer. Qed.

Section deepcopy_step.
Variable n : nat.
Hypothesis IHcopy : forall p v h, depth p <= n -> repr h v p ->
  exists v' h', deepcopy_h n v h = Done v' h' /\ h `prefix_of` h'
    /\ repr_in (fun l => length h <= l) h' v' p.

Lemma copy_vals_spec (h0 : heap) :
  forall ps vs h, h0 `prefix_of` h -> Forall (fun p => depth p <= n) ps ->
    repr_vals (fun _ => True) h vs ps ->
    exists vs' h', copy_vals (deepcopy_h n) vs h = Done vs' h' /\ h `prefix_of` h'
      /\ repr_vals (fun l => length h0 <= l) h' vs' ps.
Proof.
  induction ps as [|p ps IH]; intros vs h Hp Hd Hv.
  - apply Forall2_nil_inv_r in Hv as ->. exists [], h.
    split; [done|]. split; [done|constructor].
  - apply Forall2_cons_inv_r in Hv as (v & vs' & Hr & Hv & ->).
    apply Forall_cons in Hd as [Hd1 Hd2].
    destruct (IHcopy p v h Hd1 Hr) as (v' & h1 & Hc & Hp1 & Hr1).
    destruct (IH vs' h1) as (vs'' & h2 & Hc2 & Hp2 & Hr2).
    { by trans h. }
    { done. }
    { eapply Forall2_impl; [exact Hv|]. intros x y Hxy. by eapply repr_in_prefix. }
    exists (v' :: vs''), h2. cbn [copy_vals]. rewrite Hc, Hc2.
    split; [done|]. split; [by trans h1|]. constructor; [|done].
    eapply repr_in_transfer; [| |exact Hr1].
    + intros l Hl. apply prefix_length in Hp. cbn beta in *. unfold heap in *. lia.
    + intros l o _ Hl. by eapply prefix_lookup_Some.
Qed.

Lemma deepcopy_dict_step (b : dict) (l : nat) (h : heap) kvs :
  depth (PDict b) <= S n -> h !! l = Some (HDict kvs) ->
  repr_items (fun _ => True) h kvs b ->
  exists r kvs' h',
    deepcopy_h (S n) (HRef l) h = Done (HRef r) h' /\ h `prefix_of` h'
    /\ length h <= r /\ h' !! r = Some (HDict kvs')
    /\ repr_items (fun l => length h <= l /\ l <> r) h' kvs' b.
Proof.
  intros Hd Hl Hall. apply depth_dict in Hd.
  destruct (repr_items_vals _ _ _ _ Hall) as [Hk Hv].
  destruct (copy_vals_spec h (map snd b) (map snd kvs) h)
    as (vs' & h1 & Hc & Hp1 & Hr1); [done|by apply Forall_fmap|done|].
  exists (length h1), (zip (map fst kvs) vs'), (h1 ++ [HDict (zip (map fst kvs) vs')]).
  cbn [deepcopy_h]. unfold loc, heap in *. rewrite Hl, Hc. unfold alloc.
  split; [done|]. split; [etrans; [exact Hp1|apply prefix_alloc]|].
  split; [by apply prefix_length|]. split; [by apply list_lookup_middle|].
  apply repr_items_zip; [|done].
  eapply Forall2_impl; [exact Hr1|]. intros v p Hvp. apply repr_in_bound in Hvp.
  eapply repr_in_transfer; [| |exact Hvp].
  - intros l' [? ?]. split; [done|lia].
  - intros l' o _ Hl'. eapply prefix_lookup_Some; [exact Hl'|apply prefix_alloc].
Qed.

Lemma deepcopy_list_step (ps : list pyval) (l : nat) (h : heap) vs :
  depth (PList ps) <= S n -> h !! l = Some (HList vs) ->
  repr_vals (fun _ => True) h vs ps ->
  exists r h',
    deepcopy_h (S n) (HRef l) h = Done (HRef r) h' /\ h `prefix_of` h'
    /\ repr_in (fun l => length h <= l) h' (HRef r) (PList ps).
Proof.
  intros Hd Hl Hall. apply depth_list in Hd.
  destruct (copy_vals_spec h ps vs h) as (vs' & h1 & Hc & Hp1 & Hr1); [done..|].
  exists (length h1), (h1 ++ [HList vs']).
  cbn [deepcopy_h]. unfold loc, heap in *. rewrite Hl, Hc. unfold alloc.
  split; [done|]. split; [etrans; [exact Hp1|apply prefix_alloc]|].
  apply repr_in_list. exists (length h1), vs'.
  split; [done|]. split; [by apply prefix_length|].
  split; [by apply list_lookup_middle|].
  eapply Forall2_impl; [exact Hr1|]. intros v p Hvp.
  eapply repr_in_prefix; [apply prefix_alloc|done].
Qed.

End deepcopy_step.

(** [deepcopy] returns, changes no object of the store and builds its
    result from new objects. *)
Lemma deepcopy_spec (n : nat) :
  forall p v h, depth p <= n -> repr h v p ->
    exists v' h', deepcopy_h n v h = Done v' h' /\ h `prefix_of` h'
      /\ repr_in (fun l => length h <= l) h' v' p.
Proof.
  induction n as [|n IH]; intros p v h Hd Hr; unfold repr in Hr;
    destruct p as [|b|z|m e|s|ps|kps];
    try (cbn [repr_in] in Hr; subst v; eexists _, _; split; [reflexivity|by split]);
    try (cbn [depth] in Hd; lia).
  - apply repr_in_list in Hr as (l & vs & -> & _ & Hl & Hv).
    destruct (deepcopy_list_step n IH ps l h vs Hd Hl Hv) as (r & h' & Hc & Hp & Hr).
    by exists (HRef r), h'.
  - apply repr_in_dict in Hr as (l & kvs & -> & _ & Hl & Hv).
    destruct (deepcopy_dict_step n IH kps l h kvs Hd Hl Hv)
      as (r & kvs' & h' & Hc & Hp & Hge & Hl' & Hr).
    exists (HRef r), h'. split; [done|]. split; [done|].
    apply repr_in_dict. exists r, kvs'. split; [done|]. split; [done|]. split; [done|].
    eapply Forall2_impl; [exact Hr|]. intros kv kp [Hk Hkp]. split; [done|].
    eapply repr_in_weaken; [|exact Hkp]. by intros l' [? _].
Qed.

Lemma deepcopy_dict_spec (n : nat) (b : dict) (v : hval) (h : heap) :
  depth (PDict b) <= n -> repr h v (PDict b) ->
  exists r kvs' h',
    deepcopy_h n v h = Done (HRef r) h' /\ h `prefix_of` h'
    /\ length h <= r /\ h' !! r = Some (HDict kvs')
    /\ repr_items (fun l => length h <= l /\ l <> r) h' kvs' b.
Proof.
  intros Hd Hr. destruct n as [|n]; [cbn [depth] in Hd; lia|].
  apply repr_in_dict in Hr as (l & kvs & -> & _ & Hl & Hv).
  by apply (deepcopy_dict_step n (deepcopy_spec n) b l h kvs).
Qed.


Lemma depth_dict_lt (kps : dict) (n : nat) :
  depth (PDict kps) <= n <-> 0 < n /\ Forall (fun kp => depth (snd kp) < n) kps.
Proof.
  destruct n as [|n].
  - cbn [depth]. split; [lia|intros [? _]; lia].
  - rewrite depth_dict. split.
    + intros H. split; [lia|]. eapply Forall_impl; [exact H|]. intros kp ?. cbn beta in *. lia.
    + intros [_ H]. eapply Forall_impl; [exact H|]. intros kp ?. cbn beta in *. lia.
Qed.

Lemma dict_get_Forall (Q : pyval -> Prop) (k : str) (d : dict) (p : pyval) :
  Forall (fun kp => Q (snd kp)) d -> dict_get k d = Some p -> Q p.
Proof.
  induction 1 as [|[k1 p1] d' Hq _ IH]; [done|]. cbn.
  destruct (str_eqb k k1); [by intros [= <-]|done].
Qed.

Lemma dict_set_Forall (Q : pyval -> Prop) (k : str) (p : pyval) (d : dict) :
  Forall (fun kp => Q (snd kp)) d -> Q p -> Forall (fun kp => Q (snd kp)) (dict_set k p d).
Proof.
  intros H Hp. induction H as [|[k1 p1] d' Hq H IH]; cbn.
  - by constructor.
  - destruct (str_eqb k k1); by constructor.
Qed.

Section merge_step.
Variable n : nat.
Hypothesis IHmerge : forall b o vb vo h,
  depth (PDict b) < n -> depth (PDict o) < n ->
  repr h vb (PDict b) -> repr h vo (PDict o) ->
  exists r h', deep_merge_h n vb vo h = Done (HRef r) h' /\ h `prefix_of` h'
    /\ repr_in (fun l => length h <= l) h' (HRef r) (PDict (deep_merge b o))
    /\ depth (PDict (deep_merge b o)) < n.

(** What [result[key]] is given in one turn of the loop. *)
Lemma merge_value_spec (h : heap) (P : nat -> Prop) ritems (res : dict)
    (k : str) (v : hval) (p : pyval) :
  repr_items P h ritems res -> repr h v p ->
  depth (PDict res) <= n -> depth p < n ->
  exists v' h1,
    match hget k ritems with
    | Some cur =>
        if h_is_dict h cur && h_is_dict h v then deep_merge_h n cur v h
        else deepcopy_h n v h
    | None => deepcopy_h n v h
    end = Done v' h1
    /\ h `prefix_of` h1
    /\ repr_in (fun l => length h <= l) h1 v' (merged_value (dict_get k res) p)
    /\ depth (merged_value (dict_get k res) p) < n.
Proof.
  intros Hres Hv Hdres Hdp.
  assert (Hcopy : forall cur, (forall b, cur = Some (PDict b) -> is_dict p = false) ->
            exists v' h1, deepcopy_h n v h = Done v' h1 /\ h `prefix_of` h1
              /\ repr_in (fun l => length h <= l) h1 v' (merged_value cur p)
              /\ depth (merged_value cur p) < n).
  { intros cur Hcur. rewrite merged_value_replace by done.
    destruct (deepcopy_spec n p v h) as (v' & h1 & Hc & Hp & Hr); [lia|done|].
    by exists v', h1. }
  pose proof (hget_repr _ _ _ _ k Hres) as Hg.
  destruct (hget k ritems) as [cur|], (dict_get k res) as [cp|] eqn:Hcp; try done.
  - rewrite (repr_is_dict _ _ _ _ Hg), (repr_is_dict _ _ _ _ Hv).
    destruct cp as [| | | | | |cb]; cbn [is_dict andb]; try (by apply Hcopy).
    destruct p as [| | | | | |po]; cbn [is_dict]; try (by apply Hcopy; intros).
    rewrite merged_value_dict.
    destruct (IHmerge cb po cur v h) as (r & h1 & Hm & Hp & Hr & Hd); [|done| |done|].
    + apply depth_dict_lt in Hdres as [_ Hdres].
      by apply (dict_get_Forall (fun q => depth q < n) k res).
    + eapply repr_in_weaken; [|exact Hg]. done.
    + by exists (HRef r), h1.
  - by apply Hcopy.
Qed.

Lemma merge_items_spec (h0 : heap) (r : nat) (Hr0 : length h0 <= r) :
  forall (o : dict) items (h : heap) ritems (res : dict),
    h0 `prefix_of` h ->
    h !! r = Some (HDict ritems) ->
    repr_items (fun l => length h0 <= l /\ l <> r) h ritems res ->
    repr_items (fun l => l < length h0) h0 items o ->
    depth (PDict res) <= n -> depth (PDict o) <= n ->
    exists h' ritems',
      merge_items (deep_merge_h n) (deepcopy_h n) r items h = Done (HRef r) h'
      /\ h0 `prefix_of` h'
      /\ h' !! r = Some (HDict ritems')
      /\ repr_items (fun l => length h0 <= l /\ l <> r) h' ritems' (deep_merge res o)
      /\ depth (PDict (deep_merge res o)) <= n.
Proof.
  induction o as [|[k p] o IH]; intros items h ritems res Hp Hl Hres Hitems Hdres Hdo.
  - apply Forall2_nil_inv_r in Hitems as ->. by exists h, ritems.
  - apply Forall2_cons_inv_r in Hitems as ([k' v] & items' & [Hk Hv] & Hitems & ->).
    cbn in Hk, Hv. subst k'.
    apply depth_dict_lt in Hdo as [Hn Hdo]. apply Forall_cons in Hdo as [Hdp Hdo].
    cbn [snd] in Hdp.
    assert (Hvh : repr h v p).
    { eapply repr_in_transfer; [| |exact Hv]; [done|].
      intros l ob _ Hlo. by eapply prefix_lookup_Some. }
    destruct (merge_value_spec h _ ritems res k v p Hres Hvh Hdres Hdp)
      as (v' & h1 & Hnew & Hp1 & Hr1 & Hd1).
    cbn [merge_items]. unfold loc, heap in *. rewrite Hl, Hnew.
    assert (Hl1 : h1 !! r = Some (HDict ritems)) by by eapply prefix_lookup_Some.
    rewrite Hl1.
    assert (Hrh : r < length h) by by eapply lookup_lt_Some.
    assert (Hrh1 : r < length h1) by by eapply lookup_lt_Some.
    rewrite deep_merge_cons.
    apply (IH items' (<[r := HDict (hset k v' ritems)]> h1) (hset k v' ritems)).
    + apply prefix_insert; [by trans h|done].
    + by apply list_lookup_insert_eq.
    + apply hset_repr.
      * eapply Forall2_impl; [exact Hres|]. intros kv kp [Hkk Hkp]. split; [done|].
        eapply repr_in_transfer; [| |exact Hkp]; [done|].
        intros l ob [_ Hne] Hlo. unfold loc, heap in *.
        rewrite list_lookup_insert_ne by done.
        by eapply prefix_lookup_Some.
      * eapply repr_in_transfer; [| |exact Hr1].
        -- intros l Hlen. apply prefix_length in Hp. cbn beta in *. lia.
        -- intros l ob Hlen Hlo. cbn beta in *. unfold loc, heap in *.
           by rewrite list_lookup_insert_ne by lia.
    + done.
    + apply depth_dict_lt. split; [done|].
      apply (dict_set_Forall (fun q => depth q < n)); [|done].
      by apply depth_dict_lt in Hdres as [_ ?].
    + by apply depth_dict_lt.
Qed.

End merge_step.

(** [deep_merge] on the store: with fuel above the depth of both
    dictionaries it returns; it changes no object the store held; and
    its result, made of new objects, stands for what [deep_merge]
    computes on the values. *)
Lemma deep_merge_h_spec (n : nat) :
  forall b o vb vo h,
    depth (PDict b) < n -> depth (PDict o) < n ->
    repr h vb (PDict b) -> repr h vo (PDict o) ->
    exists r h', deep_merge_h n vb vo h = Done (HRef r) h' /\ h `prefix_of` h'
      /\ repr_in (fun l => length h <= l) h' (HRef r) (PDict (deep_merge b o))
      /\ depth (PDict (deep_merge b o)) < n.
Proof.
  induction n as [|n IH]; intros b o vb vo h Hdb Hdo Hb Ho; [lia|].
  destruct (deepcopy_dict_spec n b vb h) as (r & kvs & h1 & Hc & Hp & Hge & Hl & Hr);
    [lia|done|].
  cbn [deep_merge_h]. rewrite Hc.
  assert (Ho1 : repr h1 vo (PDict o)) by by eapply repr_in_prefix.
  rewrite (repr_truthy_dict _ _ _ _ Ho1).
  assert (Hfin : forall h' ritems' res,
            h' !! r = Some (HDict ritems') ->
            repr_items (fun l => length h <= l /\ l <> r) h' ritems' res ->
            repr_in (fun l => length h <= l) h' (HRef r) (PDict res)).
  { intros h' ritems' res Hl' Hres. apply repr_in_dict. exists r, ritems'.
    split; [done|]. split; [done|]. split; [done|].
    eapply Forall2_impl; [exact Hres|]. intros kv kp [Hk Hkp]. split; [done|].
    eapply repr_in_weaken; [|exact Hkp]. by intros l [? _]. }
  destruct o as [|kp o]; cbn [negb].
  - exists r, h1. split; [done|]. split; [done|]. split; [by eapply Hfin|done].
  - apply repr_in_bound in Ho. apply repr_in_dict in Ho as (lo & items & -> & _ & Hlo & Hitems).
    assert (Hlo1 : h1 !! lo = Some (HDict items)) by by eapply prefix_lookup_Some.
    unfold loc, heap in *. rewrite Hlo1.
    destruct (merge_items_spec n IH h r Hge (kp :: o) items h1 kvs b)
      as (h' & ritems' & Hm & Hp' & Hl' & Hres & Hd); [done|done|done| |lia|lia|].
    { eapply Forall2_impl; [exact Hitems|]. intros x y [Hk Hxy]. split; [done|].
      eapply repr_in_weaken; [|exact Hxy]. by intros l [_ ?]. }
    exists r, h'. split; [done|]. split; [done|]. split; [by eapply Hfin|lia].
Qed.


(** C6. Let the store hold two dictionaries, [b] at [vb] and [o] (with
    pairwise distinct keys) at [vo]; they may share objects.  With fuel
    above the depth of both, [deep_merge] returns a dictionary; every
    object the store held is unchanged, so [vb] and [vo] still stand for
    [b] and [o]; the result is made of objects that are all new and
    stands for [deep_merge b o].  That value is [b] itself when [o] is
    empty; under a key of [o] whose value is not a dictionary, or whose
    value in [b] is absent or not a dictionary, it holds the value of
    [o]; under a key where both hold dictionaries it holds their merge;
    under the other keys it holds what [b] holds. *)
Theorem deep_merge_laws (b o : dict) (vb vo : hval) (h : heap) (n : nat)
    (Hb : repr h vb (PDict b)) (Ho : repr h vo (PDict o))
    (Hkeys : NoDup (map fst o))
    (Hn : Nat.max (depth (PDict b)) (depth (PDict o)) < n) :
  (exists r h',
     deep_merge_h n vb vo h = Done (HRef r) h'
     /\ (forall l x, h !! l = Some x -> h' !! l = Some x)
     /\ repr h' vb (PDict b) /\ repr h' vo (PDict o)
     /\ repr_in (fun l => length h <= l) h' (HRef r) (PDict (deep_merge b o)))
  /\ deep_merge b [] = b
  /\ (forall k v, (k, v) ∈ o -> is_dict v = false ->
        dict_get k (deep_merge b o) = Some v)
  /\ (forall k v, (k, v) ∈ o -> (forall bk, dict_get k b <> Some (PDict bk)) ->
        dict_get k (deep_merge b o) = Some v)
  /\ (forall k bk ok, (k, PDict ok) ∈ o -> dict_get k b = Some (PDict bk) ->
        dict_get k (deep_merge b o) = Some (PDict (deep_merge bk ok)))
  /\ (forall k, k ∉ map fst o -> dict_get k (deep_merge b o) = dict_get k b).
Proof.
  split; [|split; [reflexivity|split; [|split; [|split]]]].
  - destruct (deep_merge_h_spec n b o vb vo h) as (r & h' & Hm & Hp & Hr & _);
      [lia|lia|done|done|].
    exists r, h'. split; [done|].
    split; [intros l x Hl; by eapply prefix_lookup_Some|].
    split; [by eapply repr_in_prefix|]. split; [by eapply repr_in_prefix|done].
  - intros k v Hin Hv. rewrite (deep_merge_key k v) by done.
    by rewrite merged_value_replace.
  - intros k v Hin Hbk. rewrite (deep_merge_key k v) by done.
    rewrite merged_value_replace; [done|]. intros bk Hc. by destruct (Hbk bk).
  - intros k bk ok Hin Hbk. rewrite (deep_merge_key k (PDict ok)) by done.
    by rewrite Hbk, merged_value_dict.
  - intros k Hk. by apply deep_merge_other.
Qed.

Lemma deep_merge_laws_witness :
  exists r h',
    deep_merge_h 4 (HRef 2) (HRef 5) sample_heap = Done (HRef r) h'
    /\ (forall l x, sample_heap !! l = Some x -> h' !! l = Some x)
    /\ repr h' (HRef 2) (PDict sample_base) /\ repr h' (HRef 5) (PDict sample_overrides)
    /\ repr_in (fun l => length sample_heap <= l) h' (HRef r)
         (PDict (deep_merge sample_base sample_overrides)).
Proof.
  refine (proj1 (deep_merge_laws sample_base sample_overrides (HRef 2) (HRef 5)
                   sample_heap 4 _ _ _ _)).
  - vm_compute. repeat first [done | eexists | split].
  - vm_compute. repeat first [done | eexists | split].
  - vm_compute. repeat (apply NoDup_cons; split;
      [rewrite ?not_elem_of_cons; repeat split;
         first [apply not_elem_of_nil | discriminate]|]).
    apply NoDup_nil_2.
  - vm_compute. lia.
Defined.

(* ================================================================== *)
(** * Further properties of the code *)
(* ================================================================== *)

(** ** More on [deep_merge] *)

Lemma has_key_elem (k : str) (d : dict) : has_key k d = true <-> k ∈ map fst d.
Proof.
  unfold has_key. induction d as [|[k' v] d IH]; cbn.
  - split; [done|]. intros H. by apply elem_of_nil in H.
  - rewrite elem_of_cons. destruct (str_eqb k k') eqn:Hk.
    + apply str_eqb_eq in Hk. split; [by left|done].
    + rewrite IH. split; [by right|]. intros [->|H]; [|done].
      by rewrite str_eqb_refl in Hk.
Qed.

Lemma dict_set_keys (k : str) (v : pyval) (d : dict) :
  map fst (dict_set k v d) = if has_key k d then map fst d else map fst d ++ [k].
Proof.
  unfold has_key. induction d as [|[k' v'] d IH]; cbn; [done|].
  destruct (str_eqb k k') eqn:Hk; cbn; [done|].
  rewrite IH. by destruct (dict_get k d).
Qed.

Lemma dict_set_same (k : str) (v : pyval) (d : dict) :
  dict_get k d = Some v -> dict_set k v d = d.
Proof.
  induction d as [|[k' v'] d IH]; cbn; [done|].
  destruct (str_eqb k k') eqn:Hk; [by intros [= ->]|].
  intros H. by rewrite IH.
Qed.

Lemma deep_merge_keys_step (b : dict) (k : str) (v : pyval) :
  map fst b `prefix_of` map fst (dict_set k v b)
  /\ (forall k', k' ∈ map fst (dict_set k v b) <-> k' ∈ map fst b \/ k' = k)
  /\ (NoDup (map fst b) -> NoDup (map fst (dict_set k v b))).
Proof.
  rewrite dict_set_keys. destruct (has_key k b) eqn:Hk.
  - apply has_key_elem in Hk. split; [done|]. split; [|done].
    intros k'. split; [by left|]. by intros [?| ->].
  - split; [by apply prefix_app_r|]. split.
    + intros k'. rewrite elem_of_app, list_elem_of_singleton. done.
    + intros Hn. apply NoDup_app. split; [done|]. split; [|apply NoDup_singleton].
      intros x Hx Hx'. apply list_elem_of_singleton in Hx' as ->.
      apply has_key_elem in Hx. congruence.
Qed.

(** The keys of a merge: those of the base, in their places, followed by
    the keys only the overrides have; no key is listed twice. *)
Theorem deep_merge_keeps_keys (overrides base : dict) :
  map fst base `prefix_of` map fst (deep_merge base overrides)
  /\ (forall k, k ∈ map fst (deep_merge base overrides)
                <-> k ∈ map fst base \/ k ∈ map fst overrides)
  /\ (NoDup (map fst base) -> NoDup (map fst (deep_merge base overrides))).
Proof.
  revert base. induction overrides as [|[k v] o IH]; intros b.
  - cbn. split; [done|]. split; [|done]. intros k. split; [by left|].
    intros [?|H]; [done|]. by apply elem_of_nil in H.
  - rewrite deep_merge_cons.
    destruct (IH (dict_set k (merged_value (dict_get k b) v) b)) as (Hp & He & Hn).
    destruct (deep_merge_keys_step b k (merged_value (dict_get k b) v))
      as (Hp' & He' & Hn').
    split; [by etrans|]. split; [|by intros H; apply Hn, Hn'].
    intros k'. rewrite He, He'. cbn [map fst]. rewrite elem_of_cons. tauto.
Qed.

Lemma dict_get_in (k : str) (v : pyval) (d : dict) :
  NoDup (map fst d) -> (k, v) ∈ d -> dict_get k d = Some v.
Proof.
  induction d as [|[k' v'] d IH]; intros Hnd Hin; [by apply elem_of_nil in Hin|].
  cbn [map fst] in Hnd. apply NoDup_cons in Hnd as [Hk Hnd]. cbn.
  apply elem_of_cons in Hin as [[= -> ->]|Hin]; [by rewrite str_eqb_refl|].
  rewrite str_eqb_neq; [by apply IH|].
  intros ->. apply Hk. apply list_elem_of_fmap. by exists (k', v).
Qed.

Lemma deep_merge_fixed (r : dict) (o : dict) :
  (forall k v, (k, v) ∈ o -> dict_set k (merged_value (dict_get k r) v) r = r) ->
  deep_merge r o = r.
Proof.
  induction o as [|[k v] o IH]; intros H; [done|].
  rewrite deep_merge_cons, H by apply list_elem_of_here.
  apply IH. intros k' v' Hin. apply H. by apply list_elem_of_further.
Qed.

Lemma unique_keys_dict (kps : dict) :
  unique_keys (PDict kps)
  <-> NoDup (map fst kps) /\ Forall (fun kp => unique_keys (snd kp)) kps.
Proof.
  cbn [unique_keys]. apply and_iff_compat_l.
  induction kps as [|[k v] kps IH]; [by split; [constructor|]|].
  rewrite Forall_cons, IH. done.
Qed.

(** Merging a value a second time with what it was merged with changes
    nothing. *)
Lemma merged_value_again :
  forall value, unique_keys value -> forall current,
    merged_value (Some (merged_value current value)) value = merged_value current value.
Proof.
  induction value as [|b|z|m e|s|ps IH|o IH] using pyval_nested_ind;
    intros Hu current; try (by rewrite !merged_value_replace).
  apply unique_keys_dict in Hu as [Hnd Hu].
  assert (Hagain : forall r, (forall k v, (k, v) ∈ o ->
              exists c, dict_get k r = Some (merged_value c v)) ->
            deep_merge r o = r).
  { intros r Hr. apply deep_merge_fixed. intros k v Hin.
    destruct (Hr k v Hin) as [c Hc]. rewrite Hc. apply dict_set_same.
    rewrite Hc. f_equal. symmetry.
    rewrite Forall_forall in IH, Hu. by apply (IH (k, v) Hin), (Hu (k, v) Hin). }
  assert (Hself : deep_merge o o = o).
  { apply Hagain. intros k v Hin. exists None. rewrite merged_value_replace by done.
    by apply dict_get_in. }
  assert (Hrep : forall c, (forall b, c <> Some (PDict b)) ->
            merged_value (Some (merged_value c (PDict o))) (PDict o)
            = merged_value c (PDict o)).
  { intros c Hc. rewrite (merged_value_replace c (PDict o)).
    - by rewrite merged_value_dict, Hself.
    - intros b' ->. by destruct (Hc b'). }
  destruct current as [[| | | | | |b]|]; try (by apply Hrep).
  rewrite !merged_value_dict. f_equal. apply Hagain.
  intros k v Hin. exists (dict_get k b). by apply deep_merge_key.
Qed.

(** Applying the same overrides a second time changes nothing, when the
    overrides list each key once at every level. *)
Theorem deep_merge_idempotent (base overrides : dict)
    (Hkeys : unique_keys (PDict overrides)) :
  deep_merge (deep_merge base overrides) overrides = deep_merge base overrides
  /\ deep_merge overrides overrides = overrides.
Proof.
  pose proof (merged_value_again (PDict overrides) Hkeys) as H. split.
  - specialize (H (Some (PDict base))). rewrite !merged_value_dict in H. congruence.
  - specialize (H None). rewrite (merged_value_replace None) in H by done.
    rewrite merged_value_dict in H. congruence.
Qed.

Lemma deep_merge_idempotent_witness :
  deep_merge (deep_merge sample_base sample_overrides) sample_overrides
  = deep_merge sample_base sample_overrides.
Proof.
  refine (proj1 (deep_merge_idempotent sample_base sample_overrides _)).
  vm_compute. repeat split;
    repeat (apply NoDup_cons; split;
            [rewrite ?not_elem_of_cons; repeat split;
               first [apply not_elem_of_nil | discriminate]|]);
    apply NoDup_nil_2.
Defined.


Lemma h_truthy_prefix (h h1 : heap) (v : hval) :
  (forall l, v = HRef l -> is_Some (h !! l)) -> h `prefix_of` h1 ->
  h_truthy h1 v = h_truthy h v /\ h_is_dict h1 v = h_is_dict h v.
Proof.
  intros Hv Hp. destruct v as [|b|z|m e|s|l]; try done.
  destruct (Hv l eq_refl) as [o Ho]. cbn. unfold loc, heap in *.
  by rewrite Ho, (prefix_lookup_Some _ _ _ _ Ho Hp).
Qed.

(** [deep_merge(base, overrides)] when [overrides] is not a non-empty
    dictionary.  With [None] or any other false value ([{}], [[]], [0],
    the empty string) it returns a copy of [base] made of new objects and
    changes nothing in the store; with a true value that is not a
    dictionary (a string, a number, a non-empty list) it raises
    [AttributeError]. *)
Theorem deep_merge_other_overrides (b : dict) (vb vo : hval) (h : heap) (n : nat)
    (Hb : repr h vb (PDict b)) (Hn : depth (PDict b) < n)
    (Hvo : forall l, vo = HRef l -> is_Some (h !! l)) :
  (h_truthy h vo = false ->
     exists r h', deep_merge_h n vb vo h = Done (HRef r) h'
       /\ (forall l x, h !! l = Some x -> h' !! l = Some x)
       /\ repr_in (fun l => length h <= l) h' (HRef r) (PDict b))
  /\ (h_truthy h vo = true -> h_is_dict h vo = false ->
        deep_merge_h n vb vo h = Raised AttributeError).
Proof.
  destruct n as [|n]; [lia|].
  destruct (deepcopy_dict_spec n b vb h) as (r & kvs & h1 & Hc & Hp & Hge & Hl & Hr);
    [lia|done|].
  destruct (h_truthy_prefix h h1 vo Hvo Hp) as [Ht Hd].
  cbn [deep_merge_h]. rewrite Hc, Ht. split.
  - intros ->. cbn [negb]. exists r, h1. split; [done|].
    split; [intros l x Hlx; by eapply prefix_lookup_Some|].
    apply repr_in_dict. exists r, kvs. split; [done|]. split; [done|]. split; [done|].
    eapply Forall2_impl; [exact Hr|]. intros kv kp [Hk Hkp]. split; [done|].
    eapply repr_in_weaken; [|exact Hkp]. by intros l [? _].
  - intros -> Hnd. cbn [negb]. rewrite <- Hd in Hnd.
    destruct vo as [|b'|z|m e|s|l]; try done.
    cbn in Hnd. unfold loc, heap in *. by destruct (h1 !! l) as [[|]|].
Qed.

Lemma deep_merge_other_overrides_witness :
  (exists r h', deep_merge_h 4 (HRef 2) HNone sample_heap = Done (HRef r) h'
     /\ (forall l x, sample_heap !! l = Some x -> h' !! l = Some x)
     /\ repr_in (fun l => length sample_heap <= l) h' (HRef r) (PDict sample_base))
  /\ deep_merge_h 4 (HRef 2) (HRef 4) sample_heap = Raised AttributeError.
Proof.
  split.
  - refine (proj1 (deep_merge_other_overrides sample_base (HRef 2) HNone sample_heap 4
                     _ _ _) eq_refl).
    + vm_compute. repeat first [done | eexists | split].
    + vm_compute. lia.
    + intros l [=].
  - refine (proj2 (deep_merge_other_overrides sample_base (HRef 2) (HRef 4) sample_heap 4
                     _ _ _) eq_refl eq_refl).
    + vm_compute. repeat first [done | eexists | split].
    + vm_compute. lia.
    + intros l [= <-]. by eexists.
Defined.


Local Open Scope N_scope.

(** ** Organisations *)

Lemma organizations_are_dicts (k : str) (v : pyval) :
  dict_get k ORGANIZATIONS = Some v -> exists o, v = PDict o.
Proof.
  unfold ORGANIZATIONS, kv. cbn [dict_get fst snd].
  repeat (destruct (str_eqb k _); [intros [= <-]; by eexists|]). done.
Qed.

Lemma org_apply_other (base : dict) (k k' : str) (v : pyval) :
  k <> k' -> dict_get k (org_apply base k' v) = dict_get k base.
Proof.
  intros Hk. unfold org_apply.
  destruct v; try (by apply dict_get_set_other).
  destruct (dict_get k' base) as [[]|]; by apply dict_get_set_other.
Qed.

Lemma org_apply_same (base : dict) (k : str) (v : pyval) :
  is_dict v = false -> dict_get k (org_apply base k v) = Some v.
Proof.
  intros Hv. unfold org_apply. destruct v; try done; apply dict_get_set_same.
Qed.

Lemma config_fold_key (skip : str -> bool) (k : str) (v : pyval) (cfg : dict) :
  forall base, NoDup (map fst cfg) -> (k, v) ∈ cfg -> skip k = false ->
    is_dict v = false ->
    dict_get k (fold_left (fun base p => if skip (fst p) then base
                                         else org_apply base (fst p) (snd p)) cfg base)
    = Some v.
Proof.
  assert (Hother : forall cfg base, k ∉ map fst cfg ->
            dict_get k (fold_left (fun base p => if skip (fst p) then base
                                     else org_apply base (fst p) (snd p)) cfg base)
            = dict_get k base).
  { clear. induction cfg as [|[k1 v1] cfg IH]; intros base Hk; [done|].
    cbn [map fst] in Hk. apply not_elem_of_cons in Hk as [Hne Hk].
    cbn [fold_left fst snd]. rewrite IH by done.
    destruct (skip k1); [done|]. by apply org_apply_other. }
  induction cfg as [|[k1 v1] cfg IH]; intros base Hnd Hin Hs Hv.
  - by apply elem_of_nil in Hin.
  - cbn [map fst] in Hnd. apply NoDup_cons in Hnd as [Hk1 Hnd].
    cbn [fold_left fst snd]. apply elem_of_cons in Hin as [[= <- <-]|Hin].
    + rewrite Hother by done. rewrite Hs. by apply org_apply_same.
    + by apply IH.
Qed.

Lemma resolve_unknown_default (default_key : string) :
  dict_get (py default_key) ORGANIZATIONS = None ->
  forall config, truthy config = false \/ is_dict config = true ->
    resolve_organization config default_key = Raise KeyError.
Proof.
  intros Hd config Hc. unfold resolve_organization. rewrite Hd.
  destruct (as_dict (py_or config (PDict []))) as [cfg|e] eqn:Hcfg; [done|].
  unfold py_or in Hcfg. destruct Hc as [Hc|Hc]; [by rewrite Hc in Hcfg|].
  destruct config; try done. by destruct (truthy _).
Qed.

Lemma resolve_known_default (default_key : string) (o : dict) :
  dict_get (py default_key) ORGANIZATIONS = Some (PDict o) ->
  (forall config, truthy config = false ->
     resolve_organization config default_key = Ok o)
  /\ (forall k, dict_get k ORGANIZATIONS = None ->
        resolve_organization (PDict [kv "org_key" (PStr k)]) default_key = Ok o)
  /\ (forall k o', k <> [] -> dict_get k ORGANIZATIONS = Some (PDict o') ->
        resolve_organization (PDict [kv "org_key" (PStr k)]) default_key = Ok o').
Proof.
  assert (Hget : forall k, get [] k = PNone) by done.
  intros Hd. split; [|split].
  - intros config Hc. unfold resolve_organization, py_or. rewrite Hc, Hd.
    cbn [as_dict mbind res_bind]. rewrite !Hget.
    cbn [truthy organizations_get S_]. rewrite Hd.
    cbn [default from_option id as_mapping mbind res_bind fold_left]. done.
  - intros k Hk. unfold resolve_organization, py_or. rewrite Hd.
    cbn [truthy as_dict mbind res_bind].
    change (get [kv "org_key" (PStr k)] "org_key") with (PStr k).
    change (get [kv "org_key" (PStr k)] "id") with PNone.
    change (get [kv "org_key" (PStr k)] "@id") with PNone.
    change (get [kv "org_key" (PStr k)] "overrides") with PNone.
    cbn [truthy fold_left kv fst snd existsb]. rewrite str_eqb_refl. cbn [orb].
    destruct (str_truthy k); cbn [organizations_get S_]; rewrite ?Hk, ?Hd; done.
  - intros k o' Hne Hk. unfold resolve_organization, py_or. rewrite Hd.
    cbn [truthy as_dict mbind res_bind].
    change (get [kv "org_key" (PStr k)] "org_key") with (PStr k).
    change (get [kv "org_key" (PStr k)] "id") with PNone.
    change (get [kv "org_key" (PStr k)] "@id") with PNone.
    change (get [kv "org_key" (PStr k)] "overrides") with PNone.
    cbn [truthy fold_left kv fst snd existsb]. rewrite str_eqb_refl. cbn [orb].
    destruct k; [done|]. cbn [str_truthy organizations_get]. rewrite Hk. done.
Qed.

(** [resolve_organization]: the default organisation is looked up
    first, so an unknown [default_key] raises [KeyError] whatever the
    configuration says; a false configuration, and an [org_key] that
    names no organisation, give the default organisation as it is; an
    [org_key] that names one gives that one.  Without [overrides], every
    other configuration key whose value is not a dictionary is found in
    the result with that value. *)
Theorem resolve_organization_cases (default_key : string) :
  (dict_get (py default_key) ORGANIZATIONS = None ->
     forall config, truthy config = false \/ is_dict config = true ->
       resolve_organization config default_key = Raise KeyError)
  /\ (forall o, dict_get (py default_key) ORGANIZATIONS = Some (PDict o) ->
        (forall config, truthy config = false ->
           resolve_organization config default_key = Ok o)
        /\ (forall k, dict_get k ORGANIZATIONS = None ->
              resolve_organization (PDict [kv "org_key" (PStr k)]) default_key = Ok o)
        /\ (forall k o', k <> [] -> dict_get k ORGANIZATIONS = Some (PDict o') ->
              resolve_organization (PDict [kv "org_key" (PStr k)]) default_key = Ok o'))
  /\ (forall cfg o k v,
        resolve_organization (PDict cfg) default_key = Ok o ->
        NoDup (map fst cfg) -> truthy (get cfg "overrides") = false ->
        (k, v) ∈ cfg -> k <> py "org_key" -> k <> py "overrides" ->
        is_dict v = false ->
        dict_get k o = Some v).
Proof.
  split; [apply resolve_unknown_default|]. split; [apply resolve_known_default|].
  intros cfg o k v Hr Hnd Ho Hin Hk1 Hk2 Hv.
  unfold resolve_organization in Hr.
  assert (Hcfg : as_dict (py_or (PDict cfg) (PDict [])) = Ok cfg).
  { unfold py_or. cbn [truthy]. destruct cfg; [|done]. by apply elem_of_nil in Hin. }
  rewrite Hcfg in Hr. cbn [mbind res_bind] in Hr.
  apply bind_ok in Hr as (dflt & _ & Hr). cbv zeta in Hr.
  apply bind_ok in Hr as (base1 & _ & Hr). apply bind_ok in Hr as (base & _ & Hr).
  rewrite Ho in Hr. injection Hr as <-.
  apply (config_fold_key (fun key => existsb (str_eqb key) [py "org_key"; py "overrides"]));
    try done.
  cbn [existsb]. by rewrite (str_eqb_neq _ _ Hk1), (str_eqb_neq _ _ Hk2).
Qed.

Lemma resolve_organization_cases_witness :
  exists o,
    resolve_organization (PDict [kv "@id" (S_ "https://www.naranjax.com/p#x")]) "naranja_x"
    = Ok o
    /\ dict_get (py "@id") o = Some (S_ "https://www.naranjax.com/p#x").
Proof.
  destruct (resolve_organization
              (PDict [kv "@id" (S_ "https://www.naranjax.com/p#x")]) "naranja_x")
    as [o|e] eqn:Hr; [|by vm_compute in Hr].
  exists o. split; [done|].
  refine (proj2 (proj2 (resolve_organization_cases "naranja_x")) _ o _ _ Hr _ _ _ _ _ _).
  - repeat constructor. by intros H%elem_of_nil.
  - reflexivity.
  - apply list_elem_of_here.
  - intros H. vm_compute in H. discriminate.
  - intros H. vm_compute in H. discriminate.
  - reflexivity.
Defined.

(** [organization_reference]: a reference by key and a reference to the
    organisation [resolve_organization] gives for that key are the same
    [{"@id": ...}], the identifier being the one of the catalogue entry;
    a key that names no organisation raises [KeyError] on both paths. *)
Theorem organization_reference_by_key (k : string) :
  organization_reference (S_ k)
  = (o ← resolve_organization PNone k; organization_reference (PDict o))
  /\ (dict_get (py k) ORGANIZATIONS = None ->
        organization_reference (S_ k) = Raise KeyError)
  /\ (forall o, dict_get (py k) ORGANIZATIONS = Some (PDict o) ->
        organization_reference (S_ k) = Ok [kv "@id" (get o "@id")]).
Proof.
  pose proof (resolve_unknown_default k) as Hnone.
  pose proof (resolve_known_default k) as Hsome.
  destruct (dict_get (py k) ORGANIZATIONS) as [v|] eqn:Hk.
  - destruct (organizations_are_dicts _ _ Hk) as [o ->].
    destruct (Hsome o) as (Hr & _); [done|]. rewrite (Hr PNone eq_refl).
    unfold organization_reference, S_. rewrite Hk.
    cbn [as_mapping mbind res_bind]. split; [done|]. split; [done|].
    by intros o' [= <-].
  - rewrite (Hnone eq_refl PNone) by by left.
    unfold organization_reference, S_. rewrite Hk. done.
Qed.

Local Close Scope N_scope.


(** ** The node builders *)

Lemma fold_set_other (skip : str -> bool) (k : str) (e : dict) :
  forall d, (forall v, (k, v) ∈ e -> skip k = true) ->
    dict_get k (fold_left (fun acc p => if skip (fst p) then acc
                                        else dict_set (fst p) (snd p) acc) e d)
    = dict_get k d.
Proof.
  induction e as [|[k1 v1] e IH]; intros d Hk; [done|].
  cbn [fold_left fst snd]. rewrite IH.
  - destruct (skip k1) eqn:Hs; [done|]. apply dict_get_set_other.
    intros ->. specialize (Hk v1 (list_elem_of_here _ _)). congruence.
  - intros v Hv. apply (Hk v). by apply list_elem_of_further.
Qed.

Lemma fold_set_key (skip : str -> bool) (k : str) (v : pyval) (e : dict) :
  forall d, NoDup (map fst e) -> (k, v) ∈ e -> skip k = false ->
    dict_get k (fold_left (fun acc p => if skip (fst p) then acc
                                        else dict_set (fst p) (snd p) acc) e d)
    = Some v.
Proof.
  induction e as [|[k1 v1] e IH]; intros d Hnd Hin Hs.
  - by apply elem_of_nil in Hin.
  - cbn [map fst] in Hnd. apply NoDup_cons in Hnd as [Hk1 Hnd].
    cbn [fold_left fst snd]. apply elem_of_cons in Hin as [[= <- <-]|Hin].
    + rewrite fold_set_other.
      * rewrite Hs. apply dict_get_set_same.
      * intros v' Hv'. destruct Hk1. apply list_elem_of_fmap. by exists (k, v').
    + by apply IH.
Qed.

Lemma dict_update_key (d e : dict) (k : str) (v : pyval) :
  NoDup (map fst e) -> (k, v) ∈ e -> dict_get k (dict_update d e) = Some v.
Proof. intros Hnd Hin. by apply (fold_set_key (fun _ => false)). Qed.

Lemma dict_update_other (d e : dict) (k : str) :
  k ∉ map fst e -> dict_get k (dict_update d e) = dict_get k d.
Proof.
  intros Hk. apply (fold_set_other (fun _ => false)).
  intros v Hv. destruct Hk. apply list_elem_of_fmap. by exists (k, v).
Qed.

(** [build_offer_node]: the node's [url] is the one of [data] when it
    has one and the page URL otherwise; every other entry of [data] is in
    the node as it is, so [data] can replace even [@type] and [@id];
    the keys [data] does not have keep what the node starts with. *)
Theorem offer_node_fields (page_url : str) (node_id : pyval) (data : dict) :
  dict_get (py "url") (build_offer_node page_url node_id data)
  = Some (get_or data "url" (PStr page_url))
  /\ (NoDup (map fst data) ->
      forall k v, (k, v) ∈ data -> k <> py "url" ->
        dict_get k (build_offer_node page_url node_id data) = Some v)
  /\ (forall k, k ∉ map fst data ->
        dict_get k (build_offer_node page_url node_id data)
        = dict_get k [ kv "@type" (S_ "Offer"); kv "@id" node_id;
                       kv "url" (PStr page_url) ]).
Proof.
  unfold build_offer_node. split; [|split].
  - rewrite (fold_set_other (fun key => str_eqb key (py "url"))); [done|].
    intros v _. apply str_eqb_refl.
  - intros Hnd k v Hin Hk.
    apply (fold_set_key (fun key => str_eqb key (py "url"))); try done.
    by apply str_eqb_neq.
  - intros k Hk. rewrite (fold_set_other (fun key => str_eqb key (py "url"))).
    + unfold get_or. destruct (dict_get (py "url") data) as [u|] eqn:Hu; [|done].
      cbn [dict_get kv fst snd default from_option id].
      destruct (str_eqb k (py "@type")); [done|].
      destruct (str_eqb k (py "@id")); [done|].
      destruct (str_eqb k (py "url")) eqn:Hku; [|done].
      apply str_eqb_eq in Hku as ->. destruct Hk. apply has_key_elem.
      unfold has_key. by rewrite Hu.
    + intros v Hv. destruct Hk. apply list_elem_of_fmap. by exists (k, v).
Qed.

(** [build_product_node]: the node has [aggregateRating] exactly when
    the rating is a non-empty dictionary, [image] and [description]
    exactly when they are non-empty strings, unless [extra] has the key;
    every entry of [extra] is in the node as it is, so [extra] can
    replace even [@type] and [@id]. *)
Theorem product_node_fields (page_url : str) (node_id name : pyval)
    (image_url : option str) (aggregate_rating : option dict)
    (description : option str) (extra : dict) :
  let node := build_product_node page_url node_id name image_url aggregate_rating
                description (Some extra) in
  (NoDup (map fst extra) -> forall k v, (k, v) ∈ extra -> dict_get k node = Some v)
  /\ (py "@type" ∉ map fst extra -> dict_get (py "@type") node = Some (S_ "Product"))
  /\ (py "@id" ∉ map fst extra -> dict_get (py "@id") node = Some node_id)
  /\ (py "name" ∉ map fst extra -> dict_get (py "name") node = Some name)
  /\ (py "image" ∉ map fst extra ->
        dict_get (py "image") node
        = if opt_truthy image_url then Some (opt_str image_url) else None)
  /\ (py "aggregateRating" ∉ map fst extra ->
        dict_get (py "aggregateRating") node
        = match aggregate_rating with
          | Some (x :: r) => Some (PDict (x :: r))
          | _ => None
          end)
  /\ (py "description" ∉ map fst extra ->
        dict_get (py "description") node
        = if opt_truthy description then Some (opt_str description) else None).
Proof.
  intros node.
  assert (Hn : forall k, k ∉ map fst extra ->
            dict_get k node
            = dict_get k (build_product_node page_url node_id name image_url
                            aggregate_rating description None)).
  { intros k Hk. subst node. unfold build_product_node. cbv zeta.
    destruct extra as [|x extra]; [done|]. cbn [truthy].
    by rewrite dict_update_other. }
  split.
  { intros Hnd k v Hin. subst node. unfold build_product_node. cbv zeta.
    destruct extra as [|x extra]; [by apply elem_of_nil in Hin|]. cbn [truthy].
    by apply dict_update_key. }
  repeat split; intros Hk; rewrite (Hn _ Hk); clear;
    destruct image_url as [[|? ?]|], aggregate_rating as [[|? ?]|],
             description as [[|? ?]|]; reflexivity.
Qed.


(** ** The offer catalogue *)

Lemma catalog_offer_spec (E : Env) (node_id : str) (catalog : dict) (idx : nat)
    (item : pyval) :
  match catalog_offer E node_id catalog idx item with
  | Ok (Some o) =>
      exists d it, o = PDict d /\ item = PDict it
        /\ truthy (get it "name") = true /\ truthy (get it "url") = true
        /\ get d "@type" = S_ "Offer"
        /\ is_none_or_empty (get d "price") = false
        /\ get d "name" = get it "name" /\ get d "url" = get it "url"
        /\ get d "@id"
           = PStr (node_id ++ py "-Offer" ++ py_repr E (PInt (Z.of_nat idx)))
  | Ok None =>
      exists it, item = PDict it
        /\ (truthy (get it "name") = false \/ truthy (get it "url") = false)
  | Raise e => is_dict item = false /\ e = AttributeError
  end.
Proof.
  unfold catalog_offer.
  destruct item as [|b|z|m e|s|ps|it]; cbn [as_dict mbind res_bind]; try done.
  destruct (truthy (get it "name")) eqn:Hn; cbn [negb orb]; [|by exists it; split; [|left]].
  destruct (truthy (get it "url")) eqn:Hu; cbn [negb]; [|by exists it; split; [|right]].
  cbv zeta.
  match goal with
  | |- context [if is_none_or_empty ?p then _ else _] =>
      destruct (is_none_or_empty p) eqn:Hp
  end; eexists _, it; (split; [reflexivity|]); (split; [reflexivity|]);
    (split; [done|]); (split; [done|]); (split; [reflexivity|]);
    (split; [first [reflexivity | exact Hp]|]); (split; [reflexivity|]); split; reflexivity.
Qed.

Lemma catalog_offers_spec (E : Env) (node_id : str) (catalog : dict) (items : list pyval) :
  forall idx offers, catalog_offers E node_id catalog idx items = Ok offers ->
    Forall (fun o => exists d, o = PDict d /\ get d "@type" = S_ "Offer"
                       /\ is_none_or_empty (get d "price") = false
                       /\ truthy (get d "name") = true /\ truthy (get d "url") = true)
           offers
    /\ Forall (fun item => is_dict item = true) items
    /\ length offers
       = length (filter (fun item => listed_item item = true) items).
Proof.
  induction items as [|item items IH]; intros idx offers H.
  - injection H as <-. by repeat split.
  - cbn [catalog_offers] in H. apply bind_ok in H as (o & Ho & H).
    apply bind_ok in H as (os & Hos & H).
    destruct (IH _ _ Hos) as (IH1 & IH2 & IH3).
    pose proof (catalog_offer_spec E node_id catalog idx item) as Hs. rewrite Ho in Hs.
    rewrite filter_cons. destruct o as [o|].
    + destruct Hs as (d & it & -> & -> & Hn & Hu & Ht & Hp & Hdn & Hdu & _).
      injection H as <-. split; [|split; [by constructor|]].
      * constructor; [|done]. exists d. rewrite Hdn, Hdu. done.
      * rewrite decide_True by (cbn; by rewrite Hn, Hu). cbn [length]. by rewrite IH3.
    + destruct Hs as (it & -> & Hs). injection H as <-.
      split; [done|]. split; [by constructor|].
      rewrite decide_False; [done|]. cbn. destruct Hs as [-> | ->]; [done|].
      by rewrite andb_false_r.
Qed.

Lemma offer_catalog_node_offers (E : Env) (url : str) (key : pyval) :
  match build_offer_catalog_node E url key with
  | Ok (Some cn, po) =>
      (exists s, get cn "@id" = PStr s)
      /\ exists offers, get cn "itemListElement" = PList offers /\ offers <> []
        /\ Forall (fun o => exists d, o = PDict d /\ get d "@type" = S_ "Offer"
                             /\ is_none_or_empty (get d "price") = false
                             /\ truthy (get d "name") = true
                             /\ truthy (get d "url") = true) offers
  | Ok (None, po) => po = None
  | Raise _ => True
  end.
Proof.
  unfold build_offer_catalog_node.
  destruct (match key with PStr _ => _ | _ => _ end) as [c1|e];
    cbn [mbind res_bind]; [|done].
  destruct (negb (truthy c1)); [done|].
  destruct (as_dict c1) as [c2|e]; cbn [mbind res_bind]; [|done]. cbv zeta.
  destruct (py_iter _) as [items|e]; cbn [mbind res_bind]; [|done].
  destruct (catalog_offers _ _ _ _ _) as [[|i il]|e] eqn:Hco;
    cbn [mbind res_bind]; try done.
  apply catalog_offers_spec in Hco as (Hco & _).
  destruct (organizations_get _ _) as [prov|e]; cbn [mbind res_bind]; [|done].
  destruct prov as [|b|z|m e|s|ps|o']; (split; [by eexists|by exists (i :: il)]).
Qed.

(** [build_offer_catalog_node]: a key that names no catalogue gives no
    node and no provider, an unhashable key raises [TypeError]; a
    catalogue node is only returned with at least one Offer, each Offer
    has a name, a URL and a price that is neither [None] nor empty
    (["0"] when nothing else is configured), and the provider returned
    with it is an Organization.  One Offer is made for each item that has
    a name and a URL, the other items are passed over. *)
Theorem offer_catalog_node_spec (E : Env) (url : str) (key : pyval) :
  (forall k, key = PStr k -> dict_get k OFFER_CATALOGS = None ->
     build_offer_catalog_node E url key = Ok (None, None))
  /\ (hashable key = false -> build_offer_catalog_node E url key = Raise TypeError)
  /\ (forall cn po, build_offer_catalog_node E url key = Ok (Some cn, po) ->
        get cn "@type" = S_ "OfferCatalog"
        /\ (forall o, po = Some o -> get o "@type" = S_ "Organization")
        /\ exists offers, get cn "itemListElement" = PList offers /\ offers <> []
             /\ Forall (fun o => exists d, o = PDict d /\ get d "@type" = S_ "Offer"
                                  /\ is_none_or_empty (get d "price") = false
                                  /\ truthy (get d "name") = true
                                  /\ truthy (get d "url") = true) offers)
  /\ (forall node_id catalog items idx offers,
        catalog_offers E node_id catalog idx items = Ok offers ->
        length offers = length (filter (fun item => listed_item item = true) items)).
Proof.
  split; [|split; [|split]].
  - intros k -> Hk. unfold build_offer_catalog_node. by rewrite Hk.
  - intros Hh. unfold build_offer_catalog_node. destruct key; try done.
  - intros cn po H.
    pose proof (offer_catalog_types E url key) as H1.
    pose proof (offer_catalog_node_offers E url key) as H2.
    rewrite H in H1, H2. destruct H1 as [Ht Hp], H2 as [_ H2]. by split; [|split].
  - intros node_id catalog items idx offers H.
    by destruct (catalog_offers_spec E node_id catalog items idx offers H) as (_ & _ & ?).
Qed.


(** ** Attaching the catalogue *)

Lemma set_mem_strings (s : str) (ids : pyset) :
  Forall (fun x => exists t, x = PStr t) ids ->
  set_mem (PStr s) ids = true <-> PStr s ∈ ids.
Proof.
  unfold set_mem. intros Hs. rewrite existsb_exists. split.
  - intros (x & Hx & He). apply list_elem_of_In in Hx.
    rewrite Forall_forall in Hs. destruct (Hs x Hx) as [t ->].
    cbn in He. by apply str_eqb_eq in He as ->.
  - intros Hin. exists (PStr s). split; [by apply list_elem_of_In|].
    cbn. apply str_eqb_refl.
Qed.

Lemma existing_ids_strings (g : list dict) :
  forall acc ids,
    Forall plain_id g -> Forall (fun x => exists t, x = PStr t) acc ->
    foldM (fun ids node =>
             let i := get node "@id" in
             if truthy i then
               if hashable i then Ok (set_add i ids) else Raise TypeError
             else Ok ids) g acc = Ok ids ->
    Forall (fun x => exists t, x = PStr t) ids
    /\ (forall x, x ∈ acc -> x ∈ ids)
    /\ (forall n, n ∈ g -> truthy (get n "@id") = true -> get n "@id" ∈ ids).
Proof.
  induction g as [|n g IH]; intros acc ids Hg Hacc H.
  - injection H as <-. split; [done|]. split; [done|].
    intros n Hn. by apply elem_of_nil in Hn.
  - apply Forall_cons in Hg as [Hn Hg]. cbn [foldM] in H.
    apply bind_ok in H as (acc' & Hstep & H). cbv zeta in Hstep.
    assert (Hacc' : Forall (fun x => exists t, x = PStr t) acc'
                    /\ (forall x, x ∈ acc -> x ∈ acc')
                    /\ (truthy (get n "@id") = true -> get n "@id" ∈ acc')).
    { destruct Hn as [Hn|[s Hn]]; rewrite Hn in Hstep |- *.
      - cbn [truthy] in Hstep. injection Hstep as <-. by split; [|split].
      - cbn [truthy hashable] in Hstep |- *.
        destruct (str_truthy s); [|injection Hstep as <-; by split; [|split]].
        injection Hstep as <-. unfold set_add.
        destruct (set_mem (PStr s) acc) eqn:Hm.
        + split; [done|]. split; [done|]. intros _. by apply set_mem_strings.
        + split; [apply Forall_app; split; [done|]; constructor; [by eexists|done]|].
          split; [intros x Hx; apply elem_of_app; by left|].
          intros _. apply elem_of_app. right. apply list_elem_of_here. }
    destruct Hacc' as (Ha1 & Ha2 & Ha3).
    destruct (IH acc' ids Hg Ha1 H) as (H1 & H2 & H3).
    split; [done|]. split; [by intros x Hx; apply H2, Ha2|].
    intros n' Hn' Ht. apply elem_of_cons in Hn' as [->|Hn']; [by apply H2, Ha3|].
    by apply H3.
Qed.

(** Attaching an offer catalogue keeps the graph as it is and appends at
    most the catalogue node and its provider.  Without a catalogue key
    nothing is appended.  The provider is appended only when it has an
    [@id] that no node of the graph has, the catalogue node included
    (for a graph whose [@id]s are strings or missing). *)
Theorem attach_catalog_spec (E : Env) (url : str) (key : pyval) (g g' : list dict)
    (Hg : Forall plain_id g)
    (Hrun : attach_catalog E url key g = Ok g') :
  exists extra, g' = g ++ extra
    /\ (length extra <= 2)%nat
    /\ (truthy key = false -> extra = [])
    /\ (forall cn, head extra = Some cn -> get cn "@type" = S_ "OfferCatalog")
    /\ (forall cn po, extra = [cn; po] ->
          get po "@type" = S_ "Organization"
          /\ truthy (get po "@id") = true
          /\ forall n, n ∈ g ++ [cn] -> get n "@id" <> get po "@id").
Proof.
  unfold attach_catalog in Hrun.
  assert (Hnone : forall g0, Ok g = Ok g0 -> exists extra, g0 = g ++ extra
            /\ (length extra <= 2)%nat /\ (truthy key = false -> extra = [])
            /\ (forall cn, head extra = Some cn -> get cn "@type" = S_ "OfferCatalog")
            /\ (forall cn po, extra = [cn; po] ->
                  get po "@type" = S_ "Organization"
                  /\ truthy (get po "@id") = true
                  /\ forall n, n ∈ g ++ [cn] -> get n "@id" <> get po "@id")).
  { intros g0 H0. exists []. rewrite app_nil_r. split; [congruence|].
    split; [cbn; lia|]. by repeat split. }
  destruct (truthy key) eqn:Hkey; [|by apply Hnone].
  pose proof (offer_catalog_types E url key) as Ht.
  destruct (build_offer_catalog_node E url key) as [[cn po]|e] eqn:Hbuild;
    cbn [mbind res_bind] in Hrun; [|done].
  destruct cn as [cn|]; [|by apply Hnone]. destruct Ht as [Hcn Hpo].
  assert (Hone : forall g0, Ok (g ++ [cn]) = Ok g0 -> exists extra, g0 = g ++ extra
            /\ (length extra <= 2)%nat /\ (true = false -> extra = [])
            /\ (forall c, head extra = Some c -> get c "@type" = S_ "OfferCatalog")
            /\ (forall c p, extra = [c; p] ->
                  get p "@type" = S_ "Organization"
                  /\ truthy (get p "@id") = true
                  /\ forall n, n ∈ g ++ [c] -> get n "@id" <> get p "@id")).
  { intros g0 H0. exists [cn]. split; [congruence|]. split; [cbn; lia|].
    split; [done|]. split; [by intros c [= <-]|]. by intros c p [=]. }
  destruct (truthy (PDict cn)); [|by apply Hnone]. cbv zeta in Hrun.
  destruct po as [po|]; [|by apply Hone].
  destruct (truthy (PDict po) && truthy (get po "@id")) eqn:Hpt; [|by apply Hone].
  apply andb_true_iff in Hpt as [_ Hpt].
  apply bind_ok in Hrun as (ids & Hids & Hrun).
  destruct (negb (set_mem (get po "@id") ids)) eqn:Hmem; [|by apply Hone].
  apply negb_true_iff in Hmem.
  exists [cn; po]. split; [injection Hrun as <-; by rewrite <- app_assoc|].
  split; [cbn; lia|]. split; [done|]. split; [by intros c [= <-]|].
  intros c p [= <- <-]. split; [by apply Hpo|]. split; [done|].
  intros n Hn Heq.
  pose proof (offer_catalog_node_offers E url key) as Hoff. rewrite Hbuild in Hoff.
  destruct Hoff as [[s Hs] _].
  assert (Hall : Forall plain_id (g ++ [cn])).
  { apply Forall_app. split; [done|]. constructor; [|done]. right. by exists s. }
  destruct (existing_ids_strings _ _ _ Hall (Forall_nil_2 _) Hids) as (Hstr & _ & Hin).
  assert (Hn_id : truthy (get n "@id") = true) by by rewrite Heq.
  specialize (Hin n Hn Hn_id). rewrite Heq in Hin.
  rewrite Forall_forall in Hstr. destruct (Hstr _ Hin) as [t Ht'].
  rewrite Ht' in Hmem, Hin. apply (set_mem_strings t ids) in Hin; [congruence|].
  by apply Forall_forall.
Qed.

Lemma attach_catalog_spec_witness :
  exists g',
    attach_catalog sample_env (py "https://www.naranjax.com/p") (S_ "prestamos")
      [org_naranja_x] = Ok g'
    /\ exists extra, g' = [org_naranja_x] ++ extra /\ (length extra <= 2)%nat.
Proof.
  destruct (attach_catalog sample_env (py "https://www.naranjax.com/p") (S_ "prestamos")
              [org_naranja_x]) as [g'|e] eqn:Hrun; [|by vm_compute in Hrun].
  exists g'. split; [done|].
  assert (Hg : Forall plain_id [org_naranja_x]).
  { constructor; [|done]. right. by eexists. }
  destruct (attach_catalog_spec sample_env (py "https://www.naranjax.com/p")
              (S_ "prestamos") [org_naranja_x] g' Hg Hrun) as (extra & H1 & H2 & _).
  by exists extra.
Defined.

Local Open Scope N_scope.

(** ** The schema-type key *)

Lemma concat_imap_map {A B} (g : A -> B) (l : list A) :
  forall f : nat -> A -> list B,
    (forall i c, l !! i = Some c -> f i c = [g c]) -> concat (imap f l) = map g l.
Proof.
  induction l as [|x l IH]; intros f Hf; [done|].
  rewrite imap_cons. cbn [concat map]. rewrite (Hf 0%nat x eq_refl).
  cbn [app]. f_equal. apply IH. intros i c Hi. by apply (Hf (S i)).
Qed.

Lemma lower_ascii (E : Env) (s : str) :
  Forall (fun c => c < 128) s ->
  lower E s = map (fun c => if is_ascii_upper c then c + 32 else c) s.
Proof.
  intros Hs. unfold lower. apply concat_imap_map. intros i c Hi.
  rewrite Forall_forall in Hs.
  assert (Hc : c < 128) by (apply Hs; by eapply list_elem_of_lookup_2).
  apply N.ltb_lt in Hc. by rewrite Hc.
Qed.

Lemma underscore_capitals_elem (s : str) (b : bool) (c : N) :
  c ∈ underscore_capitals b s -> c = 95 \/ c ∈ s.
Proof.
  revert b. induction s as [|x s IH]; intros b; cbn [underscore_capitals].
  - intros H. by apply elem_of_nil in H.
  - rewrite elem_of_app. intros [H|H].
    + destruct (negb b && is_ascii_upper x).
      * apply elem_of_cons in H as [->|H]; [by left|].
        apply list_elem_of_singleton in H as ->. right. apply list_elem_of_here.
      * apply list_elem_of_singleton in H as ->. right. apply list_elem_of_here.
    + destruct (IH _ H) as [->|Hc]; [by left|]. right. by apply list_elem_of_further.
Qed.

Lemma underscore_capitals_id (s : str) (b : bool) :
  Forall (fun c => is_ascii_upper c = false) s -> underscore_capitals b s = s.
Proof.
  revert b. induction s as [|x s IH]; intros b Hs; [done|].
  apply Forall_cons in Hs as [Hx Hs]. cbn [underscore_capitals].
  rewrite Hx, andb_false_r, IH by done. done.
Qed.

Lemma lower_char_facts (c : N) :
  c < 128 ->
  let c' := if is_ascii_upper c then c + 32 else c in
  c' < 128 /\ is_ascii_upper c' = false /\ (c' = 45 -> c = 45).
Proof.
  intros Hc. unfold is_ascii_upper.
  destruct (65 <=? c) eqn:H1, (c <=? 90) eqn:H2; cbn [andb];
    rewrite ?N.leb_le, ?N.leb_gt in *;
    (split; [lia|]); (split; [|lia]);
    apply andb_false_iff; rewrite !N.leb_gt; lia.
Qed.

(** [_schema_type_key] on ASCII input: the key has no capital letter, no
    hyphen and no white space at its ends, and normalising a key again
    gives the same key. *)
Theorem schema_type_key_ascii (E : Env) (s : str)
    (Hs : Forall (fun c => c < 128) s) :
  Forall (fun c => c < 128 /\ is_ascii_upper c = false /\ c <> 45)
         (_schema_type_key E s)
  /\ (forall c, head (_schema_type_key E s) = Some c -> is_space c = false)
  /\ (forall c, last (_schema_type_key E s) = Some c -> is_space c = false)
  /\ _schema_type_key E (_schema_type_key E s) = _schema_type_key E s.
Proof.
  assert (Hkey : Forall (fun c => c < 128 /\ is_ascii_upper c = false /\ c <> 45)
                        (_schema_type_key E s)).
  { apply Forall_forall. intros c Hc. unfold _schema_type_key, strip in Hc.
    apply strip_by_elem in Hc. apply replace_char_elem in Hc.
    assert (Hu : Forall (fun c => c < 128) (underscore_capitals true s)).
    { apply Forall_forall. intros x Hx.
      apply underscore_capitals_elem in Hx as [->|Hx]; [reflexivity|].
      rewrite Forall_forall in Hs. by apply Hs. }
    destruct Hc as [Hc|[Hc Hne]].
    - apply list_elem_of_singleton in Hc as ->. by vm_compute.
    - rewrite (lower_ascii E _ Hu) in Hc. apply list_elem_of_fmap in Hc as (x & -> & Hx).
      rewrite Forall_forall in Hu.
      destruct (lower_char_facts x (Hu x Hx)) as (H1 & H2 & _). done. }
  split; [done|]. split; [apply strip_by_head|]. split; [apply strip_by_last|].
  set (k := _schema_type_key E s) in *.
  assert (Hk1 : Forall (fun c => is_ascii_upper c = false) k).
  { eapply Forall_impl; [exact Hkey|]. by intros c (_ & ? & _). }
  assert (Hk2 : Forall (fun c => c < 128) k).
  { eapply Forall_impl; [exact Hkey|]. by intros c (? & _). }
  unfold _schema_type_key at 1. rewrite underscore_capitals_id by done.
  rewrite (lower_ascii E k Hk2).
  assert (Hmap : map (fun c => if is_ascii_upper c then c + 32 else c) k = k).
  { clear -Hk1. induction Hk1 as [|c k Hc _ IH]; [done|]. cbn [map]. by rewrite Hc, IH. }
  rewrite Hmap, replace_char_id.
  - unfold strip. apply strip_by_id; subst k; [apply strip_by_head|apply strip_by_last].
  - intros Hin. rewrite Forall_forall in Hkey. by destruct (Hkey 45 Hin) as (_ & _ & ?).
Qed.

Lemma schema_type_key_ascii_witness :
  _schema_type_key sample_env (_schema_type_key sample_env (py "LoanOrCredit"))
  = _schema_type_key sample_env (py "LoanOrCredit").
Proof.
  refine (proj2 (proj2 (proj2 (schema_type_key_ascii sample_env (py "LoanOrCredit") _)))).
  repeat (constructor; [reflexivity|]). constructor.
Defined.

Local Close Scope N_scope.


(** ** The rating, whatever the caller passes *)

Ltac rating_shown :=
  split; [first [ other_type | intros _; reflexivity ]
         |first [ reflexivity | intros H; by destruct H ]].

Lemma builders_rating (E : Env) (ctx : SchemaContext) :
  Forall (fun kb : str * builder =>
            exists g, snd kb ctx no_overrides = Ok g
              /\ forall n, n ∈ g ->
                   (get n "@type" = S_ "Product" ->
                      dict_get (py "aggregateRating") n = shown_rating (aggregate_rating ctx))
                   /\ (get n "@type" <> S_ "Product" ->
                         dict_get (py "aggregateRating") n = None))
         (SCHEMA_BUILDERS E).
Proof.
  set (P := fun s => (s_type s = S_ "Product" ->
                        s_rating s = shown_rating (aggregate_rating ctx))
                     /\ (s_type s <> S_ "Product" -> s_rating s = None)).
  assert (HF : forall id, Forall P (faq_s ctx id)).
  { intros id. unfold faq_s. destruct (_faq_entities _); [apply Forall_nil_2|].
    apply Forall_cons. split; [rating_shown|apply Forall_nil_2]. }
  assert (G : forall (r : res (list dict)) pre id post,
             graph_summary r = Ok (pre ++ faq_s ctx id ++ post) ->
             Forall P (pre ++ post) ->
             exists g, r = Ok g /\ forall n, n ∈ g -> P (summarize n)).
  { intros r pre id post Hr H. apply Forall_app in H as [H1 H2].
    apply (graph_forall _ _ P Hr).
    apply Forall_app; split; [done|]. apply Forall_app; split; [apply HF|done]. }
  unfold SCHEMA_BUILDERS.
  repeat (apply Forall_cons; split); [..|apply Forall_nil_2]; simpl snd.
  - eapply G; [apply payment_card_summary|each_summary rating_shown].
  - eapply G; [apply loan_or_credit_summary|each_summary rating_shown].
  - eapply G; [apply bank_account_summary|each_summary rating_shown].
  - eapply G; [apply payment_service_summary|each_summary rating_shown].
  - eapply G; [apply investment_or_deposit_summary|each_summary rating_shown].
  - eapply G; [apply insurance_agency_summary|each_summary rating_shown].
  - eapply G; [apply financial_product_summary|each_summary rating_shown].
  - apply (graph_forall _ _ P (blog_posting_summary E ctx)).
    each_summary rating_shown.
Qed.

Lemma resolve_rating_cases (r : pyval) :
  (is_none r = true -> resolve_aggregate_rating r = Ok (Some DEFAULT_AGG_RATING))
  /\ (is_none r = false -> truthy r = false -> resolve_aggregate_rating r = Ok None)
  /\ (forall d, r = PDict d -> d <> [] ->
        resolve_aggregate_rating r
        = Ok (Some (dict_setdefault (py "@type") (S_ "AggregateRating") d)))
  /\ (truthy r = true -> is_dict r = false ->
        resolve_aggregate_rating r = Raise AttributeError).
Proof.
  unfold resolve_aggregate_rating. split; [|split; [|split]].
  - by destruct r.
  - intros Hn Ht. rewrite Hn. cbn [negb]. by rewrite Ht.
  - intros d -> Hd. cbn [is_none negb]. by destruct d.
  - intros Ht Hd. destruct r; try done; cbn [is_none negb]; by rewrite Ht.
Qed.

Lemma setdefault_keeps (k : str) (v : pyval) (d : dict) :
  dict_setdefault k v d <> []
  /\ dict_get k (dict_setdefault k v d) = Some (default v (dict_get k d))
  /\ forall k', k' <> k -> dict_get k' (dict_setdefault k v d) = dict_get k' d.
Proof.
  unfold dict_setdefault, has_key. destruct (dict_get k d) as [x|] eqn:Hk.
  - split; [by destruct d|]. by split.
  - split; [by destruct d as [|[k1 v1] d]; cbn; [|destruct (str_eqb k k1)]|].
    split; [apply dict_get_set_same|]. intros k' Hne. by apply dict_get_set_other.
Qed.

(** The rating the caller passes to the workflow.  [None] stands for
    the default block; any other false value ([{}], [0], the empty
    string) switches the rating off; a non-empty dictionary is used with
    [@type] set to ["AggregateRating"] unless it has one, its other
    entries unchanged; anything else raises [AttributeError].  In the
    graphs built without overrides the Product nodes carry the rating of
    the context, when it is not empty, and no other node has an
    [aggregateRating]; so every Product node of a record the workflow
    returns carries what was resolved from the argument. *)
Theorem rating_argument (E : Env) (r : pyval) :
  ((is_none r = true -> resolve_aggregate_rating r = Ok (Some DEFAULT_AGG_RATING))
   /\ (is_none r = false -> truthy r = false -> resolve_aggregate_rating r = Ok None)
   /\ (forall d, r = PDict d -> d <> [] ->
         exists d', resolve_aggregate_rating r = Ok (Some d') /\ d' <> []
           /\ dict_get (py "@type") d'
              = Some (default (S_ "AggregateRating") (dict_get (py "@type") d))
           /\ forall k, k <> py "@type" -> dict_get k d' = dict_get k d)
   /\ (truthy r = true -> is_dict r = false ->
         resolve_aggregate_rating r = Raise AttributeError))
  /\ (forall ctx,
        Forall (fun kb : str * builder =>
                  exists g, snd kb ctx no_overrides = Ok g
                    /\ forall n, n ∈ g ->
                         (get n "@type" = S_ "Product" ->
                            dict_get (py "aggregateRating") n
                            = shown_rating (aggregate_rating ctx))
                         /\ (get n "@type" <> S_ "Product" ->
                               dict_get (py "aggregateRating") n = None))
               (SCHEMA_BUILDERS E))
  /\ (forall (url nombre schema_type : str) (offer_catalog_key : pyval)
             (record : SchemaRecord),
        build_schema_from_url E url nombre schema_type no_overrides
          offer_catalog_key r = Ok record ->
        exists g rating,
          resolve_aggregate_rating r = Ok rating
          /\ dict_get (py "@graph") (r_schema record) = Some (PList (map PDict g))
          /\ forall n, n ∈ g -> get n "@type" = S_ "Product" ->
               dict_get (py "aggregateRating") n = shown_rating rating).
Proof.
  split; [|split].
  - destruct (resolve_rating_cases r) as (H1 & H2 & H3 & H4).
    split; [done|]. split; [done|]. split; [|done].
    intros d Hr Hd. exists (dict_setdefault (py "@type") (S_ "AggregateRating") d).
    split; [by apply H3|]. apply setdefault_keeps.
  - intros ctx. apply builders_rating.
  - intros url nombre st ock record H. unfold build_schema_from_url in H.
    apply bind_ok in H as ([[html base] final] & _ & H). cbv zeta in H.
    apply bind_ok in H as (rating & Hrating & H).
    destruct (builders_get _ (SCHEMA_BUILDERS E)) as [b|] eqn:Hb; [|done].
    apply bind_ok in H as (g & Hg & H). apply bind_ok in H as (g' & Ha & H).
    injection H as <-. exists g', rating. split; [done|]. split; [reflexivity|].
    apply builders_get_some in Hb.
    match type of Hg with
    | b ?c no_overrides = _ => pose proof (builders_rating E c) as HF
    end.
    rewrite Forall_forall in HF. destruct (HF _ Hb) as (g0 & Hg0 & Hshown).
    cbn [snd] in Hg0. rewrite Hg in Hg0. injection Hg0 as <-.
    apply attach_catalog_types in Ha as (extra & -> & Hextra).
    intros n Hn Ht. apply elem_of_app in Hn as [Hn|Hn]; [by apply Hshown|].
    rewrite Forall_forall in Hextra. by destruct (Hextra n Hn).
Qed.


(** ** The price specification *)

Lemma loan_price_ignored (E : Env) (ctx : SchemaContext) (spec : pyval) :
  match spec with PDict (_ :: _) => False | _ => True end ->
  build_loan_or_credit_graph E ctx (with_price_spec spec)
  = build_loan_or_credit_graph E ctx no_overrides.
Proof.
  intros H. destruct spec as [|b|z|m e|s|ps|[|x d]]; try done; reflexivity.
Qed.

Lemma loan_price_summary (E : Env) (ctx : SchemaContext) (spec : pyval) :
  graph_summary (build_loan_or_credit_graph E ctx (with_price_spec spec)) =
  Ok ([ plain_s "LoanOrCredit" (url_id ctx "#LoanOrCredit");
        offer_s (url_id ctx "#Offer") (Some (spec_price E spec));
        product_s ctx (url_id ctx "#Product") ]
      ++ faq_s ctx (url_id ctx "#FAQPage")
      ++ [ plain_s "WebPage" (url_id ctx "#WebPage");
           plain_s "Organization" org_id_nd;
           plain_s "Organization" org_id_tn ]).
Proof.
  destruct spec as [|b|z|m e|s|ps|[|x d]];
    try (rewrite loan_price_ignored by done; apply loan_or_credit_summary).
  destruct ctx as [url nm desc img fqs body agg].
  destruct (is_none_or_empty (get (x :: d) "price")) eqn:Hp;
    lazy -[_faq_entities slug count_words rate_part] in Hp;
    eval_graph fqs ents; rewrite Hp;
    destruct ents; opt_cases desc; opt_cases img; opt_cases agg; reflexivity.
Qed.

Ltac price_shown :=
  first [ other_type | intros _; reflexivity ].

(** The loan builder is the one that reads [price_spec]: its Offer has
    the [price] of the specification, as a string, when the
    specification is a non-empty dictionary whose [price] is neither
    [None] nor empty, and ["0"] otherwise (a specification that is not a
    dictionary is passed over).  The payment-card builder gives the same
    graph whatever the price specification. *)
Theorem loan_offer_price (E : Env) (ctx : SchemaContext) (spec : pyval) :
  (exists g, build_loan_or_credit_graph E ctx (with_price_spec spec) = Ok g
     /\ (forall n, n ∈ g -> get n "@type" = S_ "Offer" ->
           dict_get (py "price") n = Some (spec_price E spec))
     /\ (exists n, n ∈ g /\ get n "@type" = S_ "Offer"))
  /\ (forall d, spec = PDict d -> is_none_or_empty (get d "price") = false ->
        spec_price E spec = PStr (fmt E (get d "price")))
  /\ (forall p, spec_price E (PDict [kv "price" (PStr p)])
                = PStr (if str_truthy p then p else py "0"))
  /\ build_payment_card_graph E ctx (with_price_spec spec)
     = build_payment_card_graph E ctx no_overrides.
Proof.
  split; [|split; [|split]].
  - apply (graph_forall_exists _ _
             (fun s => s_type s = S_ "Offer" -> s_price s = Some (spec_price E spec))
             (fun s => s_type s = S_ "Offer") (loan_price_summary E ctx spec)).
    + unfold faq_s; destruct (_faq_entities _); each_summary price_shown.
    + simpl app. apply Exists_cons_tl. by apply Exists_cons_hd.
  - intros d -> Hp. unfold spec_price. destruct d as [|x d]; [done|]. by rewrite Hp.
  - intros p. unfold spec_price.
    change (get [kv "price" (PStr p)] "price") with (PStr p).
    unfold is_none_or_empty. cbn [py_eq orb]. by destruct p.
  - unfold build_payment_card_graph. reflexivity.
Qed.


Local Open Scope N_scope.

(** ** The command line *)

Lemma split_eq_some (item k v : str) :
  split_eq item = Some (k, v) <-> item = k ++ 61 :: v /\ 61 ∉ k.
Proof.
  revert k. induction item as [|c r IH]; intros k; cbn [split_eq].
  - split; [done|]. intros [H _]. by destruct k.
  - destruct (c =? 61) eqn:Hc.
    + apply N.eqb_eq in Hc as ->. split.
      * intros [= <- <-]. split; [done|]. apply not_elem_of_nil.
      * intros [H Hk]. destruct k as [|x k]; [cbn in H; by injection H as ->|].
        cbn in H.
        injection H as Hx _. subst x. destruct Hk. apply list_elem_of_here.
    + apply N.eqb_neq in Hc. destruct (split_eq r) as [[k' v']|] eqn:Hr0.
      * split.
        -- intros [= <- <-]. destruct (proj1 (IH k') eq_refl) as [-> Hk].
           split; [done|]. by apply not_elem_of_cons.
        -- intros [H Hk]. destruct k as [|x k]; [cbn in H; injection H as Hx _; congruence|].
           cbn in H.
           injection H as Hx Hr. subst x r. apply not_elem_of_cons in Hk as [_ Hk].
           pose proof (proj2 (IH k) (conj eq_refl Hk)) as He. by injection He as <- <-.
      * split; [done|]. intros [H Hk]. destruct k as [|x k]; [cbn in H; injection H as Hx _; congruence|].
           cbn in H.
        injection H as Hx Hr. subst x r. apply not_elem_of_cons in Hk as [_ Hk].
        by pose proof (proj2 (IH k) (conj eq_refl Hk)).
Qed.

Lemma split_eq_none (item : str) : split_eq item = None <-> 61 ∉ item.
Proof.
  induction item as [|c r IH]; cbn [split_eq].
  - split; [intros _; apply not_elem_of_nil|done].
  - rewrite not_elem_of_cons. destruct (c =? 61) eqn:Hc.
    + apply N.eqb_eq in Hc as ->. split; [done|]. by intros [? _].
    + apply N.eqb_neq in Hc. destruct (split_eq r) as [[k v]|].
      * split; [done|]. intros [_ H]. by apply IH in H.
      * split; [|done]. intros _. split; [done|]. by apply IH.
Qed.

(** The value the items give to [k]: the one of the last item with that
    key. *)
Lemma parse_pairs_spec (values : list str) :
  forall result,
    match parse_pairs result values with
    | Parsed d =>
        Forall (fun item => 61 ∈ item) values
        /\ forall k,
             dict_get k d
             = match last (omap (fun item =>
                                   match split_eq item with
                                   | Some (k', v) =>
                                       if str_eqb k k' then Some (PStr v) else None
                                   | None => None
                                   end) values) with
               | Some x => Some x
               | None => dict_get k result
               end
    | ArgumentTypeError msg =>
        exists pre item post, values = pre ++ item :: post
          /\ Forall (fun i => 61 ∈ i) pre /\ (61 ∉ item)
          /\ msg = (py "El parámetro '" ++ item ++ py "' debe tener formato clave=valor")
    end.
Proof.
  induction values as [|item rest IH]; intros result; cbn [parse_pairs].
  - by split.
  - destruct (split_eq item) as [[key value]|] eqn:Hs.
    + specialize (IH (dict_set key (PStr value) result)).
      destruct (parse_pairs _ rest) as [d|msg].
      * destruct IH as [Hall Hget]. split.
        { constructor; [|done]. apply split_eq_some in Hs as [-> _].
          apply elem_of_app. right. apply list_elem_of_here. }
        intros k. rewrite Hget.
        change (omap ?f (item :: rest))
          with (match f item with Some y => y :: omap f rest | None => omap f rest end).
        cbv beta. rewrite Hs. destruct (str_eqb k key) eqn:Hk.
        -- rewrite last_cons. destruct (last _); [done|].
           apply str_eqb_eq in Hk as ->. apply dict_get_set_same.
        -- destruct (last _); [done|]. apply dict_get_set_other.
           intros ->. by rewrite str_eqb_refl in Hk.
      * destruct IH as (pre & it & post & -> & Hpre & Hit & ->).
        exists (item :: pre), it, post. split; [done|]. split; [|done].
        constructor; [|done]. apply split_eq_some in Hs as [-> _].
        apply elem_of_app. right. apply list_elem_of_here.
    + exists [], item, rest. split; [done|]. split; [apply Forall_nil_2|].
      split; [by apply split_eq_none|done].
Qed.

(** [_parse_key_value_pairs]: it fails exactly when an item has no
    ["="], naming the first such item; otherwise each key, the text
    before the first ["="] of an item, is given the text after it, and
    of two items with the same key the later one counts.  An item
    [k=v] alone gives [{k: v}]. *)
Theorem parse_key_value_pairs_spec (values : list str) :
  match _parse_key_value_pairs values with
  | Parsed d =>
      Forall (fun item => 61 ∈ item) values
      /\ forall k,
           dict_get k d
           = last (omap (fun item =>
                           match split_eq item with
                           | Some (k', v) => if str_eqb k k' then Some (PStr v) else None
                           | None => None
                           end) values)
  | ArgumentTypeError msg =>
      exists pre item post, values = pre ++ item :: post
        /\ Forall (fun i => 61 ∈ i) pre /\ (61 ∉ item)
        /\ msg = (py "El parámetro '" ++ item ++ py "' debe tener formato clave=valor")
  end
  /\ (forall item k v, split_eq item = Some (k, v) <-> item = k ++ 61 :: v /\ 61 ∉ k)
  /\ (forall k v, 61 ∉ k ->
        _parse_key_value_pairs [k ++ 61 :: v] = Parsed [(k, PStr v)]).
Proof.
  split; [|split].
  - unfold _parse_key_value_pairs. pose proof (parse_pairs_spec values []) as H.
    destruct (parse_pairs [] values) as [d|msg]; [|done].
    destruct H as [Hall Hget]. split; [done|]. intros k. rewrite Hget.
    by destruct (last _).
  - apply split_eq_some.
  - intros k v Hk. unfold _parse_key_value_pairs. cbn [parse_pairs].
    by rewrite (proj2 (split_eq_some (k ++ 61 :: v) k v) (conj eq_refl Hk)).
Qed.

Lemma dict_set_has_key (k k' : str) (v : pyval) (d : dict) :
  k ∈ map fst d -> k ∈ map fst (dict_set k' v d).
Proof.
  intros Hk. rewrite dict_set_keys. destruct (has_key k' d); [done|].
  apply elem_of_app. by left.
Qed.

Lemma dict_update_has_key (k : str) (e : dict) :
  forall d, k ∈ map fst d -> k ∈ map fst (dict_update d e).
Proof.
  unfold dict_update. induction e as [|[k' v] e IH]; intros d Hk; [done|].
  cbn [fold_left fst snd]. apply IH. by apply dict_set_has_key.
Qed.

(** [main] never returns: [parser.error] ends the program when an
    override has no ["="]; otherwise the call of [generate_schema]
    raises [TypeError], since [main] always passes the keyword
    [schema_only], which [generate_schema] does not have. *)
Theorem main_never_returns (E : Env) (io : IO) (args : cli_args) :
  match main E io args with
  | Returned _ _ => False
  | ParserError _ => exists item, item ∈ a_overrides args /\ 61 ∉ item
  | Uncaught e => e = TypeError /\ Forall (fun item => 61 ∈ item) (a_overrides args)
  end.
Proof.
  unfold main, _parse_key_value_pairs.
  pose proof (parse_pairs_spec (a_overrides args) []) as Hp.
  destruct (parse_pairs [] (a_overrides args)) as [ov|msg].
  - destruct Hp as [Hall _]. cbv zeta.
    set (kwargs := if opt_truthy (a_offer_catalog_key args) then _ else _).
    assert (Hk : py "schema_only" ∈ map fst kwargs).
    { subst kwargs. destruct (opt_truthy _); [apply dict_set_has_key|];
        apply dict_update_has_key, list_elem_of_further, list_elem_of_here. }
    unfold generate_schema.
    destruct (forallb _ (map fst kwargs)) eqn:Hf; [|done].
    rewrite forallb_forall in Hf. apply list_elem_of_In in Hk.
    specialize (Hf _ Hk). vm_compute in Hf. discriminate.
  - destruct Hp as (pre & item & post & Hv & _ & Hno & _). exists item.
    split; [|done]. rewrite Hv. apply elem_of_app. right. apply list_elem_of_here.
Qed.

Local Close Scope N_scope.

(* ================================================================== *)
(** ** The page text and the FAQ strategies *)
(* ================================================================== *)

Lemma node_nested_ind (P : node -> Prop) :
  (forall s, P (Text s)) ->
  (forall nm cl ats kids, Forall P kids -> P (Elem nm cl ats kids)) ->
  forall n, P n.
Proof.
  intros HT HE. fix IH 1. intros [s|nm cl ats kids]; [apply HT|].
  apply HE. induction kids as [|k ks IHks]; constructor; [apply IH|apply IHks].
Qed.

Lemma strings_elem (nm : str) (cl : list str) (ats : list (str * str)) (kids : list node) :
  strings (Elem nm cl ats kids) = flat_map strings kids.
Proof.
  cbn [strings]. induction kids as [|k ks IH]; [done|].
  cbn [flat_map]. by rewrite <- IH.
Qed.

(** [get_text] keeps the strings that are not empty once stripped. *)
Lemma kept_app (l1 l2 : list str) :
  filter (fun s => str_truthy s = true) (map strip (l1 ++ l2))
  = filter (fun s => str_truthy s = true) (map strip l1)
    ++ filter (fun s => str_truthy s = true) (map strip l2).
Proof. by rewrite map_app, filter_app. Qed.

(** Removing the elements [kill] names and then putting a space in the
    place of those [hit] names leaves [get_text] the strings that
    removing both kinds leaves. *)
Lemma kept_strings_pruned (kill hit both : einfo -> bool) (n : node) :
  (forall e, both e = kill e || hit e) ->
  filter (fun s => str_truthy s = true)
         (map strip (strings (replace_with hit (py " ") (prune kill n))))
  = filter (fun s => str_truthy s = true) (map strip (strings (prune both n))).
Proof.
  intros Hboth. induction n as [s|nm cl ats kids IH] using node_nested_ind; [done|].
  cbn [prune replace_with]. rewrite !strings_elem.
  induction IH as [|k ks Hk _ IHks]; [done|].
  destruct k as [s|nm' cl' ats' kids'].
  - cbn [flat_map]. rewrite !kept_app. by rewrite IHks.
  - rewrite Hboth.
    destruct (kill _) eqn:Hkill; cbn [orb]; [exact IHks|].
    cbn [prune] in *. cbn [replace_with] in *.
    destruct (hit _) eqn:Hhit.
    + cbn [flat_map]. rewrite kept_app. exact IHks.
    + cbn [flat_map]. rewrite !kept_app. by rewrite IHks, Hk.
Qed.

Lemma walk_pruned (kill : einfo -> bool) (n : node) (ancs : list einfo) :
  Forall (fun t => kill (t_info t) = false) (walk ancs (prune kill n)).
Proof.
  revert ancs.
  induction n as [s|nm cl ats kids IH] using node_nested_ind; intros ancs;
    [apply Forall_nil_2|].
  cbn [prune walk]. cbv zeta.
  set (ancs' := _ :: ancs). clearbody ancs'.
  induction IH as [|k ks Hk _ IHks]; [apply Forall_nil_2|].
  destruct k as [s|nm' cl' ats' kids']; [exact IHks|].
  destruct (kill _) eqn:Hkill; [exact IHks|].
  cbn [prune] in *. apply Forall_cons. split; [exact Hkill|].
  apply Forall_app. split; [apply (Hk ancs')|exact IHks].
Qed.

Lemma node_of_map_tag_prune (kill : einfo -> bool) (t : tag) :
  node_of_tag (map_tag (prune kill) t) = prune kill (node_of_tag t).
Proof. done. Qed.

Lemma node_of_map_tag_replace (hit : einfo -> bool) (s : str) (t : tag) :
  node_of_tag (map_tag (replace_with hit s) t) = replace_with hit s (node_of_tag t).
Proof. done. Qed.

Lemma bool_decide_app (x : str) (l1 l2 : list str) :
  bool_decide (x ∈ l1 ++ l2) = bool_decide (x ∈ l1) || bool_decide (x ∈ l2).
Proof.
  repeat case_bool_decide; try done; rewrite elem_of_app in *; tauto.
Qed.

(** [extract_flat_text] gives the empty string for no node.  Otherwise
    the text is that of the node once every element below it with one of
    the fifteen removed names, or named [br] or [hr], is taken out with
    all it contains: the space put in the place of a [br] or [hr] is
    dropped again by [get_text], so it separates nothing, and no such
    element is left below the node the text is read from. *)
Theorem extract_flat_text_removed (E : Env) (body : tag) :
  let removed := fun e => bool_decide (e_name e ∈ kill_names ++ [py "br"; py "hr"]) in
  extract_flat_text E None = []
  /\ extract_flat_text E (Some body)
     = clean_text E (Some (get_text (py " ") (map_tag (prune removed) body)))
  /\ Forall (fun t => e_name (t_info t) ∉ kill_names ++ [py "br"; py "hr"])
            (descendants (map_tag (prune removed) body)).
Proof.
  intros removed. split; [reflexivity|]. split.
  - unfold extract_flat_text, get_text.
    rewrite node_of_map_tag_replace, !node_of_map_tag_prune.
    do 3 f_equal.
    apply (kept_strings_pruned _ _ removed).
    intros e. apply bool_decide_app.
  - unfold descendants. rewrite node_of_map_tag_prune.
    eapply Forall_impl; [apply (walk_pruned removed)|].
    intros t Ht. unfold removed in Ht. by apply bool_decide_eq_false in Ht.
Qed.

Lemma fallback_item_question (E : Env) (n : tag) (f : faq_entry) :
  fallback_item E n = Some f -> (63%N) ∈ fst (faq_key f).
Proof.
  unfold fallback_item.
  destruct (negb (str_truthy _)) eqn:Hq; [done|].
  case_bool_decide as Hin; [|done]. cbn [negb orb].
  destruct (str_truthy _ && str_truthy _); [|done].
  by intros [= <-].
Qed.

Lemma unique_faqs_in (l : list faq_entry) (f : faq_entry) :
  f ∈ unique_faqs l -> f ∈ l.
Proof.
  induction l as [|x l IH] using rev_ind; [done|].
  rewrite unique_faqs_snoc, !elem_of_app. intros [H|H]; [left; by apply IH|].
  case_bool_decide; [by apply elem_of_nil in H|by right].
Qed.

(** [extract_faqs] uses the fallback strategy only when the accordion
    strategy found nothing, and never mixes the two.  Every entry has an
    answer that is not empty, and every entry that comes from the
    fallback strategy has a question that contains a question mark. *)
Theorem extract_faqs_entries (E : Env) (soup : tag) :
  (extract_faqs_from_nx_accordion E soup <> [] ->
     extract_faqs E soup = extract_faqs_from_nx_accordion E soup)
  /\ (extract_faqs_from_nx_accordion E soup = [] ->
        extract_faqs E soup = extract_faqs_fallback E soup
        /\ forall f, f ∈ extract_faqs E soup -> (63%N) ∈ fst (faq_key f))
  /\ forall f, f ∈ extract_faqs E soup -> snd (faq_key f) <> [].
Proof.
  unfold extract_faqs. split; [|split].
  - by destruct (extract_faqs_from_nx_accordion E soup).
  - intros ->. split; [done|]. intros f Hf.
    apply unique_faqs_in in Hf. unfold fallback_entries in Hf.
    apply list_elem_of_omap in Hf as (n & _ & Hn).
    by apply fallback_item_question in Hn.
  - intros f Hf.
    assert (f ∈ accordion_entries E soup \/ f ∈ fallback_entries E soup) as [H|H].
    { destruct (extract_faqs_from_nx_accordion E soup) eqn:Ha.
      - right. by apply unique_faqs_in.
      - left. rewrite <- Ha in Hf. by apply unique_faqs_in. }
    + unfold accordion_entries in H. apply list_elem_of_In, in_flat_map in H.
      destruct H as (root & _ & H). apply list_elem_of_In in H.
      apply list_elem_of_omap in H as (li & _ & Hli).
      by apply accordion_item_answer in Hli.
    + unfold fallback_entries in H.
      apply list_elem_of_omap in H as (n & _ & Hn).
      by apply fallback_item_nonempty in Hn as [_ ?].
Qed.

